(** * Call routing, availability and SMS automations of the Telnyx back office

    A shallow embedding of [telnyxService.js], [calendarService.js] and
    [smsAutomationService.js].

    Conventions of the embedding.
    - JavaScript strings are [string]s of 8-bit characters; the models of
      [toLowerCase], of the [.] wildcard and of [encodeURIComponent] are
      exact on ASCII text (on a UTF-8 text [encodeURIComponent] is exact as
      well, it escapes byte by byte).
    - A property that may be [undefined], [null] or absent is an [option];
      JavaScript truthiness is written out ([truthy]).
    - [Date] values are milliseconds since the epoch, in [Z].
    - The Telnyx client, the user collection and the clock are the
      environment: the client and [User.findById] are oracles that may
      throw, every command handed to the client is appended to a log kept
      in the [World], and [setTimeout] appends to a list of pending
      timers, each with the delay after which Node lets it come due.
    - The automation collection is a list kept in the [World]; its
      queries and updates always answer. *)

From Stdlib Require Import String Ascii List Bool Arith ZArith NArith Lia.
From Stdlib Require Import DecimalString.
Import ListNotations.
Local Open Scope string_scope.

(* ================================================================== *)
(** * JavaScript strings *)
(* ================================================================== *)

Module Js.

Definition code (c : ascii) : N := N_of_ascii c.

(** [String.prototype.toLowerCase], on ASCII letters. *)
Definition lower_char (c : ascii) : ascii :=
  if (65 <=? code c)%N && (code c <=? 90)%N
  then ascii_of_N (code c + 32) else c.

Fixpoint toLowerCase (s : string) : string :=
  match s with
  | EmptyString => EmptyString
  | String c s' => String (lower_char c) (toLowerCase s')
  end.

(** [s.includes(sub)]. *)
Fixpoint includes (s sub : string) : bool :=
  if String.prefix sub s then true
  else match s with
       | EmptyString => false
       | String _ s' => includes s' sub
       end.

(** [s.split(' ')[0]]: the text before the first space. *)
Fixpoint split_space_0 (s : string) : string :=
  match s with
  | EmptyString => EmptyString
  | String c s' =>
      if Ascii.eqb c " " then EmptyString else String c (split_space_0 s')
  end.

(** The relational operators on strings compare code units
    lexicographically: [a <= b] and [a >= b]. *)
Definition le (a b : string) : bool := String.leb a b.
Definition ge (a b : string) : bool := String.leb b a.
Definition gt (a b : string) : bool := String.ltb b a.

(** Truthiness of a string-valued property: [undefined], [null] and the
    empty string are falsy. *)
Definition truthy (o : option string) : bool :=
  match o with
  | Some s => negb (s =? "")
  | None => false
  end.

(** [a || b] on a string-valued property with a string default. *)
Definition or_else (o : option string) (d : string) : string :=
  match o with
  | Some s => if s =? "" then d else s
  | None => d
  end.

Definition hex_digit (n : N) : ascii :=
  if (n <? 10)%N then ascii_of_N (48 + n) else ascii_of_N (55 + n).

(** The characters [encodeURIComponent] leaves alone:
    [A-Z a-z 0-9 - _ . ! ~ * ' ( )]. *)
Definition uri_unreserved (c : ascii) : bool :=
  let n := code c in
  ((65 <=? n) && (n <=? 90) || (97 <=? n) && (n <=? 122)
   || (48 <=? n) && (n <=? 57))%N
  || existsb (Ascii.eqb c) ["-"; "_"; "."; "!"; "~"; "*"; "'"; "("; ")"]%char.

Fixpoint encodeURIComponent (s : string) : string :=
  match s with
  | EmptyString => EmptyString
  | String c s' =>
      if uri_unreserved c then String c (encodeURIComponent s')
      else String "%" (String (hex_digit (code c / 16))
             (String (hex_digit (code c mod 16)) (encodeURIComponent s')))
  end.

(** Two decimal digits, zero padded: the [HH] and [mm] of moment. *)
Definition two_digits (n : nat) : string :=
  String (ascii_of_nat (48 + (n / 10) mod 10))
    (String (ascii_of_nat (48 + n mod 10)) EmptyString).

End Js.

(* ================================================================== *)
(** * The clock *)
(* ================================================================== *)

Inductive Weekday :=
  Sunday | Monday | Tuesday | Wednesday | Thursday | Friday | Saturday.

(** One reading of the clock: what [new Date()] and [moment()] see.
    [localeDate] and [localeTime] are the host's [toLocaleDateString()]
    and [toLocaleTimeString()]. *)
Record Clock := {
  now : Z;
  weekday : Weekday;
  hour : nat;
  minute : nat;
  localeDate : string;
  localeTime : string
}.

(** [moment().format('dddd')], also
    [toLocaleDateString('en-US', {weekday: 'long'})]. *)
Definition format_dddd (d : Weekday) : string :=
  match d with
  | Sunday => "Sunday" | Monday => "Monday" | Tuesday => "Tuesday"
  | Wednesday => "Wednesday" | Thursday => "Thursday" | Friday => "Friday"
  | Saturday => "Saturday"
  end.

(** [moment().format('HH:mm')]. *)
Definition format_HHmm (c : Clock) : string :=
  Js.two_digits (hour c) ++ ":" ++ Js.two_digits (minute c).

(* ================================================================== *)
(** * Data model (models/User.js) *)
(* ================================================================== *)

Module Day.
Record t := {
  day : string;
  isAvailable : bool;
  startTime : string;
  endTime : string
}.
End Day.

Module Event.
Record t := {
  eventId : string;
  title : string;
  startTime : Z;
  endTime : Z;
  status : string;
  makeUnavailable : bool
}.
End Event.

Module Calendar.
Record t := {
  enabled : bool;
  events : list Event.t;
  makeUnavailableDuringEvents : bool
}.
End Calendar.

Module User.
Record t := {
  name : string;
  email : option string;
  phoneNumber : option string;
  telnyxPhoneNumber : option string;
  availability : list Day.t;
  calendarIntegration : option Calendar.t;
  voicemailGreeting : string;
  voicemailGreetingUrl : option string;
  routeToLiveAgent : bool;
  liveAgentNumber : option string
}.
End User.

(* ================================================================== *)
(** * calendarService.js *)
(* ================================================================== *)

Module CalendarService.

(** The callback of [events.find] in [isUserInMeeting]. *)
Definition happening_now (clk : Clock) (event : Event.t) : bool :=
  if Event.status event =? "cancelled" then false
  else if negb (Event.makeUnavailable event) then false
  else (Event.startTime event <=? now clk)%Z
       && (now clk <=? Event.endTime event)%Z.

Definition isUserInMeeting (clk : Clock) (user : User.t) : bool :=
  match User.calendarIntegration user with
  | None => false
  | Some cal =>
      if negb (Calendar.enabled cal)
         || negb (Calendar.makeUnavailableDuringEvents cal)
      then false
      else
        match find (happening_now clk) (Calendar.events cal) with
        | Some _ => true
        | None => false
        end
  end.

End CalendarService.

(* ================================================================== *)
(** * Data model (models/SmsAutomation.js, models/SmsTemplate.js) *)
(* ================================================================== *)

Module Template.
Record t := {
  name : string;
  content : string
}.
End Template.

Module Condition.
Record params := {
  keywords : option (list string);
  time : option string;
  daysOfWeek : list string;
  availabilityStatus : option string
}.
Record t := {
  type : string;
  parameters : option params
}.
End Condition.

Module Delay.
(** [value] is a Number; the embedding takes the whole numbers a Number
    holds exactly, a fraction of a unit is outside it. [None] stands for
    a missing value. *)
Record t := {
  value : option Z;
  unit : option string
}.
End Delay.

Module Action.
Record params := {
  template : option Template.t;
  message : option string;
  delay : option Delay.t;
  notifyMethod : option string;
  notifyUsers : list string
}.
Record t := {
  type : string;
  parameters : option params
}.
End Action.

Module Stats.
Record t := {
  timesTriggered : Z;
  lastTriggered : option Z;
  successCount : Z;
  errorCount : Z
}.
End Stats.

Module Automation.
Record t := {
  _id : string;
  name : string;
  isActive : bool;
  user : string;
  phoneNumber : string;
  conditions : list Condition.t;
  actions : list Action.t;
  statistics : Stats.t
}.
End Automation.

(** The payload of a call webhook handed on as [context.callData]. *)
Module CallData.
Record t := {
  duration : option Z
}.
End CallData.

(** The context object the entry points build and hand to the actions.
    A field an entry point does not set is [None]. *)
Module Context.
Record t := {
  messageText : option string;
  from : option string;
  to : option string;
  automationId : option string;
  callEventType : option string;
  callData : option CallData.t;
  scheduledTime : option string;
  dayOfWeek : option string;
  user : option User.t;
  userId : option string;
  availabilityStatus : option string
}.

Definition empty : t :=
  {| messageText := None; from := None; to := None; automationId := None;
     callEventType := None; callData := None; scheduledTime := None;
     dayOfWeek := None; user := None; userId := None;
     availabilityStatus := None |}.
End Context.

(** The inbound message of the webhook: [{to, from, text}]. *)
Module Sms.
Record t := {
  to : string;
  from : string;
  text : string
}.
End Sms.

(** The call data the webhook hands to [processCallEvent]:
    [{to, from, eventType, hangupCause?, isVoicemail?, duration?}]. *)
Module CallEvent.
Record t := {
  to : string;
  from : string;
  eventType : string;
  hangupCause : option string;
  isVoicemail : bool;
  duration : option Z
}.
End CallEvent.

(* ================================================================== *)
(** * The environment: Telnyx commands, timers, the world *)
(* ================================================================== *)

(** The second argument of [telnyxClient.calls.update], by [command_id].
    [webhook_url] is [process.env.WEBHOOK_URL]. *)
Inductive CallCommand :=
| Answer (client_state : option string)
| Transfer (to : option string) (timeout_secs : option Z)
    (webhook_url : option string) (webhook_type : string)
| PlayAudio (audio_url : string) (client_state : option string)
| Gather (max_digits timeout_secs : Z) (client_state : string)
| Speak (payload voice language : string)
| RecordStart (format channels : string) (play_beep : bool).

(** The argument of [telnyxClient.messages.create]. *)
Module Message.
Record t := {
  from : string;
  to : string;
  text : string
}.
End Message.

(** What a timer callback closes over. *)
Inductive Deferred :=
| DeferRecordStart (callControlId : string)
| DeferAction (automationId : string) (action : Action.t)
    (context : Context.t).

Record World := {
  calls : list (string * CallCommand);
  messages : list Message.t;
  timers : list (option Z * Deferred);
  automations : list Automation.t
}.

Definition log_call (id : string) (cmd : CallCommand) (w : World) : World :=
  {| calls := calls w ++ [(id, cmd)]; messages := messages w;
     timers := timers w; automations := automations w |}.

Definition log_message (m : Message.t) (w : World) : World :=
  {| calls := calls w; messages := messages w ++ [m];
     timers := timers w; automations := automations w |}.

Definition add_timer (ms : option Z) (cb : Deferred) (w : World) : World :=
  {| calls := calls w; messages := messages w;
     timers := timers w ++ [(ms, cb)]; automations := automations w |}.

Definition set_automations (l : list Automation.t) (w : World) : World :=
  {| calls := calls w; messages := messages w;
     timers := timers w; automations := l |}.

(** The result of an awaited call: a value, or a thrown [Error] with its
    message. *)
Inductive outcome (A : Type) :=
| Return (a : A)
| Throw (message : string).
Arguments Return {A} a.
Arguments Throw {A} message.

(** Computations over the world. A throw keeps the world reached so far:
    a command that was sent stays sent. *)
Definition M (A : Type) : Type := World -> outcome A * World.

Definition ret {A} (a : A) : M A := fun w => (Return a, w).

Definition throw {A} (message : string) : M A := fun w => (Throw message, w).

Definition bind {A B} (m : M A) (k : A -> M B) : M B :=
  fun w =>
    match m w with
    | (Return a, w') => k a w'
    | (Throw e, w') => (Throw e, w')
    end.

Definition try_catch {A} (body : M A) (handler : string -> M A) : M A :=
  fun w =>
    match body w with
    | (Return a, w') => (Return a, w')
    | (Throw e, w') => handler e w'
    end.

Declare Scope js_scope.
Delimit Scope js_scope with js.
Notation "x <- m ;; k" := (bind m (fun x => k))
  (at level 61, m at next level, right associativity) : js_scope.
Notation "m ;; k" := (bind m (fun _ => k))
  (at level 61, right associativity) : js_scope.

(** The longest delay a timer of Node takes, [2^31 - 1] milliseconds. *)
Definition TIMEOUT_MAX : Z := 2147483647.

(** The delay Node gives a timer asked for after [ms] milliseconds: a
    delay that is not a number from 1 to [TIMEOUT_MAX] is set to 1
    ([None] is NaN). *)
Definition timeout_after (ms : option Z) : Z :=
  match ms with
  | Some v => if (1 <=? v)%Z && (v <=? TIMEOUT_MAX)%Z then v else 1%Z
  | None => 1%Z
  end.

(** [setTimeout(callback, ms)]: the timer is kept with the delay after
    which it comes due. *)
Definition setTimeout (cb : Deferred) (ms : option Z) : M unit :=
  fun w => (Return tt, add_timer (Some (timeout_after ms)) cb w).

(** Responses of the Telnyx client: [result.data] of a call command and
    [message.data.id] of a sent message. *)
Definition Data := string.

(** The Telnyx client. Each oracle sees the commands sent before. *)
Record Telnyx := {
  calls_update_oracle :
    list (string * CallCommand) -> string -> CallCommand -> outcome Data;
  messages_create_oracle :
    list Message.t -> Message.t -> outcome Data
}.

(** The process environment and the user collection. *)
Record Env := {
  telnyxClient : Telnyx;
  WEBHOOK_URL : option string;
  User_findById : string -> outcome (option User.t)
}.

(* ================================================================== *)
(** * telnyxService.js *)
(* ================================================================== *)

Module TelnyxService.

Definition RING_TIMEOUT_SECONDS : Z := 15.

Definition CENTRAL_FORWARDING_NUMBER : string := "+18446942885".

Definition UNAVAILABLE_PROMPT_URL : string :=
  "https://raw.githubusercontent.com/GavvlLaw/voicemail-greetings/main/Unavailable".

Definition GREETINGS_BASE_URL : string :=
  "https://raw.githubusercontent.com/GavvlLaw/voicemail-greetings/main/".

(** What the call handlers return: [{action, result, message?}]. *)
Record CallResult := {
  action : string;
  result : Data;
  message : option string
}.

(** The payload of a [call.gather.ended] event; [digit] is absent when
    the gather timed out. *)
Record GatherPayload := {
  call_control_id : string;
  digit : option string
}.

(** ** isUserAvailable *)

Definition dayOfWeek (clk : Clock) : string :=
  Js.toLowerCase (format_dddd (weekday clk)).

Definition currentTime (clk : Clock) : string := format_HHmm clk.

Definition dayAvailability (clk : Clock) (user : User.t) : option Day.t :=
  find (fun a => Day.day a =? dayOfWeek clk) (User.availability user).

Definition isUserAvailable (clk : Clock) (user : User.t) : bool :=
  if CalendarService.isUserInMeeting clk user then false
  else
    match dayAvailability clk user with
    | None => false
    | Some d =>
        if negb (Day.isAvailable d) then false
        else Js.ge (currentTime clk) (Day.startTime d)
             && Js.le (currentTime clk) (Day.endTime d)
    end.

(** ** generateGitHubVoicemailUrl; [sendToVoicemail] spells out the same
    expression for its default greeting. *)
Definition generateGitHubVoicemailUrl (user : User.t) : string :=
  let firstName := Js.split_space_0 (User.name user) in
  let encodedName := Js.encodeURIComponent (firstName ++ " Voicemail.mp3") in
  GREETINGS_BASE_URL ++ encodedName.

Section WithEnv.

Variable env : Env.

Local Open Scope js_scope.

(** [await telnyxClient.calls.update(id, cmd)], giving [result.data]. *)
Definition calls_update (id : string) (cmd : CallCommand) : M Data :=
  fun w =>
    (calls_update_oracle (telnyxClient env) (calls w) id cmd,
     log_call id cmd w).

(** [await telnyxClient.messages.create(m)], giving [message.data.id]. *)
Definition messages_create (m : Message.t) : M Data :=
  fun w =>
    (messages_create_oracle (telnyxClient env) (messages w) m,
     log_message m w).

(** ** sendSMS *)
Definition sendSMS (from to text : string) : M Data :=
  try_catch
    (messages_create
       {| Message.from := from; Message.to := to; Message.text := text |})
    (fun error => throw ("Failed to send SMS: " ++ error)).

(** ** sendToVoicemail *)

(** The greeting the recorder plays: the user's own URL, or the file
    named after the first name in the greetings repository. *)
Definition greetingUrl (user : User.t) : string :=
  if Js.truthy (User.voicemailGreetingUrl user) then
    match User.voicemailGreetingUrl user with
    | Some url => url
    | None => EmptyString
    end
  else generateGitHubVoicemailUrl user.

Definition record_start : CallCommand := RecordStart "mp3" "single" true.

Definition sendToVoicemail (callControlId : string) (user : User.t)
  : M CallResult :=
  try_catch
    (let audioUrl := greetingUrl user in
     try_catch
       (result <- calls_update callControlId (PlayAudio audioUrl None) ;;
        setTimeout (DeferRecordStart callControlId) (Some 1000%Z) ;;
        ret {| action := "voicemail"; result := result; message := None |})
       (fun audioError =>
          result <- calls_update callControlId
                      (Speak (User.voicemailGreeting user) "female" "en-US") ;;
          calls_update callControlId record_start ;;
          ret {| action := "voicemail"; result := result;
                 message := None |}))
    (fun error => throw ("Failed to send to voicemail: " ++ error)).

(** ** handleUnavailableDTMF

    The voicemail branches hand back the promise of [sendToVoicemail]
    without awaiting it, so its rejection passes by the [catch] of this
    function; only the transfer of option 2 is awaited inside the
    [try]. *)
Definition forwardToCentral (callControlId : string) : M CallResult :=
  try_catch
    (result <- calls_update callControlId
                 (Transfer (Some CENTRAL_FORWARDING_NUMBER) None
                    (WEBHOOK_URL env) "transfer") ;;
     ret {| action := "forwarded_to_central"; result := result;
            message := None |})
    (fun error => throw ("Failed to handle DTMF input: " ++ error)).

Definition handleUnavailableDTMF (event : GatherPayload) (user : User.t)
  : M CallResult :=
  match digit event with
  | Some d =>
      if d =? "1" then sendToVoicemail (call_control_id event) user
      else if d =? "2" then forwardToCentral (call_control_id event)
      else sendToVoicemail (call_control_id event) user
  | None => sendToVoicemail (call_control_id event) user
  end.

(** ** handleIncomingCall *)
Definition handleIncomingCall (clk : Clock) (user : User.t)
  (callControlId : string) : M CallResult :=
  try_catch
    (let isAvailable := isUserAvailable clk user in
     if isAvailable then
       calls_update callControlId (Answer (Some "awaiting-transfer")) ;;
       result <- calls_update callControlId
                   (Transfer (User.phoneNumber user)
                      (Some RING_TIMEOUT_SECONDS) (WEBHOOK_URL env)
                      "transfer") ;;
       ret {| action := "forwarded"; result := result; message := None |}
     else if User.routeToLiveAgent user
             && Js.truthy (User.liveAgentNumber user) then
       calls_update callControlId (Answer (Some "awaiting-transfer")) ;;
       result <- calls_update callControlId
                   (Transfer (User.liveAgentNumber user)
                      (Some RING_TIMEOUT_SECONDS) (WEBHOOK_URL env)
                      "transfer") ;;
       ret {| action := "routed_to_agent"; result := result;
              message := None |}
     else
       calls_update callControlId (Answer None) ;;
       result <- calls_update callControlId
                   (PlayAudio UNAVAILABLE_PROMPT_URL
                      (Some "gathering-input")) ;;
       calls_update callControlId (Gather 1 5 "unavailable-flow") ;;
       ret {| action := "unavailable_prompt"; result := result;
              message := Some
                "Playing unavailable prompt with options: 1 for voicemail, 2 for central number" |})
    (fun error => throw ("Failed to handle call: " ++ error)).

(** The callback of the one-second timer of [sendToVoicemail]. A
    rejection inside it is not handled by anyone. *)
Definition fireRecordStart (callControlId : string) : M unit :=
  try_catch (calls_update callControlId record_start ;; ret tt)
    (fun _ => ret tt).

End WithEnv.

End TelnyxService.

(* ================================================================== *)
(** * Regular expressions of the template renderer *)
(* ================================================================== *)

(** [processTemplate] builds [new RegExp(key, 'g')] from each key of its
    variable table. The keys are made of letters, braces and dots: a brace
    that opens no quantifier is a literal character, a dot is the wildcard
    for any character but a line terminator. *)
Module Regex.

Inductive atom :=
| Lit (c : ascii)
| AnyChar.

Fixpoint compile (key : string) : list atom :=
  match key with
  | EmptyString => []
  | String c key' =>
      (if Ascii.eqb c "." then AnyChar else Lit c) :: compile key'
  end.

Definition line_terminator (c : ascii) : bool :=
  (Js.code c =? 10)%N || (Js.code c =? 13)%N.

Definition atom_matches (a : atom) (c : ascii) : bool :=
  match a with
  | Lit c' => Ascii.eqb c' c
  | AnyChar => negb (line_terminator c)
  end.

(** Does the pattern match at the start of [s]? *)
Fixpoint match_here (pat : list atom) (s : string) : bool :=
  match pat, s with
  | [], _ => true
  | _ :: _, EmptyString => false
  | a :: pat', String c s' => atom_matches a c && match_here pat' s'
  end.

Fixpoint take (n : nat) (s : string) : string :=
  match n, s with
  | S n', String c s' => String c (take n' s')
  | _, _ => EmptyString
  end.

Fixpoint drop (n : nat) (s : string) : string :=
  match n, s with
  | S n', String _ s' => drop n' s'
  | _, _ => s
  end.

(** GetSubstitution for a pattern without capture groups: [$$] is a
    dollar, [$&] the match, [$`] the text before it and [$'] the text
    after it; every other character stands for itself. *)
Fixpoint getSubstitution (matched before after replacement : string)
  : string :=
  match replacement with
  | EmptyString => EmptyString
  | String "$" (String "$" r) =>
      String "$" (getSubstitution matched before after r)
  | String "$" (String "&" r) =>
      matched ++ getSubstitution matched before after r
  | String "$" (String "`" r) =>
      before ++ getSubstitution matched before after r
  | String "$" (String "'" r) =>
      after ++ getSubstitution matched before after r
  | String c r => String c (getSubstitution matched before after r)
  end.

(** The scan of [s.replace(re, replacement)] with a global, non-empty
    pattern: [before] is the text already passed and [skip] counts the
    characters of the current match still to be passed over. *)
Fixpoint replace_scan (pat : list atom) (replacement before : string)
  (skip : nat) (s : string) : string :=
  match s with
  | EmptyString => EmptyString
  | String c s' =>
      match skip with
      | S k =>
          replace_scan pat replacement (before ++ String c EmptyString) k s'
      | O =>
          if match_here pat s then
            getSubstitution (take (List.length pat) s) before
              (drop (List.length pat) s) replacement
            ++ replace_scan pat replacement (before ++ String c EmptyString)
                 (List.length pat - 1) s'
          else
            String c
              (replace_scan pat replacement (before ++ String c EmptyString)
                 0 s')
      end
  end.

(** [content.replace(new RegExp(key, 'g'), value)]. *)
Definition replace_all (key value content : string) : string :=
  replace_scan (compile key) value EmptyString 0 content.

End Regex.

(* ================================================================== *)
(** * smsAutomationService.js *)
(* ================================================================== *)

Module SmsAutomationService.

(** The result object of one action, by shape. *)
Inductive ActionResult :=
| SendSmsSuccess (messageId : Data) (to from : string)
| NotifySuccess (notifyMethod : string)
| Skipped (type reason : string)
| ActionError (type error : string)
| Scheduled (type delay : string).

Definition status (r : ActionResult) : string :=
  match r with
  | SendSmsSuccess _ _ _ => "success"
  | NotifySuccess _ => "success"
  | Skipped _ _ => "skipped"
  | ActionError _ _ => "error"
  | Scheduled _ _ => "scheduled"
  end.

(** What the entry points return: [{processed: false, reason}] or
    [{processed, triggeredAutomations, total}]. *)
Inductive ProcessResult :=
| NotProcessed (reason : string)
| Summary (processed : bool) (triggeredAutomations : list string)
    (total : nat).

Definition summary (triggeredAutomations : list string) : ProcessResult :=
  Summary (Nat.ltb 0 (List.length triggeredAutomations)) triggeredAutomations
    (List.length triggeredAutomations).

(** ** The automation collection *)

Definition has_condition (p : Condition.t -> bool) (a : Automation.t)
  : bool :=
  existsb p (Automation.conditions a).

Definition type_in (types : list string) (c : Condition.t) : bool :=
  existsb (String.eqb (Condition.type c)) types.

(** [SmsAutomation.find({isActive: true, phoneNumber: to,
    'conditions.type': {$in: ['incomingSms', 'keywordSms']}})]. *)
Definition find_for_sms (to : string) (db : list Automation.t)
  : list Automation.t :=
  filter (fun a =>
            Automation.isActive a
            && (Automation.phoneNumber a =? to)
            && has_condition (type_in ["incomingSms"; "keywordSms"]) a)
    db.

Definition param_is {A} (get : Condition.params -> A) (p : A -> bool)
  (c : Condition.t) : bool :=
  match Condition.parameters c with
  | Some ps => p (get ps)
  | None => false
  end.

Definition option_is (v : string) (o : option string) : bool :=
  match o with
  | Some s => s =? v
  | None => false
  end.

(** The query of [processScheduledAutomations]; each clause of a query
    on an array of sub-documents is met by any element of the array. *)
Definition find_scheduled (timeNow dayOfWeek : string)
  (db : list Automation.t) : list Automation.t :=
  filter (fun a =>
            Automation.isActive a
            && has_condition (type_in ["scheduledTime"]) a
            && has_condition
                 (param_is Condition.time (option_is timeNow)) a
            && has_condition
                 (param_is Condition.daysOfWeek
                    (existsb (String.eqb dayOfWeek))) a)
    db.

(** The query of [processAvailabilityChange]. *)
Definition find_availability (phone availabilityStatus : string)
  (db : list Automation.t) : list Automation.t :=
  filter (fun a =>
            Automation.isActive a
            && (Automation.phoneNumber a =? phone)
            && has_condition (type_in ["availability"]) a
            && (has_condition
                  (param_is Condition.availabilityStatus
                     (option_is availabilityStatus)) a
                || has_condition
                     (param_is Condition.availabilityStatus
                        (option_is "any")) a))
    db.

Definition with_statistics (a : Automation.t) (st : Stats.t)
  : Automation.t :=
  {| Automation._id := Automation._id a;
     Automation.name := Automation.name a;
     Automation.isActive := Automation.isActive a;
     Automation.user := Automation.user a;
     Automation.phoneNumber := Automation.phoneNumber a;
     Automation.conditions := Automation.conditions a;
     Automation.actions := Automation.actions a;
     Automation.statistics := st |}.

Fixpoint update_by_id (id : string) (f : Stats.t -> Stats.t)
  (db : list Automation.t) : list Automation.t :=
  match db with
  | [] => []
  | a :: rest =>
      if Automation._id a =? id
      then with_statistics a (f (Automation.statistics a)) :: rest
      else a :: update_by_id id f rest
  end.

(** [{$inc: {timesTriggered: 1, successCount: 1},
     $set: {lastTriggered: new Date()}}]. *)
Definition triggered (clk : Clock) (st : Stats.t) : Stats.t :=
  {| Stats.timesTriggered := Stats.timesTriggered st + 1;
     Stats.lastTriggered := Some (now clk);
     Stats.successCount := Stats.successCount st + 1;
     Stats.errorCount := Stats.errorCount st |}.

Definition inc_successCount (st : Stats.t) : Stats.t :=
  {| Stats.timesTriggered := Stats.timesTriggered st;
     Stats.lastTriggered := Stats.lastTriggered st;
     Stats.successCount := Stats.successCount st + 1;
     Stats.errorCount := Stats.errorCount st |}.

Definition inc_errorCount (st : Stats.t) : Stats.t :=
  {| Stats.timesTriggered := Stats.timesTriggered st;
     Stats.lastTriggered := Stats.lastTriggered st;
     Stats.successCount := Stats.successCount st;
     Stats.errorCount := Stats.errorCount st + 1 |}.

(** The collection is the list kept in the world and it always answers:
    a query or an update the driver rejects (the database being out of
    reach) is outside the embedding.

    [SmsAutomation.findById(id)]. *)
Definition findById (id : string) : M (option Automation.t) :=
  fun w =>
    (Return (find (fun a => Automation._id a =? id) (automations w)), w).

(** [SmsAutomation.findByIdAndUpdate(id, update)]. *)
Definition findByIdAndUpdate (id : option string) (f : Stats.t -> Stats.t)
  : M unit :=
  fun w =>
    match id with
    | Some i => (Return tt, set_automations (update_by_id i f (automations w)) w)
    | None => (Return tt, w)
    end.

(** ** checkTriggerConditions *)

(** The keyword list of a condition, when there is one to look at. *)
Definition keywords_of (condition : Condition.t) : option (list string) :=
  match Condition.parameters condition with
  | None => None
  | Some ps =>
      match Condition.keywords ps with
      | None => None
      | Some [] => None
      | Some kws => Some kws
      end
  end.

(** The body of the [try]: the loop over the conditions. Reading
    [context.messageText.toLowerCase()] throws when the context has no
    message text. *)
Fixpoint conditions_loop (conditions : list Condition.t)
  (context : Context.t) : outcome bool :=
  match conditions with
  | [] => Return false
  | condition :: rest =>
      if Condition.type condition =? "incomingSms" then Return true
      else if Condition.type condition =? "keywordSms" then
        match keywords_of condition with
        | None => conditions_loop rest context
        | Some keywords =>
            match Context.messageText context with
            | None =>
                Throw "Cannot read properties of undefined (reading 'toLowerCase')"
            | Some text =>
                let messageText := Js.toLowerCase text in
                let hasKeyword :=
                  existsb (fun keyword =>
                             Js.includes messageText (Js.toLowerCase keyword))
                    keywords in
                if hasKeyword then Return true
                else conditions_loop rest context
            end
        end
      else conditions_loop rest context
  end.

Definition checkTriggerConditions (automation : Automation.t)
  (context : Context.t) : bool :=
  match Automation.conditions automation with
  | [] => false
  | conditions =>
      match conditions_loop conditions context with
      | Return b => b
      | Throw _ => false
      end
  end.

Definition string_of_number (v : Z) : string :=
  NilZero.string_of_int (Z.to_int v).

(** ** processTemplate *)

(** The variable table, in the order of its keys. *)
Definition variables (clk : Clock) (user : option User.t)
  (context : Context.t) : list (string * string) :=
  [ ("{{user.name}}",
     Js.or_else (option_map User.name user) "User");
    ("{{user.firstName}}",
     Js.or_else
       (option_map (fun u => Js.split_space_0 (User.name u)) user) "User");
    ("{{user.email}}",
     Js.or_else (match user with Some u => User.email u | None => None end)
       "");
    ("{{user.phone}}",
     Js.or_else
       (match user with Some u => User.phoneNumber u | None => None end) "");
    ("{{date}}", localeDate clk);
    ("{{time}}", localeTime clk);
    ("{{day}}", format_dddd (weekday clk));
    ("{{sender}}", Js.or_else (Context.from context) "");
    ("{{message}}", Js.or_else (Context.messageText context) "");
    ("{{callType}}", Js.or_else (Context.callEventType context) "");
    ("{{callDuration}}",
     match Context.callData context with
     | Some cd =>
         match CallData.duration cd with
         | Some d => if (d =? 0)%Z then "0" else string_of_number d
         | None => "0"
         end
     | None => "0"
     end);
    ("{{availability}}",
     Js.or_else (Context.availabilityStatus context) "") ].

(** The [forEach] over the keys: each replacement works on the result
    of the one before. *)
Definition replace_variables (table : list (string * string))
  (content : string) : string :=
  fold_left (fun content kv => Regex.replace_all (fst kv) (snd kv) content)
    table content.

Section WithEnv.

Variable env : Env.

Local Open Scope js_scope.

(** The user the table is filled from: [context.user], else the user
    looked up by [context.userId]. *)
Definition template_user (context : Context.t) : outcome (option User.t) :=
  match Context.user context with
  | Some u => Return (Some u)
  | None =>
      match Context.userId context with
      | Some id =>
          if negb (id =? "") then User_findById env id else Return None
      | None => Return None
      end
  end.

Definition processTemplate (clk : Clock) (template : Template.t)
  (context : Context.t) : string :=
  match template_user context with
  | Return user =>
      replace_variables (variables clk user context)
        (Template.content template)
  | Throw _ => Template.content template
  end.

(** ** executeSendSmsAction *)

(** [context.to || context.user?.telnyxPhoneNumber]. *)
Definition sender_number (context : Context.t) : option string :=
  if Js.truthy (Context.to context) then Context.to context
  else match Context.user context with
       | Some u => User.telnyxPhoneNumber u
       | None => None
       end.

Definition executeSendSmsAction (clk : Clock) (action : Action.t)
  (context : Context.t) : M ActionResult :=
  try_catch
    (match Action.parameters action with
     | None => throw "Missing action parameters"
     | Some ps =>
         messageText <-
           match Action.template ps with
           | Some template => ret (processTemplate clk template context)
           | None =>
               match Action.message ps with
               | Some m =>
                   if negb (m =? "") then ret m
                   else throw "No template or message provided for SMS action"
               | None =>
                   throw "No template or message provided for SMS action"
               end
           end ;;
         match sender_number context, Context.from context with
         | Some from, Some to =>
             if (from =? "") || (to =? "")
             then throw "Missing required to/from phone numbers"
             else
               result <- TelnyxService.sendSMS env from to messageText ;;
               ret (SendSmsSuccess result to from)
         | _, _ => throw "Missing required to/from phone numbers"
         end
     end)
    (fun error => throw error).

(** ** executeNotifyAction *)
Definition executeNotifyAction (action : Action.t) (context : Context.t)
  : M ActionResult :=
  ret (NotifySuccess
         (Js.or_else
            (match Action.parameters action with
             | Some ps => Action.notifyMethod ps
             | None => None
             end) "app")).

(** ** executeAction *)
Definition executeAction (clk : Clock) (action : Action.t)
  (context : Context.t) : M ActionResult :=
  try_catch
    (if Action.type action =? "sendSms"
     then executeSendSmsAction clk action context
     else if Action.type action =? "notify"
     then executeNotifyAction action context
     else ret (Skipped (Action.type action) "Action type not implemented"))
    (fun error => ret (ActionError (Action.type action) error)).

(** ** scheduleDelayedAction *)

(** The delay in milliseconds; [None] is the NaN of a missing value. *)
Definition delayMs (d : Delay.t) : option Z :=
  if option_is "hours" (Delay.unit d)
  then option_map (fun v => v * 60 * 60 * 1000)%Z (Delay.value d)
  else if option_is "days" (Delay.unit d)
  then option_map (fun v => v * 24 * 60 * 60 * 1000)%Z (Delay.value d)
  else option_map (fun v => v * 60 * 1000)%Z (Delay.value d).

(** [action.parameters.delay], read where the caller has checked it. *)
Definition delay_of (action : Action.t) : option Delay.t :=
  match Action.parameters action with
  | Some ps => Action.delay ps
  | None => None
  end.

Definition scheduleDelayedAction (automationId : string)
  (action : Action.t) (context : Context.t) : M unit :=
  try_catch
    (match delay_of action with
     | Some d =>
         setTimeout (DeferAction automationId action context) (delayMs d)
     | None =>
         throw "Cannot read properties of undefined (reading 'delay')"
     end)
    (fun error => throw error).

(** The callback handed to [setTimeout]. *)
Definition delayedCallback (clk : Clock) (automationId : string)
  (action : Action.t) (context : Context.t) : M unit :=
  try_catch
    (automation <- findById automationId ;;
     match automation with
     | None => ret tt
     | Some a =>
         if negb (Automation.isActive a) then ret tt
         else
           executeAction clk action context ;;
           findByIdAndUpdate (Some automationId) inc_successCount
     end)
    (fun error => findByIdAndUpdate (Some automationId) inc_errorCount).

(** ** executeAutomationActions *)

(** [action.parameters && action.parameters.delay &&
    action.parameters.delay.value > 0]. *)
Definition is_delayed (action : Action.t) : bool :=
  match delay_of action with
  | Some d =>
      match Delay.value d with
      | Some v => (0 <? v)%Z
      | None => false
      end
  | None => false
  end.

(** The template literal [`${delay.value} ${delay.unit}`]. *)
Definition delay_text (action : Action.t) : string :=
  match delay_of action with
  | Some d =>
      match Delay.value d with
      | Some v => string_of_number v
      | None => "undefined"
      end ++ " " ++
      match Delay.unit d with
      | Some u => u
      | None => "undefined"
      end
  | None => "undefined undefined"
  end.

Fixpoint actions_loop (clk : Clock) (automationId : string)
  (actions : list Action.t) (context : Context.t)
  (results : list ActionResult) : M (list ActionResult) :=
  match actions with
  | [] => ret results
  | action :: rest =>
      if is_delayed action then
        scheduleDelayedAction automationId action context ;;
        actions_loop clk automationId rest context
          (results ++ [Scheduled (Action.type action) (delay_text action)])
      else
        result <- executeAction clk action context ;;
        actions_loop clk automationId rest context (results ++ [result])
  end.

Definition executeAutomationActions (clk : Clock)
  (automation : Automation.t) (context : Context.t)
  : M (list ActionResult) :=
  try_catch
    (actions_loop clk (Automation._id automation)
       (Automation.actions automation) context [])
    (fun error =>
       findByIdAndUpdate (Context.automationId context) inc_errorCount ;;
       throw ("Failed to execute automation actions: " ++ error)).

(** ** processIncomingSms *)

Definition readAutomations : M (list Automation.t) :=
  fun w => (Return (automations w), w).

Definition smsContext (smsData : Sms.t) (automationId : option string)
  : Context.t :=
  {| Context.messageText := Some (Sms.text smsData);
     Context.from := Some (Sms.from smsData);
     Context.to := Some (Sms.to smsData);
     Context.automationId := automationId;
     Context.callEventType := None; Context.callData := None;
     Context.scheduledTime := None; Context.dayOfWeek := None;
     Context.user := None; Context.userId := None;
     Context.availabilityStatus := None |}.

Fixpoint incomingSms_loop (clk : Clock) (smsData : Sms.t)
  (automations : list Automation.t) (triggeredAutomations : list string)
  : M (list string) :=
  match automations with
  | [] => ret triggeredAutomations
  | automation :: rest =>
      let shouldTrigger :=
        checkTriggerConditions automation (smsContext smsData None) in
      if shouldTrigger then
        executeAutomationActions clk automation
          (smsContext smsData (Some (Automation._id automation))) ;;
        findByIdAndUpdate (Some (Automation._id automation))
          (triggered clk) ;;
        incomingSms_loop clk smsData rest
          (triggeredAutomations ++ [Automation.name automation])
      else incomingSms_loop clk smsData rest triggeredAutomations
  end.

Definition processIncomingSms (clk : Clock) (smsData : Sms.t)
  : M ProcessResult :=
  try_catch
    (db <- readAutomations ;;
     match find_for_sms (Sms.to smsData) db with
     | [] => ret (NotProcessed "No automations configured for this number")
     | automations =>
         triggeredAutomations <-
           incomingSms_loop clk smsData automations [] ;;
         ret (summary triggeredAutomations)
     end)
    (fun error => throw ("Failed to process SMS automations: " ++ error)).

(** ** processScheduledAutomations *)

(** [.populate('user')]: the owner of each automation found. *)
Fixpoint populate_user (automations : list Automation.t)
  : outcome (list (Automation.t * option User.t)) :=
  match automations with
  | [] => Return []
  | a :: rest =>
      match User_findById env (Automation.user a) with
      | Throw e => Throw e
      | Return u =>
          match populate_user rest with
          | Throw e => Throw e
          | Return l => Return ((a, u) :: l)
          end
      end
  end.

Definition lift {A} (o : outcome A) : M A := fun w => (o, w).

Definition scheduledContext (timeNow dayOfWeek : string)
  (automation : Automation.t) (user : option User.t) : Context.t :=
  {| Context.messageText := None; Context.from := None;
     Context.to := None;
     Context.automationId := Some (Automation._id automation);
     Context.callEventType := None; Context.callData := None;
     Context.scheduledTime := Some timeNow;
     Context.dayOfWeek := Some dayOfWeek;
     Context.user := user; Context.userId := None;
     Context.availabilityStatus := None |}.

Fixpoint scheduled_loop (clk : Clock) (timeNow dayOfWeek : string)
  (automations : list (Automation.t * option User.t))
  (triggeredAutomations : list string) : M (list string) :=
  match automations with
  | [] => ret triggeredAutomations
  | (automation, user) :: rest =>
      executeAutomationActions clk automation
        (scheduledContext timeNow dayOfWeek automation user) ;;
      findByIdAndUpdate (Some (Automation._id automation))
        (triggered clk) ;;
      scheduled_loop clk timeNow dayOfWeek rest
        (triggeredAutomations ++ [Automation.name automation])
  end.

Definition processScheduledAutomations (clk : Clock) : M ProcessResult :=
  try_catch
    (let dayOfWeek := Js.toLowerCase (format_dddd (weekday clk)) in
     let timeNow := format_HHmm clk in
     db <- readAutomations ;;
     automations <- lift (populate_user (find_scheduled timeNow dayOfWeek db)) ;;
     match automations with
     | [] => ret (NotProcessed "No scheduled automations for this time")
     | _ =>
         triggeredAutomations <-
           scheduled_loop clk timeNow dayOfWeek automations [] ;;
         ret (summary triggeredAutomations)
     end)
    (fun error =>
       throw ("Failed to process scheduled SMS automations: " ++ error)).

(** ** processAvailabilityChange *)

Definition availabilityContext (availabilityStatus userId : string)
  (user : User.t) (automation : Automation.t) : Context.t :=
  {| Context.messageText := None; Context.from := None;
     Context.to := None;
     Context.automationId := Some (Automation._id automation);
     Context.callEventType := None; Context.callData := None;
     Context.scheduledTime := None; Context.dayOfWeek := None;
     Context.user := Some user; Context.userId := Some userId;
     Context.availabilityStatus := Some availabilityStatus |}.

Fixpoint availability_loop (clk : Clock)
  (availabilityStatus userId : string) (user : User.t)
  (automations : list Automation.t) (triggeredAutomations : list string)
  : M (list string) :=
  match automations with
  | [] => ret triggeredAutomations
  | automation :: rest =>
      executeAutomationActions clk automation
        (availabilityContext availabilityStatus userId user automation) ;;
      findByIdAndUpdate (Some (Automation._id automation))
        (triggered clk) ;;
      availability_loop clk availabilityStatus userId user rest
        (triggeredAutomations ++ [Automation.name automation])
  end.

Definition processAvailabilityChange (clk : Clock) (userId : string)
  (isAvailable : bool) : M ProcessResult :=
  try_catch
    (found <- lift (User_findById env userId) ;;
     match found with
     | None => ret (NotProcessed "User not found or has no phone number")
     | Some user =>
         match User.telnyxPhoneNumber user with
         | None =>
             ret (NotProcessed "User not found or has no phone number")
         | Some phone =>
             if phone =? "" then
               ret (NotProcessed "User not found or has no phone number")
             else
               let availabilityStatus :=
                 if isAvailable then "available" else "unavailable" in
               db <- readAutomations ;;
               match find_availability phone availabilityStatus db with
               | [] =>
                   ret (NotProcessed
                          ("No automations configured for "
                           ++ availabilityStatus ++ " status"))
               | automations =>
                   triggeredAutomations <-
                     availability_loop clk availabilityStatus userId user
                       automations [] ;;
                   ret (summary triggeredAutomations)
               end
         end
     end)
    (fun error =>
       throw ("Failed to process availability SMS automations: " ++ error)).

(** ** processCallEvent *)

(** The condition type a call event stands for, if any. *)
Definition conditionType_of (callData : CallEvent.t) : option string :=
  if CallEvent.eventType callData =? "call.initiated"
  then Some "incomingCall"
  else if (CallEvent.eventType callData =? "call.hangup")
          && option_is "unanswered" (CallEvent.hangupCause callData)
  then Some "missedCall"
  else if (CallEvent.eventType callData =? "call.recording.saved")
          && CallEvent.isVoicemail callData
  then Some "voicemail"
  else None.

(** [SmsAutomation.find({isActive: true, phoneNumber: to,
    'conditions.type': conditionType})]. *)
Definition find_for_call (to conditionType : string)
  (db : list Automation.t) : list Automation.t :=
  filter (fun a =>
            Automation.isActive a
            && (Automation.phoneNumber a =? to)
            && has_condition (type_in [conditionType]) a)
    db.

Definition callContext (conditionType : string) (callData : CallEvent.t)
  (automation : Automation.t) : Context.t :=
  {| Context.messageText := None;
     Context.from := Some (CallEvent.from callData);
     Context.to := Some (CallEvent.to callData);
     Context.automationId := Some (Automation._id automation);
     Context.callEventType := Some conditionType;
     Context.callData :=
       Some {| CallData.duration := CallEvent.duration callData |};
     Context.scheduledTime := None; Context.dayOfWeek := None;
     Context.user := None; Context.userId := None;
     Context.availabilityStatus := None |}.

Fixpoint callEvent_loop (clk : Clock) (conditionType : string)
  (callData : CallEvent.t) (automations : list Automation.t)
  (triggeredAutomations : list string) : M (list string) :=
  match automations with
  | [] => ret triggeredAutomations
  | automation :: rest =>
      executeAutomationActions clk automation
        (callContext conditionType callData automation) ;;
      findByIdAndUpdate (Some (Automation._id automation))
        (triggered clk) ;;
      callEvent_loop clk conditionType callData rest
        (triggeredAutomations ++ [Automation.name automation])
  end.

Definition processCallEvent (clk : Clock) (callData : CallEvent.t)
  : M ProcessResult :=
  try_catch
    (match conditionType_of callData with
     | None =>
         ret (NotProcessed
                "Event type does not match any automation conditions")
     | Some conditionType =>
         db <- readAutomations ;;
         match find_for_call (CallEvent.to callData) conditionType db with
         | [] =>
             ret (NotProcessed
                    ("No automations configured for " ++ conditionType))
         | automations =>
             triggeredAutomations <-
               callEvent_loop clk conditionType callData automations [] ;;
             ret (summary triggeredAutomations)
         end
     end)
    (fun error =>
       throw ("Failed to process call event for SMS automations: "
              ++ error)).

End WithEnv.

End SmsAutomationService.

(* ================================================================== *)
(** * Timers *)
(* ================================================================== *)

(** Running the callback of a timer that has come due. *)
Definition fire (env : Env) (clk : Clock) (cb : Deferred) : M unit :=
  match cb with
  | DeferRecordStart callControlId =>
      TelnyxService.fireRecordStart env callControlId
  | DeferAction automationId action context =>
      SmsAutomationService.delayedCallback env clk automationId action context
  end.

(* ================================================================== *)
(** * The webhook controllers *)
(* ================================================================== *)

(** The call records (models/Call.js) and the voicemail records
    (models/Voicemail.js), with the fields the controllers set. *)
Module CallRecord.
Record t := {
  _id : string;
  userId : string;
  telnyxCallControlId : string;
  direction : string;
  from : string;
  to : string;
  status : string;
  startTime : Z;
  recordingUrl : option string
}.
End CallRecord.

Module VoicemailRecord.
Record t := {
  userId : string;
  callId : string;
  from : string;
  to : string;
  recordingUrl : string;
  duration : Z;
  createdAt : Z
}.
End VoicemailRecord.

Record Store := {
  call_records : list CallRecord.t;
  voicemail_records : list VoicemailRecord.t
}.

(** [req.body.data] of a Telnyx webhook: the event type, the [direction]
    the call controller reads on the event itself, and the payload. *)
Module Webhook.
Record t := {
  event_type : string;
  direction : option string;
  from : string;
  to : string;
  call_control_id : string;
  call_leg_id : string;
  client_state : option string;
  digit : option string;
  hangup_cause : option string;
  duration_seconds : option Z;
  recording_url_mp3 : option string;
  recording_duration_sec : option Z
}.
End Webhook.

(** What a handler answers: [200 {received: true, action?}] or
    [500 {error}]. *)
Inductive Response :=
| Received (action : option string)
| Failed (error : string).

(** The environment of the controllers: the services' environment, the
    look-up of a user by Telnyx number ([User.findOne], giving the [_id]
    and the document) and the identifier a new document receives. *)
Record ControllerEnv := {
  services : Env;
  User_findOne : string -> outcome (option (string * User.t));
  new_ObjectId : Store -> string
}.

Module CallController.

Definition save_call (call : CallRecord.t) (st : Store) : Store :=
  {| call_records := call_records st ++ [call];
     voicemail_records := voicemail_records st |}.

Definition save_voicemail (v : VoicemailRecord.t) (st : Store) : Store :=
  {| call_records := call_records st;
     voicemail_records := voicemail_records st ++ [v] |}.

(** [Call.findByIdAndUpdate(id, update)]. *)
Fixpoint update_call (id : string) (f : CallRecord.t -> CallRecord.t)
  (l : list CallRecord.t) : list CallRecord.t :=
  match l with
  | [] => []
  | c :: rest =>
      if CallRecord._id c =? id then f c :: rest
      else c :: update_call id f rest
  end.

Definition set_calls (l : list CallRecord.t) (st : Store) : Store :=
  {| call_records := l; voicemail_records := voicemail_records st |}.

(** The update [{status}]. *)
Definition with_status (status : string) (c : CallRecord.t)
  : CallRecord.t :=
  {| CallRecord._id := CallRecord._id c;
     CallRecord.userId := CallRecord.userId c;
     CallRecord.telnyxCallControlId := CallRecord.telnyxCallControlId c;
     CallRecord.direction := CallRecord.direction c;
     CallRecord.from := CallRecord.from c;
     CallRecord.to := CallRecord.to c;
     CallRecord.status := status;
     CallRecord.startTime := CallRecord.startTime c;
     CallRecord.recordingUrl := CallRecord.recordingUrl c |}.

(** The update [{recordingUrl, status: 'completed'}]. *)
Definition with_recording (url : string) (c : CallRecord.t)
  : CallRecord.t :=
  {| CallRecord._id := CallRecord._id c;
     CallRecord.userId := CallRecord.userId c;
     CallRecord.telnyxCallControlId := CallRecord.telnyxCallControlId c;
     CallRecord.direction := CallRecord.direction c;
     CallRecord.from := CallRecord.from c;
     CallRecord.to := CallRecord.to c;
     CallRecord.status := "completed";
     CallRecord.startTime := CallRecord.startTime c;
     CallRecord.recordingUrl := Some url |}.

(** ** handleIncomingCall (the webhook handler) *)
Definition handleIncomingCall (cenv : ControllerEnv) (clk : Clock)
  (event : Webhook.t) (st : World * Store) : Response * (World * Store) :=
  if negb (Webhook.event_type event =? "call.initiated")
     || negb (SmsAutomationService.option_is "incoming"
                (Webhook.direction event))
  then (Received None, st)
  else
    match User_findOne cenv (Webhook.to event) with
    | Throw _ => (Failed "Failed to process incoming call", st)
    | Return None => (Received None, st)
    | Return (Some (user_id, user)) =>
        let call :=
          {| CallRecord._id := new_ObjectId cenv (snd st);
             CallRecord.userId := user_id;
             CallRecord.telnyxCallControlId := Webhook.call_control_id event;
             CallRecord.direction := "inbound";
             CallRecord.from := Webhook.from event;
             CallRecord.to := Webhook.to event;
             CallRecord.status := "initiated";
             CallRecord.startTime := now clk;
             CallRecord.recordingUrl := None |} in
        let saved := save_call call (snd st) in
        match TelnyxService.handleIncomingCall (services cenv) clk user
                (Webhook.call_control_id event) (fst st) with
        | (Throw _, w') =>
            (Failed "Failed to process incoming call", (w', saved))
        | (Return result, w') =>
            (Received (Some (TelnyxService.action result)),
             (w',
              if TelnyxService.action result =? "voicemail"
              then set_calls
                     (update_call (CallRecord._id call)
                        (with_status "voicemail") (call_records saved))
                     saved
              else saved))
        end
    end.

(** ** handleCallRecording *)
Definition handleCallRecording (clk : Clock) (event : Webhook.t)
  (st : World * Store) : Response * (World * Store) :=
  if negb (Webhook.event_type event =? "call.recording.saved")
  then (Received None, st)
  else if negb (Js.truthy (Webhook.recording_url_mp3 event))
  then (Received None, st)
  else
    let recordingUrl := Js.or_else (Webhook.recording_url_mp3 event) "" in
    match find (fun c => CallRecord.telnyxCallControlId c
                         =? Webhook.call_control_id event)
            (call_records (snd st)) with
    | None => (Received None, st)
    | Some call =>
        let updated :=
          set_calls
            (update_call (CallRecord._id call) (with_recording recordingUrl)
               (call_records (snd st)))
            (snd st) in
        (Received None,
         (fst st,
          if CallRecord.status call =? "voicemail"
          then save_voicemail
                 {| VoicemailRecord.userId := CallRecord.userId call;
                    VoicemailRecord.callId := CallRecord._id call;
                    VoicemailRecord.from := CallRecord.from call;
                    VoicemailRecord.to := CallRecord.to call;
                    VoicemailRecord.recordingUrl := recordingUrl;
                    VoicemailRecord.duration :=
                      match Webhook.recording_duration_sec event with
                      | Some d => d
                      | None => 0%Z
                      end;
                    VoicemailRecord.createdAt := now clk |}
                 updated
          else updated))
    end.

End CallController.

Module WebhookController.

(** ** handleGatherEvent *)
Definition handleGatherEvent (cenv : ControllerEnv) (event : Webhook.t)
  (w : World) : Response * World :=
  if SmsAutomationService.option_is "unavailable-flow"
       (Webhook.client_state event)
  then
    let toNumber := Js.or_else (Some (Webhook.to event)) "" in
    match User_findOne cenv toNumber with
    | Throw _ => (Failed "Failed to process gather event", w)
    | Return None => (Received None, w)
    | Return (Some (_, user)) =>
        match TelnyxService.handleUnavailableDTMF (services cenv)
                {| TelnyxService.call_control_id :=
                     Webhook.call_control_id event;
                   TelnyxService.digit := Webhook.digit event |}
                user w with
        | (Return result, w') =>
            (Received (Some (TelnyxService.action result)), w')
        | (Throw _, w') => (Failed "Failed to process gather event", w')
        end
    end
  else (Received None, w).

(** The call data [handleCallEvent] builds from a call webhook. *)
Definition callData_of_call (event : Webhook.t) : CallEvent.t :=
  {| CallEvent.to := Webhook.to event;
     CallEvent.from := Webhook.from event;
     CallEvent.eventType := Webhook.event_type event;
     CallEvent.hangupCause := Webhook.hangup_cause event;
     CallEvent.isVoicemail := false;
     CallEvent.duration := Webhook.duration_seconds event |}.

(** The call data [handleCallRecording] builds from a recording webhook:
    every recording is taken to be a voicemail. *)
Definition callData_of_recording (event : Webhook.t) : CallEvent.t :=
  {| CallEvent.to := Webhook.to event;
     CallEvent.from := Webhook.from event;
     CallEvent.eventType := Webhook.event_type event;
     CallEvent.hangupCause := None;
     CallEvent.isVoicemail := true;
     CallEvent.duration := Webhook.duration_seconds event |}.

End WebhookController.

(* ================================================================== *)
(** * Assumptions on the environment *)
(* ================================================================== *)

(** The client accepts every call-control command. *)
Definition accepts_all (env : Env) : Prop :=
  forall history id cmd,
  exists data,
    calls_update_oracle (telnyxClient env) history id cmd = Return data.

(* ================================================================== *)
(** * Vocabulary of the statements *)
(* ================================================================== *)






(** The condition [{type: 'keywordSms', parameters: {keywords}}]. *)
Definition keywordSms (keywords : list string) : Condition.t :=
  {| Condition.type := "keywordSms";
     Condition.parameters :=
       Some {| Condition.keywords := Some keywords;
               Condition.time := None;
               Condition.daysOfWeek := [];
               Condition.availabilityStatus := None |} |}.

(** The action [{type: 'sendSms', parameters: {message}}]. *)
Definition sendSmsMessage (message : string) : Action.t :=
  {| Action.type := "sendSms";
     Action.parameters :=
       Some {| Action.template := None;
               Action.message := Some message;
               Action.delay := None;
               Action.notifyMethod := None;
               Action.notifyUsers := [] |} |}.

(** The automations that are active on a number. *)
Definition active_on (number : string) (db : list Automation.t)
  : list Automation.t :=
  filter (fun a => Automation.isActive a && (Automation.phoneNumber a =? number))
    db.

(** Milliseconds in one unit of delay: minutes unless the unit says
    hours or days. *)
Definition ms_per_unit (unit : option string) : Z :=
  match unit with
  | Some "hours" => 3600000
  | Some "days" => 86400000
  | _ => 60000
  end.

(** The time [h]:[m] as moment prints it with 'HH:mm'. *)
Definition hhmm (h m : nat) : string :=
  Js.two_digits h ++ ":" ++ Js.two_digits m.

(** Minutes since midnight. *)
Definition minutes_of_day (h m : nat) : nat := h * 60 + m.

(** Every character of [s] passes [p]. *)
Fixpoint string_forall (p : ascii -> bool) (s : string) : bool :=
  match s with
  | EmptyString => true
  | String c s' => p c && string_forall p s'
  end.



(** The name of a weekday as the day-records of a user spell it. *)
Definition day_name (d : Weekday) : string :=
  match d with
  | Sunday => "sunday" | Monday => "monday" | Tuesday => "tuesday"
  | Wednesday => "wednesday" | Thursday => "thursday" | Friday => "friday"
  | Saturday => "saturday"
  end.

(** The characters an encoded URI component is made of: the unreserved
    ones and the percent sign of an escape. *)
Definition uri_component_char (c : ascii) : bool :=
  Js.uri_unreserved c || Ascii.eqb c "%".

(** The [type] field of a result object. *)
Definition result_type (r : SmsAutomationService.ActionResult) : string :=
  match r with
  | SmsAutomationService.SendSmsSuccess _ _ _ => "sendSms"
  | SmsAutomationService.NotifySuccess _ => "notify"
  | SmsAutomationService.Skipped t _ => t
  | SmsAutomationService.ActionError t _ => t
  | SmsAutomationService.Scheduled t _ => t
  end.

(** The action asks for the delay [d] of [v] units, [v] positive:
    [parameters.delay] is [d] and [d.value] is [v > 0]. *)
Definition asks_delay (action : Action.t) (d : Delay.t) (v : Z) : Prop :=
  exists ps,
    Action.parameters action = Some ps /\ Action.delay ps = Some d
    /\ Delay.value d = Some v /\ (0 < v)%Z.

(** The delay an action asks for in milliseconds, when it asks for
    one. *)
Definition requested_ms (action : Action.t) : option Z :=
  match Action.parameters action with
  | Some ps =>
      match Action.delay ps with
      | Some d =>
          match Delay.value d with
          | Some v =>
              if (0 <? v)%Z then Some (v * ms_per_unit (Delay.unit d))%Z
              else None
          | None => None
          end
      | None => None
      end
  | None => None
  end.

(** After how long a timer comes due that was asked for after [ms]
    milliseconds, [ms] positive: past [2^31 - 1] milliseconds, after
    one. *)
Definition due_after (ms : Z) : Z :=
  if (ms <=? 2147483647)%Z then ms else 1%Z.

(** The timers the delayed actions of a list are handed to, in order. *)
Fixpoint delayed_timers (automationId : string) (context : Context.t)
  (actions : list Action.t) : list (option Z * Deferred) :=
  match actions with
  | [] => []
  | action :: rest =>
      match requested_ms action with
      | Some ms =>
          (Some (due_after ms), DeferAction automationId action context)
          :: delayed_timers automationId context rest
      | None => delayed_timers automationId context rest
      end
  end.

(** The actions of a list that may send a message at once: the sendSms
    actions that ask for no delay. *)
Definition immediate_sends (actions : list Action.t) : list Action.t :=
  filter (fun a => match requested_ms a with
                   | Some _ => false
                   | None => Action.type a =? "sendSms"
                   end)
    actions.

(** The largest whole number a Number holds exactly, [2^53 - 1]. *)
Definition MAX_SAFE_INTEGER : Z := 9007199254740991.

(** A text without an opening brace. *)
Definition brace_free (s : string) : bool :=
  string_forall (fun c => negb (Ascii.eqb c "{")) s.

(** The automation carries the identifier [id]: the test of
    [findById] and [findByIdAndUpdate]. *)
Definition has_id (id : string) (a : Automation.t) : bool :=
  Automation._id a =? id.

(** The record found under [id]. *)
Definition lookup (id : string) (db : list Automation.t)
  : option Automation.t :=
  find (has_id id) db.

(** [a'] is [a] up to its statistics, and there no counter of [a']
    is below the one of [a]. *)
Definition same_but_statistics (a a' : Automation.t) : Prop :=
  Automation._id a' = Automation._id a
  /\ Automation.name a' = Automation.name a
  /\ Automation.isActive a' = Automation.isActive a
  /\ Automation.user a' = Automation.user a
  /\ Automation.phoneNumber a' = Automation.phoneNumber a
  /\ Automation.conditions a' = Automation.conditions a
  /\ Automation.actions a' = Automation.actions a
  /\ (Stats.timesTriggered (Automation.statistics a)
      <= Stats.timesTriggered (Automation.statistics a'))%Z
  /\ (Stats.successCount (Automation.statistics a)
      <= Stats.successCount (Automation.statistics a'))%Z
  /\ (Stats.errorCount (Automation.statistics a)
      <= Stats.errorCount (Automation.statistics a'))%Z.


(** The availability status a condition names. *)
Definition names_status (status : string) (c : Condition.t) : bool :=
  match Condition.parameters c with
  | Some ps =>
      match Condition.availabilityStatus ps with
      | Some s => s =? status
      | None => false
      end
  | None => false
  end.

(** A change of availability to [status] of the user on the number
    [phone] finds the automation: it is active, on that number, one of
    its conditions is an availability condition and one of its
    conditions names the new status or 'any'. *)
Definition availability_triggers (phone status : string)
  (a : Automation.t) : bool :=
  Automation.isActive a
  && (Automation.phoneNumber a =? phone)
  && existsb (fun c => Condition.type c =? "availability")
       (Automation.conditions a)
  && existsb (fun c => names_status status c || names_status "any" c)
       (Automation.conditions a).

(** What an entry point answers once its query has found [found]. *)
Definition answer_for (nothing : string) (found : list Automation.t)
  : SmsAutomationService.ProcessResult :=
  match found with
  | [] => SmsAutomationService.NotProcessed nothing
  | _ => SmsAutomationService.summary (map Automation.name found)
  end.

(** The inbound message makes the automation trigger: the query of
    [processIncomingSms] finds it and its conditions hold. *)
Definition sms_triggers (smsData : Sms.t) (a : Automation.t) : bool :=
  Automation.isActive a
  && (Automation.phoneNumber a =? Sms.to smsData)
  && SmsAutomationService.has_condition
       (SmsAutomationService.type_in ["incomingSms"; "keywordSms"]) a
  && SmsAutomationService.checkTriggerConditions a
       (SmsAutomationService.smsContext smsData None).

(** A text without a dollar sign. *)
Definition dollar_free (s : string) : bool :=
  string_forall (fun c => negb (Ascii.eqb c "$")) s.

(** No call record has the status 'voicemail'. *)
Definition no_voicemail_status (st : Store) : Prop :=
  forall c, In c (call_records st) -> CallRecord.status c <> "voicemail".

(** A webhook delivered to one of the two handlers of the call
    controller, at some time. *)
Inductive Delivery :=
| ToIncomingCall (clk : Clock) (event : Webhook.t)
| ToCallRecording (clk : Clock) (event : Webhook.t).

Definition deliver (cenv : ControllerEnv) (st : World * Store)
  (d : Delivery) : World * Store :=
  match d with
  | ToIncomingCall clk event =>
      snd (CallController.handleIncomingCall cenv clk event st)
  | ToCallRecording clk event =>
      snd (CallController.handleCallRecording clk event st)
  end.

(* ================================================================== *)
(** * Sample data *)
(* ================================================================== *)

Module Sample.

(** Monday 2 November 2026, 10:30, as UTC milliseconds. *)
Definition clock : Clock :=
  {| now := 1793615400000; weekday := Monday; hour := 10; minute := 30;
     localeDate := "11/2/2026"; localeTime := "10:30:00 AM" |}.

(** Wednesday of the same week, at noon. *)
Definition wednesday : Clock :=
  {| now := 1793793600000; weekday := Wednesday; hour := 12; minute := 0;
     localeDate := "11/4/2026"; localeTime := "12:00:00 PM" |}.

(** A client that accepts every command. *)
Definition client : Telnyx :=
  {| calls_update_oracle := fun _ _ _ => Return "ok";
     messages_create_oracle := fun _ _ => Return "msg-1" |}.

(** A client that cannot play audio. *)
Definition mute_client : Telnyx :=
  {| calls_update_oracle :=
       fun _ _ cmd =>
         match cmd with
         | PlayAudio _ _ => Throw "audio file not found"
         | _ => Return "ok"
         end;
     messages_create_oracle := fun _ _ => Return "msg-1" |}.

Definition env : Env :=
  {| telnyxClient := client;
     WEBHOOK_URL := Some "https://example.test/webhooks";
     User_findById := fun _ => Return None |}.

Definition mute_env : Env :=
  {| telnyxClient := mute_client;
     WEBHOOK_URL := Some "https://example.test/webhooks";
     User_findById := fun _ => Return None |}.

Definition week (start finish : string) : list Day.t :=
  map (fun d => {| Day.day := d; Day.isAvailable := true;
                   Day.startTime := start; Day.endTime := finish |})
    ["monday"; "tuesday"; "wednesday"; "thursday"; "friday"]
  ++ map (fun d => {| Day.day := d; Day.isAvailable := false;
                      Day.startTime := start; Day.endTime := finish |})
       ["saturday"; "sunday"].

Definition meeting : Event.t :=
  {| Event.eventId := "ev-1"; Event.title := "Stand-up";
     Event.startTime := 1793613600000; Event.endTime := 1793617200000;
     Event.status := "confirmed"; Event.makeUnavailable := true |}.

Definition calendar : Calendar.t :=
  {| Calendar.enabled := true; Calendar.events := [meeting];
     Calendar.makeUnavailableDuringEvents := true |}.

(** Jane keeps office hours and has no calendar connected. *)
Definition jane : User.t :=
  {| User.name := "Jane Doe"; User.email := Some "jane@example.test";
     User.phoneNumber := Some "+15550001111";
     User.telnyxPhoneNumber := Some "+15551234567";
     User.availability := week "09:00" "17:00";
     User.calendarIntegration := None;
     User.voicemailGreeting :=
       "Hello, you have reached my voicemail. Please leave a message after the tone.";
     User.voicemailGreetingUrl := Some "";
     User.routeToLiveAgent := false;
     User.liveAgentNumber := Some "" |}.

(** The same user with a calendar and a meeting going on. *)
Definition jane_in_meeting : User.t :=
  {| User.name := User.name jane; User.email := User.email jane;
     User.phoneNumber := User.phoneNumber jane;
     User.telnyxPhoneNumber := User.telnyxPhoneNumber jane;
     User.availability := User.availability jane;
     User.calendarIntegration := Some calendar;
     User.voicemailGreeting := User.voicemailGreeting jane;
     User.voicemailGreetingUrl := User.voicemailGreetingUrl jane;
     User.routeToLiveAgent := false;
     User.liveAgentNumber := Some "" |}.

(** A day off. *)
Definition sunday_off : Day.t :=
  {| Day.day := "sunday"; Day.isAvailable := false;
     Day.startTime := "00:00"; Day.endTime := "00:00" |}.

(** A user whose window crosses midnight. *)
Definition night_owl : User.t :=
  {| User.name := "Nat Owl"; User.email := None;
     User.phoneNumber := Some "+15550002222";
     User.telnyxPhoneNumber := Some "+15551230000";
     User.availability := week "22:00" "02:00";
     User.calendarIntegration := None;
     User.voicemailGreeting := "Leave a message.";
     User.voicemailGreetingUrl := None;
     User.routeToLiveAgent := false;
     User.liveAgentNumber := None |}.

Definition no_statistics : Stats.t :=
  {| Stats.timesTriggered := 0; Stats.lastTriggered := None;
     Stats.successCount := 0; Stats.errorCount := 0 |}.

(** The unsubscribe automation of the round trip. *)
Definition unsubscribe : Automation.t :=
  {| Automation._id := "auto-1"; Automation.name := "Unsubscribe";
     Automation.isActive := true; Automation.user := "user-1";
     Automation.phoneNumber := "+15551234567";
     Automation.conditions := [keywordSms ["stop"]];
     Automation.actions := [sendSmsMessage "You have been unsubscribed."];
     Automation.statistics := no_statistics |}.

Definition stop_sms : Sms.t :=
  {| Sms.to := "+15551234567"; Sms.from := "+15557654321";
     Sms.text := "STOP" |}.

(** A sendSms action that carries neither a template nor a message. *)
Definition bare_sendSms : Action.t :=
  {| Action.type := "sendSms";
     Action.parameters :=
       Some {| Action.template := None; Action.message := None;
               Action.delay := None; Action.notifyMethod := None;
               Action.notifyUsers := [] |} |}.

(** A reminder sent five minutes after the trigger. *)
Definition reminder : Action.t :=
  {| Action.type := "sendSms";
     Action.parameters :=
       Some {| Action.template := None;
               Action.message := Some "Thanks, we will call you back.";
               Action.delay :=
                 Some {| Delay.value := Some 5%Z;
                         Delay.unit := Some "minutes" |};
               Action.notifyMethod := None;
               Action.notifyUsers := [] |} |}.

Definition callback : Automation.t :=
  {| Automation._id := "auto-2"; Automation.name := "Callback";
     Automation.isActive := true; Automation.user := "user-2";
     Automation.phoneNumber := "+15559990000";
     Automation.conditions :=
       [ {| Condition.type := "incomingSms";
            Condition.parameters := None |} ];
     Automation.actions := [reminder];
     Automation.statistics := no_statistics |}.

(** A follow-up sent thirty days after the trigger. *)
Definition month_later : Action.t :=
  {| Action.type := "sendSms";
     Action.parameters :=
       Some {| Action.template := None;
               Action.message := Some "How did we do?";
               Action.delay :=
                 Some {| Delay.value := Some 30%Z;
                         Delay.unit := Some "days" |};
               Action.notifyMethod := None;
               Action.notifyUsers := [] |} |}.

Definition follow_up : Automation.t :=
  {| Automation._id := "auto-4"; Automation.name := "Follow-up";
     Automation.isActive := true; Automation.user := "user-2";
     Automation.phoneNumber := "+15559990000";
     Automation.conditions :=
       [ {| Condition.type := "incomingSms";
            Condition.parameters := None |} ];
     Automation.actions := [month_later];
     Automation.statistics := no_statistics |}.

(** A welcome at once, a reminder after five minutes and a follow-up
    after thirty days. *)
Definition welcome : Automation.t :=
  {| Automation._id := "auto-7"; Automation.name := "Welcome";
     Automation.isActive := true; Automation.user := "user-2";
     Automation.phoneNumber := "+15559990000";
     Automation.conditions :=
       [ {| Condition.type := "incomingSms";
            Condition.parameters := None |} ];
     Automation.actions :=
       [sendSmsMessage "Welcome!"; reminder; month_later];
     Automation.statistics := no_statistics |}.

(** The same automation after it has been switched off. *)
Definition callback_off : Automation.t :=
  {| Automation._id := "auto-2"; Automation.name := "Callback";
     Automation.isActive := false; Automation.user := "user-2";
     Automation.phoneNumber := "+15559990000";
     Automation.conditions := Automation.conditions callback;
     Automation.actions := [reminder];
     Automation.statistics := no_statistics |}.

(** The message that triggers the callback automation, and the context
    its actions run in. *)
Definition hello_sms : Sms.t :=
  {| Sms.to := "+15559990000"; Sms.from := "+15557654321";
     Sms.text := "Hello" |}.

(** An automation scheduled for Monday 10:30 whose action carries no
    text. *)
Definition report : Automation.t :=
  {| Automation._id := "auto-3"; Automation.name := "Report";
     Automation.isActive := true; Automation.user := "user-3";
     Automation.phoneNumber := "+15558880000";
     Automation.conditions :=
       [ {| Condition.type := "scheduledTime";
            Condition.parameters :=
              Some {| Condition.keywords := None;
                      Condition.time := Some "10:30";
                      Condition.daysOfWeek := ["monday"];
                      Condition.availabilityStatus := None |} |} ];
     Automation.actions := [bare_sendSms];
     Automation.statistics := no_statistics |}.

Definition world (db : list Automation.t) : World :=
  {| calls := []; messages := []; timers := []; automations := db |}.

(** A client that rejects every command. *)
Definition dead_client : Telnyx :=
  {| calls_update_oracle := fun _ _ _ => Throw "call not found";
     messages_create_oracle := fun _ _ => Throw "messaging disabled" |}.

Definition dead_env : Env :=
  {| telnyxClient := dead_client;
     WEBHOOK_URL := Some "https://example.test/webhooks";
     User_findById := fun _ => Return None |}.

(** A greeting on the number of the unsubscribe automation. *)
Definition greeting_sms : Sms.t :=
  {| Sms.to := "+15551234567"; Sms.from := "+15557654321";
     Sms.text := "Good morning" |}.


(** A note sent when Jane becomes unavailable. *)
Definition away_notice : Automation.t :=
  {| Automation._id := "auto-6"; Automation.name := "Away notice";
     Automation.isActive := true; Automation.user := "user-1";
     Automation.phoneNumber := "+15551234567";
     Automation.conditions :=
       [ {| Condition.type := "availability";
            Condition.parameters :=
              Some {| Condition.keywords := None;
                      Condition.time := None;
                      Condition.daysOfWeek := [];
                      Condition.availabilityStatus :=
                        Some "unavailable" |} |} ];
     Automation.actions := [sendSmsMessage "I am away from my desk."];
     Automation.statistics := no_statistics |}.

(** An environment whose user collection holds Jane. *)
Definition office_env : Env :=
  {| telnyxClient := client;
     WEBHOOK_URL := Some "https://example.test/webhooks";
     User_findById :=
       fun id => if id =? "user-1" then Return (Some jane)
                 else Return None |}.

Definition collection : list Automation.t :=
  [callback; unsubscribe; report].

(** A call that was not answered, and one that was. *)
Definition missed_call : CallEvent.t :=
  {| CallEvent.to := "+15559990000"; CallEvent.from := "+15557654321";
     CallEvent.eventType := "call.hangup";
     CallEvent.hangupCause := Some "unanswered";
     CallEvent.isVoicemail := false; CallEvent.duration := Some 0%Z |}.


(** The webhooks of one inbound call on Jane's number. *)
Definition initiated : Webhook.t :=
  {| Webhook.event_type := "call.initiated";
     Webhook.direction := Some "incoming";
     Webhook.from := "+15557654321"; Webhook.to := "+15551234567";
     Webhook.call_control_id := "call-1"; Webhook.call_leg_id := "leg-1";
     Webhook.client_state := None; Webhook.digit := None;
     Webhook.hangup_cause := None; Webhook.duration_seconds := None;
     Webhook.recording_url_mp3 := None;
     Webhook.recording_duration_sec := None |}.

Definition recording_saved : Webhook.t :=
  {| Webhook.event_type := "call.recording.saved";
     Webhook.direction := None;
     Webhook.from := "+15557654321"; Webhook.to := "+15551234567";
     Webhook.call_control_id := "call-1"; Webhook.call_leg_id := "leg-1";
     Webhook.client_state := None; Webhook.digit := None;
     Webhook.hangup_cause := None; Webhook.duration_seconds := Some 12%Z;
     Webhook.recording_url_mp3 :=
       Some "https://example.test/recordings/call-1.mp3";
     Webhook.recording_duration_sec := Some 12%Z |}.

Definition cenv : ControllerEnv :=
  {| services := env;
     User_findOne :=
       fun number =>
         if number =? "+15551234567" then Return (Some ("user-1", jane))
         else Return None;
     new_ObjectId := fun _ => "record-1" |}.

(** The same controller in front of a client that rejects every
    command. *)
Definition dead_cenv : ControllerEnv :=
  {| services := dead_env;
     User_findOne := User_findOne cenv;
     new_ObjectId := fun _ => "record-1" |}.

(** The gather of the unavailable prompt on Jane's number that ended
    with the digit [digit]. *)
Definition gathered (digit : option string) : Webhook.t :=
  {| Webhook.event_type := "call.gather.ended";
     Webhook.direction := None;
     Webhook.from := "+15557654321"; Webhook.to := "+15551234567";
     Webhook.call_control_id := "call-1"; Webhook.call_leg_id := "leg-1";
     Webhook.client_state := Some "unavailable-flow";
     Webhook.digit := digit;
     Webhook.hangup_cause := None; Webhook.duration_seconds := None;
     Webhook.recording_url_mp3 := None;
     Webhook.recording_duration_sec := None |}.

Definition empty_store : Store :=
  {| call_records := []; voicemail_records := [] |}.

End Sample.

(* ================================================================== *)
(** * Properties *)
(* ================================================================== *)

(** ** The order of strings *)

Section StringOrder.

Lemma ascii_compare_refl (c : ascii) : Ascii.compare c c = Eq.
Proof. unfold Ascii.compare. apply N.compare_refl. Qed.

Lemma ascii_compare_lt_trans (a b c : ascii) :
  Ascii.compare a b = Lt -> Ascii.compare b c = Lt -> Ascii.compare a c = Lt.
Proof.
  unfold Ascii.compare. rewrite !N.compare_lt_iff. lia.
Qed.

(** The lexicographic order is transitive, stated on [compare]. *)
Lemma compare_not_gt_trans (a b c : string) :
  String.compare a b <> Gt -> String.compare b c <> Gt ->
  String.compare a c <> Gt.
Proof.
  revert b c. induction a as [|x a IH]; intros [|y b] [|z c]; simpl;
    try congruence.
  destruct (Ascii.compare x y) eqn:Hxy; try congruence.
  - apply Ascii.compare_eq_iff in Hxy. subst y.
    destruct (Ascii.compare x z) eqn:Hxz; try congruence.
    intros Hab Hbc. apply (IH b c); assumption.
  - intros _.
    destruct (Ascii.compare y z) eqn:Hyz; try congruence.
    + apply Ascii.compare_eq_iff in Hyz. subst z. rewrite Hxy. congruence.
    + rewrite (ascii_compare_lt_trans _ _ _ Hxy Hyz). congruence.
Qed.

Lemma leb_trans (a b c : string) :
  String.leb a b = true -> String.leb b c = true -> String.leb a c = true.
Proof.
  unfold String.leb. intros Hab Hbc.
  assert (H : String.compare a c <> Gt).
  { apply (compare_not_gt_trans a b c).
    - destruct (String.compare a b); congruence.
    - destruct (String.compare b c); congruence. }
  destruct (String.compare a c); congruence.
Qed.

Lemma ltb_not_leb (a b : string) :
  String.ltb b a = true -> String.leb a b = false.
Proof.
  unfold String.ltb, String.leb. rewrite (String.compare_antisym a b).
  destruct (String.compare b a); simpl; congruence.
Qed.

(** A window whose start lies after its end holds no time at all. *)
Lemma empty_window (t s e : string) :
  Js.gt s e = true -> Js.ge t s && Js.le t e = false.
Proof.
  unfold Js.gt, Js.ge, Js.le. intros Hgt.
  apply ltb_not_leb in Hgt.
  destruct (String.leb s t) eqn:Hst; [|reflexivity].
  destruct (String.leb t e) eqn:Hte; [|reflexivity].
  rewrite (leb_trans _ _ _ Hst Hte) in Hgt. discriminate.
Qed.

End StringOrder.

(** ** The availability oracle *)

Section AvailabilityFacts.

Import CalendarService TelnyxService.

Lemma find_some_exists {A} (p : A -> bool) (l : list A) (x : A) :
  In x l -> p x = true -> exists y, find p l = Some y.
Proof.
  induction l as [|a l IH]; simpl; [tauto|].
  intros [->|Hin] Hp.
  - rewrite Hp. eauto.
  - destruct (p a); eauto.
Qed.

Lemma happening_now_true (clk : Clock) (ev : Event.t) :
  Event.status ev <> "cancelled" ->
  Event.makeUnavailable ev = true ->
  (Event.startTime ev <= now clk <= Event.endTime ev)%Z ->
  happening_now clk ev = true.
Proof.
  intros Hst Hmu [Hlo Hhi]. unfold happening_now.
  apply String.eqb_neq in Hst. rewrite Hst, Hmu. simpl.
  apply andb_true_intro. split; apply Z.leb_le; assumption.
Qed.

(** C2. With the calendar integration enabled and the
    make-unavailable-during-events flag set, one cached event that is not
    cancelled, has [makeUnavailable] set and covers the current time makes
    [isUserAvailable] answer false, whatever the weekly schedule says;
    with the integration absent or disabled, or the flag unset, the
    meeting check answers false and so never makes the user
    unavailable. *)
Theorem meeting_takes_precedence (clk : Clock) (user : User.t) :
  (forall cal ev,
      User.calendarIntegration user = Some cal ->
      Calendar.enabled cal = true ->
      Calendar.makeUnavailableDuringEvents cal = true ->
      In ev (Calendar.events cal) ->
      Event.status ev <> "cancelled" ->
      Event.makeUnavailable ev = true ->
      (Event.startTime ev <= now clk <= Event.endTime ev)%Z ->
      isUserInMeeting clk user = true /\ isUserAvailable clk user = false)
  /\
  ((forall cal,
       User.calendarIntegration user = Some cal ->
       Calendar.enabled cal = false
       \/ Calendar.makeUnavailableDuringEvents cal = false) ->
   isUserInMeeting clk user = false).
Proof.
  split.
  - intros cal ev Hcal Hen Hflag Hin Hst Hmu Hnow.
    assert (Hmeet : isUserInMeeting clk user = true).
    { unfold isUserInMeeting. rewrite Hcal, Hen, Hflag. simpl.
      destruct (find_some_exists (happening_now clk) _ ev Hin
                  (happening_now_true clk ev Hst Hmu Hnow)) as [y ->].
      reflexivity. }
    split; [assumption|].
    unfold isUserAvailable. rewrite Hmeet. reflexivity.
  - intros Hoff. unfold isUserInMeeting.
    destruct (User.calendarIntegration user) as [cal|]; [|reflexivity].
    destruct (Hoff cal eq_refl) as [-> | ->]; simpl; [reflexivity|].
    rewrite orb_true_r. reflexivity.
Qed.

(** The look-up of the day-record: the first record of the list that
    carries the name of the weekday. *)
Lemma dayAvailability_first (clk : Clock) (user : User.t)
  (pre post : list Day.t) (d : Day.t) :
  User.availability user = (pre ++ d :: post)%list ->
  Forall (fun r => Day.day r <> day_name (weekday clk)) pre ->
  Day.day d = day_name (weekday clk) ->
  dayAvailability clk user = Some d.
Proof.
  intros Hlist Hpre Hday. unfold dayAvailability. rewrite Hlist.
  assert (Hname : dayOfWeek clk = day_name (weekday clk))
    by (unfold dayOfWeek; destruct (weekday clk); reflexivity).
  rewrite Hname. clear Hlist.
  induction Hpre as [|r pre Hr _ IH]; simpl.
  - rewrite Hday, String.eqb_refl. reflexivity.
  - apply String.eqb_neq in Hr. rewrite Hr. exact IH.
Qed.

Lemma dayAvailability_none (clk : Clock) (user : User.t) :
  Forall (fun r => Day.day r <> day_name (weekday clk))
    (User.availability user) ->
  dayAvailability clk user = None.
Proof.
  intros Hall. unfold dayAvailability.
  assert (Hname : dayOfWeek clk = day_name (weekday clk))
    by (unfold dayOfWeek; destruct (weekday clk); reflexivity).
  rewrite Hname.
  induction Hall as [|r l Hr _ IH]; simpl; [reflexivity|].
  apply String.eqb_neq in Hr. rewrite Hr. exact IH.
Qed.

(** C3. When the meeting check does not apply, [isUserAvailable] is false
    if no day-record of the user carries the name of the current weekday.
    Otherwise the first record that carries it decides: with
    [isAvailable] false the answer is false, with [isAvailable] true it is
    the lexicographic test [startTime <= HH:MM <= endTime]; hence a record
    whose [startTime] is lexicographically greater than its [endTime]
    (22:00 to 02:00, say) gives false at every time of day. *)
Theorem schedule_window (clk : Clock) (user : User.t) :
  isUserInMeeting clk user = false ->
  (Forall (fun r => Day.day r <> day_name (weekday clk))
     (User.availability user) ->
   isUserAvailable clk user = false)
  /\ (forall pre d post,
         User.availability user = (pre ++ d :: post)%list ->
         Forall (fun r => Day.day r <> day_name (weekday clk)) pre ->
         Day.day d = day_name (weekday clk) ->
         (Day.isAvailable d = false -> isUserAvailable clk user = false)
         /\ (Day.isAvailable d = true ->
             isUserAvailable clk user
             = String.leb (Day.startTime d) (format_HHmm clk)
               && String.leb (format_HHmm clk) (Day.endTime d))
         /\ (String.ltb (Day.endTime d) (Day.startTime d) = true ->
             isUserAvailable clk user = false)).
Proof.
  intros Hmeet. unfold isUserAvailable. rewrite Hmeet. split.
  - intros Hall. rewrite (dayAvailability_none clk user Hall). reflexivity.
  - intros pre d post Hlist Hpre Hday.
    rewrite (dayAvailability_first clk user pre post d Hlist Hpre Hday).
    split; [|split].
    + intros ->. reflexivity.
    + intros ->. reflexivity.
    + intros Hgt. destruct (Day.isAvailable d); [|reflexivity].
      simpl. apply empty_window. exact Hgt.
Qed.

End AvailabilityFacts.

(** ** The call router and the voicemail recorder *)

Section RouterFacts.

Import TelnyxService.

Variable env : Env.

Ltac run :=
  unfold handleIncomingCall, handleUnavailableDTMF, forwardToCentral,
    sendToVoicemail, fireRecordStart, try_catch, bind, ret, throw,
    calls_update, setTimeout;
  simpl.

Ltac accept H h id cmd :=
  let d := fresh "data" in
  let E := fresh "Hdata" in
  destruct (H h id cmd) as [d E]; rewrite E; simpl.

(** C1. [handleIncomingCall] picks its action by priority. Whenever it
    returns, the action is 'forwarded' if the user is available, else
    'routed_to_agent' if [routeToLiveAgent] is set and [liveAgentNumber]
    is non-empty, else 'unavailable_prompt'. With a client that accepts
    the commands it does return, having answered and then: transferred
    to [user.phoneNumber] with a 15 second timeout; or transferred to
    the live agent with the same timeout; or played the prompt and
    started a one-digit, 5 second gather. *)
Theorem handleIncomingCall_priority (clk : Clock) (user : User.t)
  (callControlId : string) (w : World) :
  (forall r w',
      handleIncomingCall env clk user callControlId w = (Return r, w') ->
      action r =
        if isUserAvailable clk user then "forwarded"
        else if User.routeToLiveAgent user
                && Js.truthy (User.liveAgentNumber user)
             then "routed_to_agent"
             else "unavailable_prompt")
  /\
  (accepts_all env ->
   (isUserAvailable clk user = true ->
    exists data,
      handleIncomingCall env clk user callControlId w
      = (Return {| action := "forwarded"; result := data; message := None |},
         log_call callControlId
           (Transfer (User.phoneNumber user) (Some 15%Z) (WEBHOOK_URL env)
              "transfer")
           (log_call callControlId (Answer (Some "awaiting-transfer")) w)))
   /\
   (isUserAvailable clk user = false ->
    User.routeToLiveAgent user = true ->
    Js.truthy (User.liveAgentNumber user) = true ->
    exists data,
      handleIncomingCall env clk user callControlId w
      = (Return {| action := "routed_to_agent"; result := data;
                   message := None |},
         log_call callControlId
           (Transfer (User.liveAgentNumber user) (Some 15%Z)
              (WEBHOOK_URL env) "transfer")
           (log_call callControlId (Answer (Some "awaiting-transfer")) w)))
   /\
   (isUserAvailable clk user = false ->
    User.routeToLiveAgent user && Js.truthy (User.liveAgentNumber user)
    = false ->
    exists data msg,
      handleIncomingCall env clk user callControlId w
      = (Return {| action := "unavailable_prompt"; result := data;
                   message := Some msg |},
         log_call callControlId (Gather 1 5 "unavailable-flow")
           (log_call callControlId
              (PlayAudio UNAVAILABLE_PROMPT_URL (Some "gathering-input"))
              (log_call callControlId (Answer None) w))))).
Proof.
  split.
  - intros r w'. run.
    destruct (isUserAvailable clk user);
      [| destruct (User.routeToLiveAgent user
                   && Js.truthy (User.liveAgentNumber user)) ];
      simpl;
      repeat (match goal with
              | |- context [calls_update_oracle ?c ?h ?i ?m] =>
                  destruct (calls_update_oracle c h i m); simpl
              end);
      intros H; inversion H; reflexivity.
  - intros Hok. repeat split.
    + intros Hav. run. rewrite Hav.
      accept Hok (calls w) callControlId (Answer (Some "awaiting-transfer")).
      match goal with
      | |- context [calls_update_oracle ?c ?h ?i ?m] => accept Hok h i m
      end.
      eexists. reflexivity.
    + intros Hav Hroute Hnum. run. rewrite Hav, Hroute, Hnum. simpl.
      accept Hok (calls w) callControlId (Answer (Some "awaiting-transfer")).
      match goal with
      | |- context [calls_update_oracle ?c ?h ?i ?m] => accept Hok h i m
      end.
      eexists. reflexivity.
    + intros Hav Hno. run. rewrite Hav, Hno.
      accept Hok (calls w) callControlId (Answer None).
      do 2 match goal with
      | |- context [calls_update_oracle ?c ?h ?i ?m] => accept Hok h i m
      end.
      do 2 eexists. reflexivity.
Qed.

(** C9. [sendToVoicemail] first plays the greeting: the user's
    [voicemailGreetingUrl] when it is set, else the percent-encoded
    '<FirstName> Voicemail.mp3' under the greetings base path. If the
    client accepts the audio, the result has action 'voicemail' and one
    timer is left, due after a second; whenever that timer is fired its
    callback hands the start-recording command (mp3, single channel,
    beep) for the call to the client. If playing the audio throws,
    the greeting text is spoken; once that and the start-recording
    command sent right after it are accepted, the result has action
    'voicemail' again. A speech fallback that fails surfaces as an
    error. *)
Theorem sendToVoicemail_greeting (callControlId : string)
  (user : User.t) (w : World) :
  let play := PlayAudio (greetingUrl user) None in
  let speak := Speak (User.voicemailGreeting user) "female" "en-US" in
  let record := RecordStart "mp3" "single" true in
  let oracle := calls_update_oracle (telnyxClient env) in
  (forall url, User.voicemailGreetingUrl user = Some url -> url <> "" ->
               greetingUrl user = url)
  /\ (Js.truthy (User.voicemailGreetingUrl user) = false ->
      greetingUrl user
      = "https://raw.githubusercontent.com/GavvlLaw/voicemail-greetings/main/"
        ++ Js.encodeURIComponent
             (Js.split_space_0 (User.name user) ++ " Voicemail.mp3"))
  /\ (forall data,
         oracle (calls w) callControlId play = Return data ->
         exists callback,
           sendToVoicemail env callControlId user w
           = (Return {| action := "voicemail"; result := data;
                        message := None |},
              add_timer (Some 1000%Z) callback
                (log_call callControlId play w))
           /\ forall clk w2,
               calls (snd (fire env clk callback w2))
               = (calls w2 ++ [(callControlId, record)])%list)
  /\ (forall e data data',
         oracle (calls w) callControlId play = Throw e ->
         oracle (calls w ++ [(callControlId, play)])%list callControlId speak
         = Return data ->
         oracle (calls w ++ [(callControlId, play); (callControlId, speak)])%list
           callControlId record
         = Return data' ->
         sendToVoicemail env callControlId user w
         = (Return {| action := "voicemail"; result := data;
                      message := None |},
            log_call callControlId record
              (log_call callControlId speak
                 (log_call callControlId play w))))
  /\ (forall e e',
         oracle (calls w) callControlId play = Throw e ->
         oracle (calls w ++ [(callControlId, play)])%list callControlId speak
         = Throw e' ->
         fst (sendToVoicemail env callControlId user w)
         = Throw ("Failed to send to voicemail: " ++ e')).
Proof.
  cbv zeta. split; [|split; [|split; [|split]]].
  - intros url Hurl Hne. unfold greetingUrl, Js.truthy. rewrite Hurl.
    apply String.eqb_neq in Hne. rewrite Hne. reflexivity.
  - intros Hno. unfold greetingUrl. rewrite Hno. reflexivity.
  - intros data Hplay. exists (DeferRecordStart callControlId). split.
    + run. rewrite Hplay. reflexivity.
    + intros clk w2. unfold fire. run. unfold record_start.
      match goal with
      | |- context [calls_update_oracle ?c ?h ?i ?m] =>
          destruct (calls_update_oracle c h i m); reflexivity
      end.
  - intros e data data' Hplay Hspeak Hrec. run.
    rewrite Hplay. simpl. rewrite Hspeak. simpl.
    rewrite <- app_assoc. simpl. unfold record_start.
    rewrite Hrec. reflexivity.
  - intros e e' Hplay Hspeak. run.
    rewrite Hplay. simpl. rewrite Hspeak. reflexivity.
Qed.

(** Whenever the recorder returns, its action is 'voicemail'. *)
Lemma sendToVoicemail_action (callControlId : string) (user : User.t)
  (w : World) (r : CallResult) (w' : World) :
  sendToVoicemail env callControlId user w = (Return r, w') ->
  action r = "voicemail".
Proof.
  run.
  repeat (match goal with
          | |- context [calls_update_oracle ?c ?h ?i ?m] =>
              destruct (calls_update_oracle c h i m); simpl
          end);
    intros H; inversion H; reflexivity.
Qed.

(** With a client that accepts its commands the recorder returns. *)
Lemma sendToVoicemail_returns (callControlId : string) (user : User.t)
  (w : World) :
  accepts_all env ->
  exists r w', sendToVoicemail env callControlId user w = (Return r, w').
Proof.
  intros Hok. run.
  accept Hok (calls w) callControlId (PlayAudio (greetingUrl user) None).
  eauto.
Qed.

(** C4. [handleUnavailableDTMF]: digit '1' invokes the voicemail
    recorder; so does a gather that timed out without a digit and so
    does every digit other than '2'; the recorder's result has action
    'voicemail' and, with a client that accepts its commands, it does
    return. Digit '2' sends exactly one command, the transfer to the
    central forwarding number, and returns 'forwarded_to_central' when
    the client accepts it. *)
Theorem handleUnavailableDTMF_cases (event : GatherPayload)
  (user : User.t) (w : World) :
  let voicemail := sendToVoicemail env (call_control_id event) user w in
  let central :=
    Transfer (Some "+18446942885") None (WEBHOOK_URL env) "transfer" in
  (digit event = Some "1" ->
   handleUnavailableDTMF env event user w = voicemail)
  /\ (digit event = None ->
      handleUnavailableDTMF env event user w = voicemail)
  /\ (forall d, digit event = Some d -> d <> "2" ->
                handleUnavailableDTMF env event user w = voicemail)
  /\ (forall r w', voicemail = (Return r, w') -> action r = "voicemail")
  /\ (accepts_all env -> exists r w', voicemail = (Return r, w'))
  /\ (digit event = Some "2" ->
      snd (handleUnavailableDTMF env event user w)
      = log_call (call_control_id event) central w
      /\ (forall data,
             calls_update_oracle (telnyxClient env) (calls w)
               (call_control_id event) central = Return data ->
             fst (handleUnavailableDTMF env event user w)
             = Return {| action := "forwarded_to_central"; result := data;
                         message := None |})
      /\ (forall e,
             calls_update_oracle (telnyxClient env) (calls w)
               (call_control_id event) central = Throw e ->
             fst (handleUnavailableDTMF env event user w)
             = Throw ("Failed to handle DTMF input: " ++ e))).
Proof.
  cbv zeta. split; [|split; [|split; [|split; [|split]]]].
  - intros Hd. unfold handleUnavailableDTMF. rewrite Hd. reflexivity.
  - intros Hd. unfold handleUnavailableDTMF. rewrite Hd. reflexivity.
  - intros d Hd Hne. unfold handleUnavailableDTMF. rewrite Hd.
    apply String.eqb_neq in Hne. rewrite Hne.
    destruct (d =? "1"); reflexivity.
  - intros r w'. apply sendToVoicemail_action.
  - intros Hok. apply sendToVoicemail_returns. exact Hok.
  - intros Hd. unfold handleUnavailableDTMF. rewrite Hd.
    unfold CENTRAL_FORWARDING_NUMBER. split; [|split].
    + run.
      match goal with
      | |- context [calls_update_oracle ?c ?h ?i ?m] =>
          destruct (calls_update_oracle c h i m); reflexivity
      end.
    + intros data Hdata. run. unfold CENTRAL_FORWARDING_NUMBER.
      rewrite Hdata. reflexivity.
    + intros e He. run. unfold CENTRAL_FORWARDING_NUMBER.
      rewrite He. reflexivity.
Qed.

End RouterFacts.

(** ** The trigger predicate *)

Section TriggerFacts.

Import SmsAutomationService.











(** The keyword 'hello' matches the message 'Well, HELLO there'. *)
Example hello_matches :
  checkTriggerConditions
    {| Automation._id := "a1"; Automation.name := "greeter";
       Automation.isActive := true; Automation.user := "u1";
       Automation.phoneNumber := "+15551234567";
       Automation.conditions :=
         [ {| Condition.type := "keywordSms";
              Condition.parameters :=
                Some {| Condition.keywords := Some ["hello"];
                        Condition.time := None;
                        Condition.daysOfWeek := [];
                        Condition.availabilityStatus := None |} |} ];
       Automation.actions := [];
       Automation.statistics :=
         {| Stats.timesTriggered := 0; Stats.lastTriggered := None;
            Stats.successCount := 0; Stats.errorCount := 0 |} |}
    (smsContext
       {| Sms.to := "+15551234567"; Sms.from := "+15557654321";
          Sms.text := "Well, HELLO there" |} None)
  = true.
Proof. vm_compute. reflexivity. Qed.

End TriggerFacts.

(** ** Actions *)

Section ActionFacts.

Import SmsAutomationService.

Variable env : Env.

Ltac exec :=
  unfold executeAction, executeSendSmsAction, executeNotifyAction,
    TelnyxService.sendSMS, TelnyxService.messages_create,
    scheduleDelayedAction, setTimeout, findById, findByIdAndUpdate,
    try_catch, bind, ret, throw;
  simpl.

(** [executeAction] always returns, and all it may do to the world is
    to hand one message to the client. *)
Lemma executeAction_returns (clk : Clock) (action : Action.t)
  (context : Context.t) (w : World) :
  exists r w',
    executeAction env clk action context w = (Return r, w')
    /\ (w' = w \/ exists m, w' = log_message m w).
Proof.
  exec.
  destruct (Action.type action =? "sendSms").
  - destruct (Action.parameters action) as [ps|]; simpl; [|eauto].
    destruct (Action.template ps) as [t|]; simpl.
    + destruct (sender_number context) as [from|]; simpl; [|eauto].
      destruct (Context.from context) as [to|]; simpl; [|eauto].
      destruct ((from =? "") || (to =? "")); simpl; [eauto|].
      destruct (messages_create_oracle _ _ _); simpl; eauto 6.
    + destruct (Action.message ps) as [m|]; simpl; [|eauto].
      destruct (m =? ""); simpl; [eauto|].
      destruct (sender_number context) as [from|]; simpl; [|eauto].
      destruct (Context.from context) as [to|]; simpl; [|eauto].
      destruct ((from =? "") || (to =? "")); simpl; [eauto|].
      destruct (messages_create_oracle _ _ _); simpl; eauto 6.
  - destruct (Action.type action =? "notify"); simpl; eauto.
Qed.

Lemma ms_per_unit_cases (unit : option string) :
  ms_per_unit unit = 3600000%Z /\ unit = Some "hours"
  \/ ms_per_unit unit = 86400000%Z /\ unit = Some "days"
  \/ ms_per_unit unit = 60000%Z /\ unit <> Some "hours"
     /\ unit <> Some "days".
Proof.
  destruct unit as [u|]; [|right; right; repeat split; discriminate].
  destruct (u =? "hours") eqn:Hh.
  { apply String.eqb_eq in Hh. subst u. left. split; reflexivity. }
  destruct (u =? "days") eqn:Hd.
  { apply String.eqb_eq in Hd. subst u. right. left. split; reflexivity. }
  apply String.eqb_neq in Hh. apply String.eqb_neq in Hd.
  right. right. split; [|split; congruence].
  unfold ms_per_unit.
  repeat (match goal with
          | |- context [match ?x with _ => _ end] =>
              destruct x; try reflexivity
          end); congruence.
Qed.

(** The milliseconds the code computes are [value] times the
    milliseconds of the unit. *)
Lemma delayMs_unit (d : Delay.t) (v : Z) :
  Delay.value d = Some v ->
  delayMs d = Some (v * ms_per_unit (Delay.unit d))%Z.
Proof.
  intros Hv. unfold delayMs, option_is. rewrite Hv.
  destruct (ms_per_unit_cases (Delay.unit d))
    as [[-> ->] | [[-> ->] | [-> [Hh Hd]]]]; simpl;
    try (f_equal; lia).
  destruct (Delay.unit d) as [u|]; simpl; [|f_equal; lia].
  destruct (u =? "hours") eqn:E1;
    [apply String.eqb_eq in E1; congruence|].
  destruct (u =? "days") eqn:E2;
    [apply String.eqb_eq in E2; congruence|].
  simpl. f_equal. lia.
Qed.

(** A positive delay is at least a millisecond, so the timer takes it
    as it is up to [TIMEOUT_MAX], and as one millisecond beyond. *)
Lemma timeout_after_due (d : Delay.t) (v : Z) :
  (0 < v)%Z ->
  timeout_after (Some (v * ms_per_unit (Delay.unit d))%Z)
  = due_after (v * ms_per_unit (Delay.unit d)).
Proof.
  intros Hpos. unfold timeout_after, due_after, TIMEOUT_MAX.
  assert (Hone : (1 <= v * ms_per_unit (Delay.unit d))%Z).
  { destruct (ms_per_unit_cases (Delay.unit d))
      as [[-> _] | [[-> _] | [-> _]]]; lia. }
  apply Z.leb_le in Hone. rewrite Hone. reflexivity.
Qed.

(** The test of the loop: the action carries a delay of positive
    value. *)
Lemma is_delayed_iff (action : Action.t) :
  is_delayed action = true <-> exists d v, asks_delay action d v.
Proof.
  unfold is_delayed, delay_of, asks_delay. split.
  - destruct (Action.parameters action) as [ps|]; [|discriminate].
    destruct (Action.delay ps) as [d|] eqn:Hd; [|discriminate].
    destruct (Delay.value d) as [v|] eqn:Hv; [|discriminate].
    intros H. apply Z.ltb_lt in H. exists d, v, ps. auto.
  - intros [d [v [ps [-> [-> [-> H]]]]]]. apply Z.ltb_lt. exact H.
Qed.

Lemma requested_ms_delayed (action : Action.t) (d : Delay.t) (v : Z) :
  asks_delay action d v ->
  requested_ms action = Some (v * ms_per_unit (Delay.unit d))%Z.
Proof.
  intros [ps [Hps [Hd [Hv Hpos]]]]. unfold requested_ms.
  rewrite Hps, Hd, Hv. apply Z.ltb_lt in Hpos. rewrite Hpos. reflexivity.
Qed.

Lemma requested_ms_none (action : Action.t) :
  is_delayed action = false -> requested_ms action = None.
Proof.
  unfold is_delayed, delay_of, requested_ms.
  destruct (Action.parameters action) as [ps|]; [|reflexivity].
  destruct (Action.delay ps) as [d|]; [|reflexivity].
  destruct (Delay.value d) as [v|]; [|reflexivity].
  intros ->. reflexivity.
Qed.

(** Scheduling a delayed action only adds its timer. *)
Lemma scheduleDelayedAction_asked (automationId : string)
  (action : Action.t) (context : Context.t) (w : World)
  (d : Delay.t) (v : Z) :
  asks_delay action d v ->
  scheduleDelayedAction automationId action context w
  = (Return tt,
     add_timer (Some (due_after (v * ms_per_unit (Delay.unit d)))%Z)
       (DeferAction automationId action context) w).
Proof.
  intros [ps [Hps [Hd [Hv Hpos]]]].
  unfold scheduleDelayedAction, delay_of, setTimeout, try_catch.
  rewrite Hps, Hd, (delayMs_unit d v Hv), (timeout_after_due d v Hpos).
  reflexivity.
Qed.

Lemma scheduleDelayedAction_delayed (automationId : string)
  (action : Action.t) (context : Context.t) (w : World) :
  is_delayed action = true ->
  exists d v,
    asks_delay action d v
    /\ scheduleDelayedAction automationId action context w
       = (Return tt,
          add_timer (Some (due_after (v * ms_per_unit (Delay.unit d)))%Z)
            (DeferAction automationId action context) w).
Proof.
  intros H. apply is_delayed_iff in H. destruct H as [d [v H]].
  exists d, v. split; [exact H|].
  apply scheduleDelayedAction_asked. exact H.
Qed.

(** The loop over the actions always returns. *)
Lemma actions_loop_returns (clk : Clock) (automationId : string)
  (actions : list Action.t) (context : Context.t)
  (results : list ActionResult) (w : World) :
  exists results' w',
    actions_loop env clk automationId actions context results w
    = (Return results', w').
Proof.
  revert results w. induction actions as [|action rest IH];
    intros results w; simpl.
  - unfold ret. eauto.
  - destruct (is_delayed action) eqn:Hdel.
    + destruct (scheduleDelayedAction_delayed automationId action context w
                  Hdel) as [d [v [_ Hs]]].
      unfold bind. rewrite Hs. apply IH.
    + destruct (executeAction_returns clk action context w)
        as [r [w' [Hr _]]].
      unfold bind. rewrite Hr. apply IH.
Qed.

Lemma actions_loop_app (clk : Clock) (automationId : string)
  (pre post : list Action.t) (context : Context.t)
  (results : list ActionResult) (w : World) :
  actions_loop env clk automationId (pre ++ post) context results w
  = match actions_loop env clk automationId pre context results w with
    | (Return results', w') =>
        actions_loop env clk automationId post context results' w'
    | (Throw e, w') => (Throw e, w')
    end.
Proof.
  revert results w. induction pre as [|action pre IH];
    intros results w; simpl.
  - reflexivity.
  - destruct (is_delayed action); unfold bind.
    + destruct (scheduleDelayedAction _ _ _ _) as [[|e] w']; [apply IH|].
      reflexivity.
    + destruct (executeAction _ _ _ _ _) as [[r|e] w']; [apply IH|].
      reflexivity.
Qed.

(** [executeAutomationActions] is its loop: the [catch] is never
    entered. *)
Lemma executeAutomationActions_loop (clk : Clock)
  (automation : Automation.t)
  (context : Context.t) (w : World) :
  executeAutomationActions env clk automation context w
  = actions_loop env clk (Automation._id automation)
      (Automation.actions automation) context [] w.
Proof.
  unfold executeAutomationActions, try_catch.
  destruct (actions_loop_returns clk (Automation._id automation)
              (Automation.actions automation) context [] w)
    as [r [w' H]].
  rewrite H. reflexivity.
Qed.

(** C8. An action with [delay.value > 0] is not executed inline by
    [executeAutomationActions]. Reaching it, in the world the actions
    before it have left, the loop only hands the callback to a timer,
    records the result [{type, status: 'scheduled', delay}] and goes on
    with the remaining actions. The timer is asked for after [delay.value]
    minutes in milliseconds (hours or days when the unit says so): up to
    2147483647 ms it comes due after that time, but a longer delay, from
    25 days on, makes it come due after one millisecond. When the timer
    fires the automation is fetched again: if it is gone or no longer
    active the callback changes nothing; if it is active the action is
    executed, with the effects of [executeAction]. *)
Theorem delayed_action_timer (clk : Clock) (automation : Automation.t)
  (context : Context.t) (pre post : list Action.t) (action : Action.t)
  (ps : Action.params) (d : Delay.t) (v : Z) (w : World) :
  Automation.actions automation = (pre ++ action :: post)%list ->
  Action.parameters action = Some ps ->
  Action.delay ps = Some d ->
  Delay.value d = Some v ->
  (0 < v <= MAX_SAFE_INTEGER)%Z ->
  let id := Automation._id automation in
  let ms := (v * ms_per_unit (Delay.unit d))%Z in
  let scheduled :=
    Scheduled (Action.type action)
      (string_of_number v ++ " "
       ++ match Delay.unit d with Some u => u | None => "undefined" end) in
  (exists results_pre w_pre due,
      actions_loop env clk id pre context [] w = (Return results_pre, w_pre)
      /\ executeAutomationActions env clk automation context w
         = actions_loop env clk id post context
             (results_pre ++ [scheduled])%list
             (add_timer (Some due) (DeferAction id action context) w_pre)
      /\ status scheduled = "scheduled"
      /\ ((ms <= 2147483647)%Z -> due = ms)
      /\ ((2147483647 < ms)%Z -> due = 1%Z))
  /\ (forall clk' w',
         (find (fun a => Automation._id a =? id) (automations w') = None
          \/ exists a,
              find (fun a => Automation._id a =? id) (automations w')
              = Some a
              /\ Automation.isActive a = false) ->
         fire env clk' (DeferAction id action context) w' = (Return tt, w'))
  /\ (forall clk' w' a,
         find (fun a => Automation._id a =? id) (automations w') = Some a ->
         Automation.isActive a = true ->
         let fired := fire env clk' (DeferAction id action context) w' in
         exists r w1,
           executeAction env clk' action context w' = (Return r, w1)
           /\ fst fired = Return tt
           /\ calls (snd fired) = calls w1
           /\ messages (snd fired) = messages w1
           /\ timers (snd fired) = timers w1).
Proof.
  intros Hactions Hps Hd Hv [Hpos _] id ms scheduled.
  assert (Hasks : asks_delay action d v) by (exists ps; auto).
  split; [|split].
  - destruct (actions_loop_returns clk id pre context [] w)
      as [results_pre [w_pre Hpre]].
    exists results_pre, w_pre, (due_after ms).
    split; [exact Hpre|]. split; [|split; [reflexivity|]].
    + rewrite executeAutomationActions_loop, Hactions, actions_loop_app.
      fold id. rewrite Hpre. simpl.
      rewrite (proj2 (is_delayed_iff action)) by (exists d, v; exact Hasks).
      unfold bind.
      rewrite (scheduleDelayedAction_asked id action context w_pre d v Hasks).
      unfold scheduled, delay_text, delay_of. rewrite Hps, Hd, Hv.
      reflexivity.
    + unfold due_after. split; intros Hms.
      * apply Z.leb_le in Hms. rewrite Hms. reflexivity.
      * apply Z.leb_gt in Hms. rewrite Hms. reflexivity.
  - intros clk' w' Hgone. unfold fire, delayedCallback. exec.
    destruct Hgone as [-> | [a [-> Hoff]]]; [reflexivity|].
    rewrite Hoff. reflexivity.
  - intros clk' w' a Hfound Hon fired.
    destruct (executeAction_returns clk' action context w')
      as [r [w1 [Hr _]]].
    exists r, w1. split; [exact Hr|].
    unfold fired, fire, delayedCallback, findById, findByIdAndUpdate,
      try_catch, bind.
    rewrite Hfound, Hon. simpl. rewrite Hr. simpl.
    repeat split.
Qed.

(** ** Contexts without a sender *)

(** On a context without [from] no action touches the world. *)
Lemma executeAction_no_from (clk : Clock) (action : Action.t)
  (context : Context.t) (w : World) :
  Context.from context = None ->
  exists r, executeAction env clk action context w = (Return r, w).
Proof.
  intros Hfrom. exec. rewrite Hfrom.
  destruct (Action.type action =? "sendSms").
  - destruct (Action.parameters action) as [ps|]; simpl; [|eauto].
    destruct (Action.template ps) as [t|]; simpl.
    + destruct (sender_number context); simpl; eauto.
    + destruct (Action.message ps) as [m|]; simpl; [|eauto].
      destruct (m =? ""); simpl; [eauto|].
      destruct (sender_number context); simpl; eauto.
  - destruct (Action.type action =? "notify"); simpl; eauto.
Qed.

Lemma actions_loop_no_from (clk : Clock) (automationId : string)
  (actions : list Action.t) (context : Context.t)
  (results : list ActionResult) (w : World) :
  Context.from context = None ->
  exists results' w',
    actions_loop env clk automationId actions context results w
    = (Return results', w')
    /\ messages w' = messages w /\ automations w' = automations w.
Proof.
  intros Hfrom. revert results w.
  induction actions as [|action rest IH]; intros results w; simpl.
  - unfold ret. eauto.
  - destruct (is_delayed action) eqn:Hdel.
    + destruct (scheduleDelayedAction_delayed automationId action context w
                  Hdel) as [d [v [_ Hs]]].
      unfold bind. rewrite Hs.
      destruct (IH (results
                      ++ [Scheduled (Action.type action) (delay_text action)])%list
                  (add_timer
                     (Some (due_after (v * ms_per_unit (Delay.unit d)))%Z)
                     (DeferAction automationId action context) w))
        as [r' [w' [Hr [Hm Ha]]]].
      exists r', w'. repeat split; assumption.
    + destruct (executeAction_no_from clk action context w Hfrom)
        as [r Hr].
      unfold bind. rewrite Hr. apply IH.
Qed.

Lemma scheduled_loop_messages (clk : Clock) (timeNow dayOfWeek : string)
  (automations : list (Automation.t * option User.t))
  (triggeredAutomations : list string) (w : World) :
  messages
    (snd (scheduled_loop env clk timeNow dayOfWeek automations
            triggeredAutomations w))
  = messages w.
Proof.
  revert triggeredAutomations w.
  induction automations as [|[a u] rest IH]; intros tr w; simpl;
    [reflexivity|].
  unfold bind at 1. rewrite executeAutomationActions_loop.
  destruct (actions_loop_no_from clk (Automation._id a)
              (Automation.actions a)
              (scheduledContext timeNow dayOfWeek a u) [] w eq_refl)
    as [r [w' [Hr [Hm _]]]].
  rewrite Hr. unfold bind, findByIdAndUpdate. rewrite IH. exact Hm.
Qed.

Lemma availability_loop_messages (clk : Clock)
  (availabilityStatus userId : string) (user : User.t)
  (automations : list Automation.t) (triggeredAutomations : list string)
  (w : World) :
  messages
    (snd (availability_loop env clk availabilityStatus userId user
            automations triggeredAutomations w))
  = messages w.
Proof.
  revert triggeredAutomations w.
  induction automations as [|a rest IH]; intros tr w; simpl;
    [reflexivity|].
  unfold bind at 1. rewrite executeAutomationActions_loop.
  destruct (actions_loop_no_from clk (Automation._id a)
              (Automation.actions a)
              (availabilityContext availabilityStatus userId user a) [] w
              eq_refl)
    as [r [w' [Hr [Hm _]]]].
  rewrite Hr. unfold bind, findByIdAndUpdate. rewrite IH. exact Hm.
Qed.

Lemma processScheduledAutomations_messages (clk : Clock) (w : World) :
  messages (snd (processScheduledAutomations env clk w)) = messages w.
Proof.
  unfold processScheduledAutomations, try_catch, bind, readAutomations, lift.
  destruct (populate_user env _) as [l|e]; [|reflexivity].
  destruct l as [|p l]; [reflexivity|].
  pose proof (scheduled_loop_messages clk (format_HHmm clk)
                (Js.toLowerCase (format_dddd (weekday clk))) (p :: l) [] w)
    as H.
  destruct (scheduled_loop env clk _ _ (p :: l) [] w) as [[tr|e] w'];
    exact H.
Qed.

Lemma processAvailabilityChange_messages (clk : Clock) (userId : string)
  (isAvailable : bool) (w : World) :
  messages (snd (processAvailabilityChange env clk userId isAvailable w))
  = messages w.
Proof.
  unfold processAvailabilityChange, try_catch, bind, readAutomations, lift.
  destruct (User_findById env userId) as [[user|]|e]; try reflexivity.
  destruct (User.telnyxPhoneNumber user) as [phone|]; [|reflexivity].
  destruct (phone =? ""); [reflexivity|].
  destruct (find_availability phone _ (automations w)) as [|a l];
    [reflexivity|].
  pose proof (availability_loop_messages clk
                (if isAvailable then "available" else "unavailable")
                userId user (a :: l) [] w) as H.
  destruct (availability_loop env clk _ userId user (a :: l) [] w)
    as [[tr|e] w']; exact H.
Qed.

(** C10, as amended. The contexts built by [processScheduledAutomations]
    and [processAvailabilityChange] carry no [from], and neither entry
    point ever hands a message to the client. On a context without
    [from] an immediate sendSms action leaves the world untouched and
    its result has status 'error'; the error is 'Missing required
    to/from phone numbers' when the action supplies a template or a
    non-empty message, and one of the two earlier errors when it does
    not. *)
Theorem sendSms_without_sender_fails (clk : Clock) :
  (forall timeNow dayOfWeek automation user,
      Context.from (scheduledContext timeNow dayOfWeek automation user)
      = None)
  /\ (forall availabilityStatus userId user automation,
         Context.from
           (availabilityContext availabilityStatus userId user automation)
         = None)
  /\ (forall w,
         messages (snd (processScheduledAutomations env clk w))
         = messages w)
  /\ (forall userId isAvailable w,
         messages
           (snd (processAvailabilityChange env clk userId isAvailable w))
         = messages w)
  /\ (forall action context w,
         Action.type action = "sendSms" ->
         is_delayed action = false ->
         Context.from context = None ->
         exists err,
           executeAction env clk action context w
           = (Return (ActionError "sendSms" err), w)
           /\ status (ActionError "sendSms" err) = "error"
           /\ (forall id rest results,
                  actions_loop env clk id (action :: rest) context results w
                  = actions_loop env clk id rest context
                      (results ++ [ActionError "sendSms" err])%list w)
           /\ (forall ps,
                  Action.parameters action = Some ps ->
                  Action.template ps <> None
                  \/ Js.truthy (Action.message ps) = true ->
                  err = "Missing required to/from phone numbers")
           /\ (forall ps,
                  Action.parameters action = Some ps ->
                  Action.template ps = None ->
                  Js.truthy (Action.message ps) = false ->
                  err = "No template or message provided for SMS action")
           /\ (Action.parameters action = None ->
               err = "Missing action parameters")).
Proof.
  split; [reflexivity|]. split; [reflexivity|].
  split; [apply processScheduledAutomations_messages|].
  split; [apply processAvailabilityChange_messages|].
  intros action context w Htype Himm Hfrom.
  assert (Hexec :
    exists err,
      executeAction env clk action context w
      = (Return (ActionError "sendSms" err), w)
      /\ (forall ps,
             Action.parameters action = Some ps ->
             Action.template ps <> None
             \/ Js.truthy (Action.message ps) = true ->
             err = "Missing required to/from phone numbers")
      /\ (forall ps,
             Action.parameters action = Some ps ->
             Action.template ps = None ->
             Js.truthy (Action.message ps) = false ->
             err = "No template or message provided for SMS action")
      /\ (Action.parameters action = None ->
          err = "Missing action parameters")).
  { exec. rewrite Htype, Hfrom. simpl. unfold Js.truthy.
    destruct (Action.parameters action) as [ps|]; simpl.
    2:{ eexists. split; [reflexivity|].
        split; [|split]; intros; try discriminate; reflexivity. }
    destruct (Action.template ps) as [t|] eqn:Ht; simpl.
    { exists "Missing required to/from phone numbers".
      split; [destruct (sender_number context); reflexivity|].
      split; [|split; [|intros; discriminate]];
        intros ps' Hps; inversion Hps; subst ps'; intros;
        try reflexivity; congruence. }
    destruct (Action.message ps) as [m|] eqn:Hm; simpl;
      [destruct (m =? "") eqn:Hempty; simpl|].
    - eexists. split; [reflexivity|].
      split; [|split; [|intros; discriminate]];
        intros ps' Hps; inversion Hps; subst ps'; intros;
        try reflexivity.
      destruct H as [H|H]; [congruence|].
      rewrite Hm, Hempty in H. discriminate.
    - exists "Missing required to/from phone numbers".
      split; [destruct (sender_number context); reflexivity|].
      split; [|split; [|intros; discriminate]];
        intros ps' Hps; inversion Hps; subst ps'; intros;
        try reflexivity.
      rewrite Hm, Hempty in H0. discriminate.
    - eexists. split; [reflexivity|].
      split; [|split; [|intros; discriminate]];
        intros ps' Hps; inversion Hps; subst ps'; intros;
        try reflexivity.
      destruct H as [H|H]; [congruence|].
      rewrite Hm in H. discriminate. }
  destruct Hexec as [err [Hrun [H1 [H2 H3]]]].
  exists err. split; [exact Hrun|]. split; [reflexivity|].
  split; [|repeat split; assumption].
  intros id rest results. simpl. rewrite Himm. unfold bind.
  rewrite Hrun. reflexivity.
Qed.

(** ** The unsubscribe round trip *)

Lemma filter_andb {A} (p q : A -> bool) (l : list A) :
  filter (fun a => p a && q a) l = filter q (filter p l).
Proof.
  induction l as [|a l IH]; simpl; [reflexivity|].
  destruct (p a); simpl; [|exact IH].
  destruct (q a); rewrite IH; reflexivity.
Qed.

Lemma find_for_sms_active (to : string) (db : list Automation.t) :
  find_for_sms to db
  = filter (has_condition (type_in ["incomingSms"; "keywordSms"]))
      (active_on to db).
Proof.
  unfold find_for_sms, active_on.
  rewrite <- (filter_andb
                (fun a => Automation.isActive a
                          && (Automation.phoneNumber a =? to))).
  reflexivity.
Qed.

(** An immediate action with a literal message, run on the context of
    an inbound message: one send, from the automation's number to the
    sender, whatever the client answers. *)
Lemma literal_reply_sent (clk : Clock) (smsData : Sms.t)
  (automationId : option string) (text : string) (w : World) :
  Sms.from smsData <> "" -> Sms.to smsData <> "" -> text <> "" ->
  exists r,
    executeAction env clk (sendSmsMessage text)
      (smsContext smsData automationId) w
    = (Return r,
       log_message
         {| Message.from := Sms.to smsData;
            Message.to := Sms.from smsData;
            Message.text := text |} w).
Proof.
  intros Hfrom Hto Htext.
  apply String.eqb_neq in Hfrom. apply String.eqb_neq in Hto.
  apply String.eqb_neq in Htext.
  exec. rewrite Htext. simpl.
  unfold sender_number, Js.truthy. simpl.
  repeat (rewrite ?Hto, ?Hfrom; simpl).
  match goal with
  | |- context [messages_create_oracle ?c ?h ?m] =>
      destruct (messages_create_oracle c h m); simpl; eauto
  end.
Qed.

(** C6. An inbound 'STOP' on a number whose one active automation has
    the single condition keywordSms 'stop' and the single immediate
    action sendSms 'You have been unsubscribed.': [processIncomingSms]
    returns processed true with the automation's name as the only
    triggered one (total 1), and exactly one message is handed to the
    client, from the automation's own number to the original sender,
    with that text. *)
Theorem stop_round_trip (clk : Clock) (w : World)
  (automation : Automation.t) (smsData : Sms.t) :
  Sms.text smsData = "STOP" ->
  Sms.from smsData <> "" ->
  Sms.to smsData <> "" ->
  active_on (Sms.to smsData) (automations w) = [automation] ->
  Automation.conditions automation = [keywordSms ["stop"]] ->
  Automation.actions automation
  = [sendSmsMessage "You have been unsubscribed."] ->
  exists w',
    processIncomingSms env clk smsData w
    = (Return (Summary true [Automation.name automation] 1), w')
    /\ messages w'
       = (messages w
            ++ [ {| Message.from := Sms.to smsData;
                    Message.to := Sms.from smsData;
                    Message.text := "You have been unsubscribed." |} ])%list.
Proof.
  intros Htext Hfrom Hto Hactive Hconds Hactions.
  assert (Hfound : find_for_sms (Sms.to smsData) (automations w)
                   = [automation]).
  { rewrite find_for_sms_active, Hactive. simpl.
    unfold has_condition. rewrite Hconds. reflexivity. }
  assert (Htrigger :
    checkTriggerConditions automation (smsContext smsData None) = true).
  { unfold checkTriggerConditions. rewrite Hconds. simpl.
    rewrite Htext. reflexivity. }
  destruct (literal_reply_sent clk smsData
              (Some (Automation._id automation))
              "You have been unsubscribed." w Hfrom Hto)
    as [r Hr]; [discriminate|].
  unfold processIncomingSms, try_catch, bind at 1, readAutomations.
  rewrite Hfound.
  unfold bind at 1. unfold incomingSms_loop. rewrite Htrigger.
  unfold bind at 1. rewrite executeAutomationActions_loop, Hactions.
  simpl. unfold bind at 1. rewrite Hr.
  unfold ret, bind, findByIdAndUpdate. simpl.
  eexists. split; reflexivity.
Qed.

(** ** Template rendering *)

(** C7, the code at the failing inputs. The key '{{user.name}}' is
    compiled to a regular expression whose dot matches any character,
    so the unknown placeholder '{{user_name}}' is replaced by the user
    name instead of being left as it is; and a value is used as a
    replacement pattern, so the '$$' of a message text comes out as a
    single '$'. *)
Theorem processTemplate_not_literal (clk : Clock) :
  processTemplate env clk
    {| Template.name := "welcome"; Template.content := "Hi {{user_name}}" |}
    Context.empty
  = "Hi User"
  /\ processTemplate env clk
       {| Template.name := "echo";
          Template.content := "You said: {{message}}" |}
       (smsContext
          {| Sms.to := "+15551234567"; Sms.from := "+15557654321";
             Sms.text := "pay $$ now" |} None)
     = "You said: pay $ now".
Proof. split; vm_compute; reflexivity. Qed.

(** The unknown placeholder of the specification is left as it is. *)
Lemma processTemplate_unknown_placeholder (clk : Clock) :
  processTemplate env clk
    {| Template.name := "t";
       Template.content := "Code {{not.a.variable}} here" |}
    Context.empty
  = "Code {{not.a.variable}} here".
Proof. vm_compute. reflexivity. Qed.

(** Rendering gives the unrendered content when the user look-up
    throws. *)
Lemma processTemplate_fallback (clk : Clock) (template : Template.t)
  (context : Context.t) (e : string) :
  template_user env context = Throw e ->
  processTemplate env clk template context = Template.content template.
Proof. unfold processTemplate. intros ->. reflexivity. Qed.

End ActionFacts.

(** ** Instances on the sample data *)

Lemma sample_client_accepts : accepts_all Sample.env.
Proof. intros history id cmd. exists "ok". reflexivity. Qed.

Lemma handleIncomingCall_priority_witness :
  exists data,
    TelnyxService.handleIncomingCall Sample.env Sample.clock Sample.jane
      "call-1" (Sample.world [])
    = (Return {| TelnyxService.action := "forwarded";
                 TelnyxService.result := data;
                 TelnyxService.message := None |},
       log_call "call-1"
         (Transfer (Some "+15550001111") (Some 15%Z)
            (Some "https://example.test/webhooks") "transfer")
         (log_call "call-1" (Answer (Some "awaiting-transfer"))
            (Sample.world []))).
Proof.
  destruct (handleIncomingCall_priority Sample.env Sample.clock Sample.jane
              "call-1" (Sample.world [])) as [_ H].
  destruct (H sample_client_accepts) as [Hforward _].
  apply Hforward. reflexivity.
Defined.

Lemma meeting_takes_precedence_witness :
  CalendarService.isUserInMeeting Sample.clock Sample.jane_in_meeting = true
  /\ TelnyxService.isUserAvailable Sample.clock Sample.jane_in_meeting
     = false.
Proof.
  apply (proj1 (meeting_takes_precedence Sample.clock Sample.jane_in_meeting)
           Sample.calendar Sample.meeting).
  - reflexivity.
  - reflexivity.
  - reflexivity.
  - simpl. left. reflexivity.
  - discriminate.
  - reflexivity.
  - simpl. lia.
Defined.

Lemma schedule_window_witness :
  TelnyxService.isUserAvailable Sample.clock Sample.jane = true
  /\ TelnyxService.isUserAvailable Sample.wednesday Sample.jane = true
  /\ TelnyxService.isUserAvailable Sample.clock Sample.night_owl = false.
Proof.
  split; [|split].
  - destruct (schedule_window Sample.clock Sample.jane eq_refl) as [_ H].
    destruct (H [] (nth 0 (User.availability Sample.jane) Sample.sunday_off)
                (skipn 1 (User.availability Sample.jane)))
      as [_ [Hin _]]; [reflexivity | constructor | reflexivity |].
    rewrite Hin; reflexivity.
  - destruct (schedule_window Sample.wednesday Sample.jane eq_refl)
      as [_ H].
    destruct (H (firstn 2 (User.availability Sample.jane))
                (nth 2 (User.availability Sample.jane) Sample.sunday_off)
                (skipn 3 (User.availability Sample.jane)))
      as [_ [Hin _]];
      [reflexivity | repeat constructor; discriminate | reflexivity |].
    rewrite Hin; reflexivity.
  - destruct (schedule_window Sample.clock Sample.night_owl eq_refl)
      as [_ H].
    destruct (H [] (nth 0 (User.availability Sample.night_owl)
                      Sample.sunday_off)
                (skipn 1 (User.availability Sample.night_owl)))
      as [_ [_ Hcross]]; [reflexivity | constructor | reflexivity |].
    apply Hcross. reflexivity.
Defined.

Lemma handleUnavailableDTMF_cases_witness :
  TelnyxService.handleUnavailableDTMF Sample.env
    {| TelnyxService.call_control_id := "call-1";
       TelnyxService.digit := Some "7" |}
    Sample.jane (Sample.world [])
  = TelnyxService.sendToVoicemail Sample.env "call-1" Sample.jane
      (Sample.world []).
Proof.
  destruct (handleUnavailableDTMF_cases Sample.env
              {| TelnyxService.call_control_id := "call-1";
                 TelnyxService.digit := Some "7" |}
              Sample.jane (Sample.world [])) as [_ [_ [Hother _]]].
  apply (Hother "7").
  - reflexivity.
  - discriminate.
Defined.


Lemma stop_round_trip_witness :
  exists w',
    SmsAutomationService.processIncomingSms Sample.env Sample.clock
      Sample.stop_sms
      (Sample.world [Sample.callback; Sample.unsubscribe; Sample.report])
    = (Return (SmsAutomationService.Summary true ["Unsubscribe"] 1), w')
    /\ messages w'
       = [ {| Message.from := "+15551234567"; Message.to := "+15557654321";
              Message.text := "You have been unsubscribed." |} ].
Proof.
  apply (stop_round_trip Sample.env Sample.clock
           (Sample.world [Sample.callback; Sample.unsubscribe; Sample.report])
           Sample.unsubscribe Sample.stop_sms).
  - reflexivity.
  - discriminate.
  - discriminate.
  - reflexivity.
  - reflexivity.
  - reflexivity.
Defined.

Lemma delayed_action_timer_witness :
  let context :=
    SmsAutomationService.smsContext Sample.hello_sms (Some "auto-2") in
  let later :=
    SmsAutomationService.smsContext Sample.hello_sms (Some "auto-4") in
  SmsAutomationService.executeAutomationActions Sample.env Sample.clock
    Sample.callback context (Sample.world [Sample.callback])
  = (Return [SmsAutomationService.Scheduled "sendSms" "5 minutes"],
     add_timer (Some 300000%Z)
       (DeferAction "auto-2" Sample.reminder context)
       (Sample.world [Sample.callback]))
  /\ SmsAutomationService.executeAutomationActions Sample.env Sample.clock
       Sample.follow_up later (Sample.world [Sample.follow_up])
     = (Return [SmsAutomationService.Scheduled "sendSms" "30 days"],
        add_timer (Some 1%Z)
          (DeferAction "auto-4" Sample.month_later later)
          (Sample.world [Sample.follow_up]))
  /\ fire Sample.env Sample.clock
       (DeferAction "auto-2" Sample.reminder context)
       (Sample.world [Sample.callback_off])
     = (Return tt, Sample.world [Sample.callback_off])
  /\ messages
       (snd (fire Sample.env Sample.clock
               (DeferAction "auto-2" Sample.reminder context)
               (Sample.world [Sample.callback])))
     = [ {| Message.from := "+15559990000"; Message.to := "+15557654321";
            Message.text := "Thanks, we will call you back." |} ].
Proof.
  intros context later.
  destruct (delayed_action_timer Sample.env Sample.clock Sample.callback
              context [] [] Sample.reminder _ _ 5%Z
              (Sample.world [Sample.callback])
              eq_refl eq_refl eq_refl eq_refl)
    as [[results_pre [w_pre [due [Hpre [Hexec [_ [Hle _]]]]]]]
          [Hoff Hon]];
    [vm_compute; split; [reflexivity | discriminate]|].
  destruct (delayed_action_timer Sample.env Sample.clock Sample.follow_up
              later [] [] Sample.month_later _ _ 30%Z
              (Sample.world [Sample.follow_up])
              eq_refl eq_refl eq_refl eq_refl)
    as [[results' [w' [due' [Hpre' [Hexec' [_ [_ Hgt]]]]]]] _];
    [vm_compute; split; [reflexivity | discriminate]|].
  split; [|split; [|split]].
  - rewrite Hexec. rewrite Hle by (vm_compute; discriminate).
    simpl in Hpre. unfold ret in Hpre. inversion Hpre. subst.
    reflexivity.
  - rewrite Hexec'. rewrite Hgt by reflexivity.
    simpl in Hpre'. unfold ret in Hpre'. inversion Hpre'. subst.
    reflexivity.
  - apply Hoff. right. exists Sample.callback_off. split; reflexivity.
  - destruct (Hon Sample.clock (Sample.world [Sample.callback])
                Sample.callback eq_refl eq_refl)
      as [r [w1 [Hr [_ [_ [Hm _]]]]]].
    etransitivity; [exact Hm|].
    vm_compute in Hr. inversion Hr. reflexivity.
Defined.

Lemma sendToVoicemail_greeting_witness :
  let play :=
    PlayAudio
      "https://raw.githubusercontent.com/GavvlLaw/voicemail-greetings/main/Jane%20Voicemail.mp3"
      None in
  let speak :=
    Speak
      "Hello, you have reached my voicemail. Please leave a message after the tone."
      "female" "en-US" in
  let record := RecordStart "mp3" "single" true in
  (exists callback,
      TelnyxService.sendToVoicemail Sample.env "call-1" Sample.jane
        (Sample.world [])
      = (Return {| TelnyxService.action := "voicemail";
                   TelnyxService.result := "ok";
                   TelnyxService.message := None |},
         add_timer (Some 1000%Z) callback
           (log_call "call-1" play (Sample.world [])))
      /\ calls
           (snd (fire Sample.env Sample.clock callback
                   (log_call "call-1" play (Sample.world []))))
         = [("call-1", play); ("call-1", record)])
  /\ TelnyxService.sendToVoicemail Sample.mute_env "call-1" Sample.jane
       (Sample.world [])
     = (Return {| TelnyxService.action := "voicemail";
                  TelnyxService.result := "ok";
                  TelnyxService.message := None |},
        log_call "call-1" record
          (log_call "call-1" speak
             (log_call "call-1" play (Sample.world [])))).
Proof.
  intros play speak record. split.
  - destruct (sendToVoicemail_greeting Sample.env "call-1" Sample.jane
                (Sample.world [])) as [_ [_ [Haudio _]]].
    destruct (Haudio "ok" eq_refl) as [callback [Hrun Hfire]].
    exists callback. split; [exact Hrun|].
    rewrite Hfire. reflexivity.
  - destruct (sendToVoicemail_greeting Sample.mute_env "call-1" Sample.jane
                (Sample.world [])) as [_ [_ [_ [Hfallback _]]]].
    apply (Hfallback "audio file not found" "ok" "ok"); reflexivity.
Defined.

Lemma sendSms_without_sender_fails_witness :
  SmsAutomationService.executeAction Sample.env Sample.clock
    (sendSmsMessage "Your daily report is ready.")
    (SmsAutomationService.scheduledContext "10:30" "monday" Sample.report None)
    (Sample.world [Sample.report])
  = (Return
       (SmsAutomationService.ActionError "sendSms"
          "Missing required to/from phone numbers"),
     Sample.world [Sample.report]).
Proof.
  destruct (sendSms_without_sender_fails Sample.env Sample.clock)
    as [_ [_ [_ [_ H]]]].
  destruct (H (sendSmsMessage "Your daily report is ready.")
              (SmsAutomationService.scheduledContext "10:30" "monday"
                 Sample.report None)
              (Sample.world [Sample.report]) eq_refl eq_refl eq_refl)
    as [err [Hrun [_ [_ [Hmissing _]]]]].
  rewrite Hrun.
  rewrite (Hmissing
             {| Action.template := None;
                Action.message := Some "Your daily report is ready.";
                Action.delay := None; Action.notifyMethod := None;
                Action.notifyUsers := [] |} eq_refl (or_intror eq_refl)).
  reflexivity.
Defined.

(** Counterexample to C10 as stated. On Monday at 10:30
    [processScheduledAutomations] triggers the sample report automation,
    whose immediate sendSms action carries neither template nor message:
    no message is sent and the result has status 'error', but the error
    is 'No template or message provided for SMS action', thrown before
    the check of the phone numbers is reached. *)
Lemma sendSms_without_text_counterexample :
  let w := Sample.world [Sample.report] in
  let context :=
    SmsAutomationService.scheduledContext "10:30" "monday" Sample.report None
  in
  fst (SmsAutomationService.processScheduledAutomations Sample.env
         Sample.clock w)
  = Return (SmsAutomationService.Summary true ["Report"] 1)
  /\ In Sample.bare_sendSms (Automation.actions Sample.report)
  /\ Action.type Sample.bare_sendSms = "sendSms"
  /\ SmsAutomationService.is_delayed Sample.bare_sendSms = false
  /\ SmsAutomationService.executeAction Sample.env Sample.clock
       Sample.bare_sendSms context w
     = (Return
          (SmsAutomationService.ActionError "sendSms"
             "No template or message provided for SMS action"), w)
  /\ SmsAutomationService.executeAction Sample.env Sample.clock
       Sample.bare_sendSms context w
     <> (Return
           (SmsAutomationService.ActionError "sendSms"
              "Missing required to/from phone numbers"), w).
Proof.
  cbv zeta. split; [vm_compute; reflexivity|].
  split; [left; reflexivity|].
  split; [reflexivity|]. split; [reflexivity|].
  split; [vm_compute; reflexivity|].
  vm_compute. discriminate.
Qed.

(* ================================================================== *)
(** * Further properties *)
(* ================================================================== *)

(** ** Times of day *)

Section TimeFacts.

Import CalendarService TelnyxService.

Lemma compare_app_same_length (x y s t : string) :
  String.length x = String.length y ->
  String.compare (x ++ s) (y ++ t)
  = match String.compare x y with
    | Eq => String.compare s t
    | c => c
    end.
Proof.
  revert y. induction x as [|a x IH]; intros [|b y]; simpl;
    try discriminate; [reflexivity|].
  intros H. injection H as H.
  destruct (Ascii.compare a b); [apply IH; exact H | reflexivity..].
Qed.

(** On two digits the order of the strings is the order of the
    numbers. *)
Lemma two_digits_compare (a b : nat) :
  a < 100 -> b < 100 ->
  String.compare (Js.two_digits a) (Js.two_digits b) = Nat.compare a b.
Proof.
  intros Ha Hb.
  assert (Hall :
    forallb
      (fun a =>
         forallb
           (fun b =>
              match String.compare (Js.two_digits a) (Js.two_digits b),
                    Nat.compare a b with
              | Eq, Eq | Lt, Lt | Gt, Gt => true
              | _, _ => false
              end)
           (seq 0 100))
      (seq 0 100) = true) by (vm_compute; reflexivity).
  rewrite forallb_forall in Hall.
  assert (Hina : In a (seq 0 100)) by (apply in_seq; lia).
  assert (Hinb : In b (seq 0 100)) by (apply in_seq; lia).
  specialize (Hall a Hina). rewrite forallb_forall in Hall.
  specialize (Hall b Hinb).
  destruct (String.compare (Js.two_digits a) (Js.two_digits b)),
    (Nat.compare a b); congruence.
Qed.

Lemma two_digits_length (a : nat) : String.length (Js.two_digits a) = 2.
Proof. reflexivity. Qed.

Lemma hhmm_compare (h1 m1 h2 m2 : nat) :
  h1 < 100 -> m1 < 100 -> h2 < 100 -> m2 < 100 ->
  String.compare (hhmm h1 m1) (hhmm h2 m2)
  = match Nat.compare h1 h2 with
    | Eq => Nat.compare m1 m2
    | c => c
    end.
Proof.
  intros Hh1 Hm1 Hh2 Hm2. unfold hhmm.
  rewrite compare_app_same_length by reflexivity.
  rewrite (two_digits_compare h1 h2) by assumption.
  destruct (Nat.compare h1 h2); try reflexivity.
  rewrite (compare_app_same_length ":" ":") by reflexivity.
  simpl String.compare at 1.
  rewrite <- (two_digits_compare m1 m2) by assumption.
  destruct (Js.two_digits m1), (Js.two_digits m2); reflexivity.
Qed.

(** On zero-padded times the comparison of [isUserAvailable] is the
    chronological one. *)
Lemma hhmm_leb (h1 m1 h2 m2 : nat) :
  h1 < 24 -> m1 < 60 -> h2 < 24 -> m2 < 60 ->
  String.leb (hhmm h1 m1) (hhmm h2 m2)
  = Nat.leb (minutes_of_day h1 m1) (minutes_of_day h2 m2).
Proof.
  intros Hh1 Hm1 Hh2 Hm2. unfold String.leb, minutes_of_day.
  rewrite hhmm_compare by lia.
  destruct (Nat.compare h1 h2) eqn:Hh.
  - apply Nat.compare_eq_iff in Hh. subst h2.
    destruct (Nat.compare m1 m2) eqn:Hm.
    + apply Nat.compare_eq_iff in Hm. subst. symmetry. apply Nat.leb_le. lia.
    + apply Nat.compare_lt_iff in Hm. symmetry. apply Nat.leb_le. lia.
    + apply Nat.compare_gt_iff in Hm. symmetry. apply Nat.leb_gt. lia.
  - apply Nat.compare_lt_iff in Hh. symmetry. apply Nat.leb_le. lia.
  - apply Nat.compare_gt_iff in Hh. symmetry. apply Nat.leb_gt. lia.
Qed.

(** X1. When the day-record of the current weekday is available and its
    window is written as zero-padded 24-hour times, and no meeting is
    going on, [isUserAvailable] is the chronological test: the current
    minute of the day lies between the first and the last minute of the
    window, both included. *)
Theorem isUserAvailable_chronological (clk : Clock) (user : User.t)
  (d : Day.t) (h1 m1 h2 m2 : nat) :
  isUserInMeeting clk user = false ->
  dayAvailability clk user = Some d ->
  Day.isAvailable d = true ->
  Day.startTime d = hhmm h1 m1 ->
  Day.endTime d = hhmm h2 m2 ->
  h1 < 24 -> m1 < 60 -> h2 < 24 -> m2 < 60 ->
  hour clk < 24 -> minute clk < 60 ->
  isUserAvailable clk user
  = Nat.leb (minutes_of_day h1 m1) (minutes_of_day (hour clk) (minute clk))
    && Nat.leb (minutes_of_day (hour clk) (minute clk))
         (minutes_of_day h2 m2).
Proof.
  intros Hmeet Hday Havail Hstart Hend Hh1 Hm1 Hh2 Hm2 Hh Hm.
  unfold isUserAvailable. rewrite Hmeet, Hday, Havail. simpl.
  unfold Js.ge, Js.le, currentTime. rewrite Hstart, Hend.
  change (format_HHmm clk) with (hhmm (hour clk) (minute clk)).
  rewrite !hhmm_leb by assumption. reflexivity.
Qed.

(** X2. [isUserInMeeting] answers true exactly when the integration is
    enabled, the make-unavailable-during-events flag is set and some
    cached event is not cancelled, has [makeUnavailable] set and covers
    the current time. *)
Theorem isUserInMeeting_iff (clk : Clock) (user : User.t) :
  isUserInMeeting clk user = true
  <-> exists cal ev,
        User.calendarIntegration user = Some cal
        /\ Calendar.enabled cal = true
        /\ Calendar.makeUnavailableDuringEvents cal = true
        /\ In ev (Calendar.events cal)
        /\ Event.status ev <> "cancelled"
        /\ Event.makeUnavailable ev = true
        /\ (Event.startTime ev <= now clk <= Event.endTime ev)%Z.
Proof.
  unfold isUserInMeeting. split.
  - destruct (User.calendarIntegration user) as [cal|]; [|discriminate].
    destruct (Calendar.enabled cal) eqn:Hen; [|discriminate].
    destruct (Calendar.makeUnavailableDuringEvents cal) eqn:Hflag;
      [|discriminate].
    simpl.
    destruct (find (happening_now clk) (Calendar.events cal)) as [ev|] eqn:Hf;
      [|discriminate].
    intros _. apply find_some in Hf. destruct Hf as [Hin Hnow].
    exists cal, ev. unfold happening_now in Hnow.
    destruct (Event.status ev =? "cancelled") eqn:Hst; [discriminate|].
    destruct (Event.makeUnavailable ev) eqn:Hmu; [|discriminate].
    simpl in Hnow. apply andb_prop in Hnow. destruct Hnow as [Hlo Hhi].
    apply Z.leb_le in Hlo. apply Z.leb_le in Hhi.
    apply String.eqb_neq in Hst.
    repeat split; assumption.
  - intros [cal [ev [Hcal [Hen [Hflag [Hin [Hst [Hmu Hnow]]]]]]]].
    rewrite Hcal, Hen, Hflag. simpl.
    destruct (find_some_exists (happening_now clk) _ ev Hin
                (happening_now_true clk ev Hst Hmu Hnow)) as [y ->].
    reflexivity.
Qed.

End TimeFacts.

(** ** Call commands *)

Section CommandFacts.

Import TelnyxService.

Variable env : Env.

Ltac run :=
  unfold handleIncomingCall, handleUnavailableDTMF, forwardToCentral,
    sendToVoicemail, fireRecordStart, try_catch, bind, ret, throw,
    calls_update, setTimeout;
  simpl.

Ltac oracle_cases :=
  repeat match goal with
         | |- context [calls_update_oracle ?c ?h ?i ?m] =>
             let E := fresh "Horacle" in
             destruct (calls_update_oracle c h i m) eqn:E; simpl
         end.

(** X3. Whatever the user and whatever the client answers,
    [handleIncomingCall] first sends an answer command to the call, then
    at most two more commands, all of them to the same call; it hands no
    message to the client, sets no timer and leaves the automations
    alone. If the answer command is rejected nothing else is sent and
    the error surfaces as 'Failed to handle call: ...'. *)
Theorem handleIncomingCall_commands (clk : Clock) (user : User.t)
  (callControlId : string) (w : World) :
  exists client_state rest,
    calls (snd (handleIncomingCall env clk user callControlId w))
    = (calls w ++ (callControlId, Answer client_state) :: rest)%list
    /\ Forall (fun c => fst c = callControlId) rest
    /\ List.length rest <= 2
    /\ messages (snd (handleIncomingCall env clk user callControlId w))
       = messages w
    /\ timers (snd (handleIncomingCall env clk user callControlId w))
       = timers w
    /\ automations (snd (handleIncomingCall env clk user callControlId w))
       = automations w
    /\ (forall e,
           calls_update_oracle (telnyxClient env) (calls w) callControlId
             (Answer client_state) = Throw e ->
           rest = []
           /\ fst (handleIncomingCall env clk user callControlId w)
              = Throw ("Failed to handle call: " ++ e)).
Proof.
  run.
  destruct (isUserAvailable clk user);
    [| destruct (User.routeToLiveAgent user
                 && Js.truthy (User.liveAgentNumber user)) ];
    simpl; oracle_cases;
    eexists; eexists;
    (split; [rewrite <- ?app_assoc; simpl; reflexivity|]);
    (split; [repeat constructor|]);
    (split; [simpl; lia|]);
    (split; [reflexivity|]); (split; [reflexivity|]);
    (split; [reflexivity|]);
    intros e He; rewrite Horacle in He; try discriminate;
    injection He as He; subst; split; reflexivity.
Qed.

(** The voicemail recorder: between one and three commands, all to the
    call; a timer only when the audio was accepted. *)
Lemma sendToVoicemail_commands (callControlId : string) (user : User.t)
  (w : World) :
  exists l,
    calls (snd (sendToVoicemail env callControlId user w))
    = (calls w ++ l)%list
    /\ Forall (fun c => fst c = callControlId) l
    /\ 1 <= List.length l <= 3
    /\ messages (snd (sendToVoicemail env callControlId user w))
       = messages w
    /\ automations (snd (sendToVoicemail env callControlId user w))
       = automations w
    /\ ((timers (snd (sendToVoicemail env callControlId user w)) = timers w
         /\ l <> [(callControlId, PlayAudio (greetingUrl user) None)])
        \/ (timers (snd (sendToVoicemail env callControlId user w))
            = (timers w
                 ++ [(Some 1000%Z, DeferRecordStart callControlId)])%list
            /\ l = [(callControlId, PlayAudio (greetingUrl user) None)]
            /\ exists r,
                fst (sendToVoicemail env callControlId user w) = Return r)).
Proof.
  run. oracle_cases;
    eexists;
    (split; [rewrite <- ?app_assoc; simpl; reflexivity|]);
    (split; [repeat constructor|]);
    (split; [simpl; lia|]);
    (split; [reflexivity|]); (split; [reflexivity|]);
    first [ right; split; [reflexivity|]; split; [reflexivity|];
            eexists; reflexivity
          | left; split; [reflexivity | discriminate] ].
Qed.

(** X4. Whatever digit arrives and whatever the client answers,
    [handleUnavailableDTMF] sends between one and three commands, all of
    them to the call of the event, and hands no message to the client.
    It leaves a timer behind only when it went to voicemail and the
    greeting audio was accepted: then the audio is the only command sent
    and the timer is the one-second timer that starts the recording of
    that call. *)
Theorem handleUnavailableDTMF_commands (event : GatherPayload)
  (user : User.t) (w : World) :
  let id := call_control_id event in
  let w' := snd (handleUnavailableDTMF env event user w) in
  exists l,
    calls w' = (calls w ++ l)%list
    /\ Forall (fun c => fst c = id) l
    /\ 1 <= List.length l <= 3
    /\ messages w' = messages w
    /\ automations w' = automations w
    /\ (timers w' = timers w
        \/ (timers w' = (timers w ++ [(Some 1000%Z, DeferRecordStart id)])%list
            /\ l = [(id, PlayAudio (greetingUrl user) None)]
            /\ digit event <> Some "2")).
Proof.
  cbv zeta.
  assert (Hvm :
    digit event <> Some "2" ->
    handleUnavailableDTMF env event user w
    = sendToVoicemail env (call_control_id event) user w ->
    exists l,
      calls (snd (handleUnavailableDTMF env event user w))
      = (calls w ++ l)%list
      /\ Forall (fun c => fst c = call_control_id event) l
      /\ 1 <= List.length l <= 3
      /\ messages (snd (handleUnavailableDTMF env event user w))
         = messages w
      /\ automations (snd (handleUnavailableDTMF env event user w))
         = automations w
      /\ (timers (snd (handleUnavailableDTMF env event user w)) = timers w
          \/ (timers (snd (handleUnavailableDTMF env event user w))
              = (timers w
                   ++ [(Some 1000%Z,
                        DeferRecordStart (call_control_id event))])%list
              /\ l = [(call_control_id event,
                       PlayAudio (greetingUrl user) None)]
              /\ digit event <> Some "2"))).
  { intros Hne ->.
    destruct (sendToVoicemail_commands (call_control_id event) user w)
      as [l [Hc [Hall [Hlen [Hm [Ha Ht]]]]]].
    exists l. repeat split; try assumption; try lia.
    destruct Ht as [[Ht _] | [Ht [Hl _]]]; [left; exact Ht|].
    right. repeat split; assumption. }
  unfold handleUnavailableDTMF in *.
  destruct (digit event) as [d|] eqn:Hd.
  - destruct (d =? "1") eqn:H1.
    + apply Hvm; [|reflexivity]. apply String.eqb_eq in H1. subst d.
      discriminate.
    + destruct (d =? "2") eqn:H2.
      * clear Hvm. run. oracle_cases;
          eexists;
          (split; [reflexivity|]);
          (split; [repeat constructor|]);
          (split; [simpl; lia|]);
          (split; [reflexivity|]); (split; [reflexivity|]);
          left; reflexivity.
      * apply Hvm; [|reflexivity]. apply String.eqb_neq in H2.
        congruence.
  - apply Hvm; [discriminate | reflexivity].
Qed.

(** ** The greeting file *)

Lemma hex_digit_unreserved (c : ascii) :
  Js.uri_unreserved (Js.hex_digit (Js.code c / 16)) = true
  /\ Js.uri_unreserved (Js.hex_digit (Js.code c mod 16)) = true.
Proof.
  destruct c as [[] [] [] [] [] [] [] []]; vm_compute; split; reflexivity.
Qed.

Lemma encodeURIComponent_chars (s : string) :
  string_forall uri_component_char (Js.encodeURIComponent s) = true.
Proof.
  induction s as [|c s IH]; simpl; [reflexivity|].
  destruct (Js.uri_unreserved c) eqn:Hc; simpl.
  - unfold uri_component_char at 1. rewrite Hc. simpl. exact IH.
  - destruct (hex_digit_unreserved c) as [Hhi Hlo].
    unfold uri_component_char at 1 2 3. rewrite Hhi, Hlo. simpl. exact IH.
Qed.

Lemma string_forall_in (p : ascii -> bool) (s : string) (c : ascii) :
  string_forall p s = true -> In c (list_ascii_of_string s) -> p c = true.
Proof.
  induction s as [|a s IH]; simpl; [tauto|].
  intros H [->|Hin]; apply andb_prop in H; destruct H as [Ha Hs];
    [exact Ha | apply IH; assumption].
Qed.

(** X5. The default greeting of a user is a file directly under the
    greetings base path: the URL is the base path followed by one
    encoded segment made of unreserved characters and percent escapes
    only, so whatever the user's name holds, the segment contains no
    slash, space, question mark or hash. *)
Theorem generateGitHubVoicemailUrl_segment (user : User.t) :
  exists segment,
    generateGitHubVoicemailUrl user
    = "https://raw.githubusercontent.com/GavvlLaw/voicemail-greetings/main/"
      ++ segment
    /\ string_forall uri_component_char segment = true
    /\ forall c, In c (list_ascii_of_string segment) ->
                 c <> "/"%char /\ c <> " "%char /\ c <> "?"%char
                 /\ c <> "#"%char.
Proof.
  exists (Js.encodeURIComponent
            (Js.split_space_0 (User.name user) ++ " Voicemail.mp3")).
  split; [reflexivity|]. split; [apply encodeURIComponent_chars|].
  intros c Hin.
  pose proof (string_forall_in uri_component_char _ c
                (encodeURIComponent_chars _) Hin) as Hc.
  repeat split; intros ->; vm_compute in Hc; discriminate.
Qed.

End CommandFacts.

(** ** Running the actions of an automation *)

Section RunFacts.

Import SmsAutomationService.

Variable env : Env.

Ltac exec :=
  unfold executeAction, executeSendSmsAction, executeNotifyAction,
    TelnyxService.sendSMS, TelnyxService.messages_create,
    scheduleDelayedAction, setTimeout, findById, findByIdAndUpdate,
    try_catch, bind, ret, throw;
  simpl.

(** One immediate action: one result of the action's type, never
    'scheduled'; at most one message, and only from a sendSms action. *)
Lemma executeAction_step (clk : Clock) (action : Action.t)
  (context : Context.t) (w : World) :
  exists r sent w',
    executeAction env clk action context w = (Return r, w')
    /\ result_type r = Action.type action
    /\ (status r =? "scheduled") = false
    /\ messages w' = (messages w ++ sent)%list
    /\ List.length sent
       <= List.length (filter (fun a => Action.type a =? "sendSms") [action])
    /\ calls w' = calls w /\ timers w' = timers w
    /\ automations w' = automations w.
Proof.
  exec.
  destruct (Action.type action =? "sendSms") eqn:Hsend;
    [apply String.eqb_eq in Hsend
    |destruct (Action.type action =? "notify") eqn:Hnotify;
     [apply String.eqb_eq in Hnotify|]];
    simpl;
    try (destruct (Action.parameters action) as [ps|]; simpl;
         [destruct (Action.template ps) as [t|]; simpl;
          [|destruct (Action.message ps) as [m|]; simpl;
            [destruct (m =? ""); simpl|]]|]);
    try (destruct (sender_number context) as [from|]; simpl;
         [destruct (Context.from context) as [to|]; simpl;
          [destruct ((from =? "") || (to =? "")); simpl;
           [|match goal with
             | |- context [messages_create_oracle ?c ?h ?m] =>
                 destruct (messages_create_oracle c h m); simpl
             end]|]|]);
    first
      [ eexists _, [], _; split; [reflexivity|];
        rewrite ?app_nil_r, ?Hsend, ?Hnotify; repeat split; simpl; lia
      | eexists _, [_], _; split; [reflexivity|];
        rewrite ?Hsend; repeat split; simpl; lia ].
Qed.

(** The loop over the actions, traced. *)
Lemma actions_loop_trace (clk : Clock) (automationId : string)
  (actions : list Action.t) (context : Context.t)
  (results : list ActionResult) (w : World) :
  exists rs sent w',
    actions_loop env clk automationId actions context results w
    = (Return (results ++ rs)%list, w')
    /\ map result_type rs = map Action.type actions
    /\ Forall2
         (fun action r =>
            status r = "scheduled" <-> exists d v, asks_delay action d v)
         actions rs
    /\ timers w'
       = (timers w ++ delayed_timers automationId context actions)%list
    /\ messages w' = (messages w ++ sent)%list
    /\ List.length sent <= List.length (immediate_sends actions)
    /\ calls w' = calls w
    /\ automations w' = automations w.
Proof.
  revert results w. induction actions as [|action rest IH];
    intros results w.
  - exists [], [], w. simpl. unfold ret. rewrite !app_nil_r.
    repeat split; simpl; try lia. constructor.
  - unfold immediate_sends in *.
    cbn [actions_loop map filter delayed_timers].
    destruct (is_delayed action) eqn:Hdel.
    + destruct (scheduleDelayedAction_delayed automationId action
                  context w Hdel) as [d [v [Hasks Hs]]].
      unfold bind. rewrite Hs.
      rewrite (requested_ms_delayed action d v Hasks).
      destruct (IH (results
                      ++ [Scheduled (Action.type action) (delay_text action)])%list
                  (add_timer
                     (Some (due_after (v * ms_per_unit (Delay.unit d)))%Z)
                     (DeferAction automationId action context) w))
        as [rs [sent [w' [Hrun [Hty [Hst [Ht [Hm [Hlen [Hc Ha]]]]]]]]]].
      exists (Scheduled (Action.type action) (delay_text action) :: rs),
        sent, w'.
      rewrite Hrun, <- app_assoc. cbn [map app]. rewrite Hty.
      split; [reflexivity|]. split; [reflexivity|].
      split.
      { constructor; [|exact Hst]. split; [|reflexivity].
        intros _. exists d, v. exact Hasks. }
      split.
      { rewrite Ht. cbn [timers add_timer]. rewrite <- app_assoc.
        reflexivity. }
      repeat split; assumption.
    + rewrite (requested_ms_none action Hdel).
      destruct (executeAction_step clk action context w)
        as [r [sent1 [w1 [Hr [Hty1 [Hst1 [Hm1 [Hlen1 [Hc1 [Ht1 Ha1]]]]]]]]]].
      unfold bind. rewrite Hr.
      destruct (IH (results ++ [r])%list w1)
        as [rs [sent [w' [Hrun [Hty [Hst [Ht [Hm [Hlen [Hc Ha]]]]]]]]]].
      exists (r :: rs), (sent1 ++ sent)%list, w'.
      rewrite Hrun, <- app_assoc. cbn [map app]. rewrite Hty, Hty1.
      split; [reflexivity|]. split; [reflexivity|].
      split.
      { constructor; [|exact Hst]. split.
        - intros E. apply String.eqb_eq in E. congruence.
        - intros H. apply is_delayed_iff in H. congruence. }
      split; [rewrite Ht, Ht1; reflexivity|].
      split; [rewrite Hm, Hm1, app_assoc; reflexivity|].
      split.
      { rewrite length_app. cbn [filter] in Hlen1.
        destruct (Action.type action =? "sendSms"); simpl in *; lia. }
      split; congruence.
Qed.

(** X6. [executeAutomationActions] returns for every client, with one
    result per action, in the order of the actions and with their types;
    a result has status 'scheduled' exactly when its action carries a
    delay of positive value. It hands one callback to a timer per such
    action, in order, due after the delay in milliseconds (after one
    millisecond when the delay is beyond 2147483647 ms), and sets no other
    timer; it hands the client at most one message per sendSms action
    without delay, after the messages already sent; it sends no call
    command and does not write to the automations. *)
Theorem executeAutomationActions_trace (clk : Clock)
  (automation : Automation.t) (context : Context.t) (w : World) :
  let actions := Automation.actions automation in
  exists results sent w',
    executeAutomationActions env clk automation context w
    = (Return results, w')
    /\ map result_type results = map Action.type actions
    /\ Forall2
         (fun action r =>
            status r = "scheduled" <-> exists d v, asks_delay action d v)
         actions results
    /\ timers w'
       = (timers w
            ++ delayed_timers (Automation._id automation) context actions)%list
    /\ messages w' = (messages w ++ sent)%list
    /\ List.length sent <= List.length (immediate_sends actions)
    /\ calls w' = calls w
    /\ automations w' = automations w.
Proof.
  cbv zeta. rewrite executeAutomationActions_loop.
  destruct (actions_loop_trace clk (Automation._id automation)
              (Automation.actions automation) context [] w)
    as [rs [sent [w' H]]].
  exists rs, sent, w'. exact H.
Qed.

(** X7. An immediate sendSms action with a literal message, run on a
    context that carries both numbers: exactly one message is handed to
    the client, from [context.to] to [context.from]. If the client
    accepts it the result is the success object with the message id;
    if the client throws, the action does not throw: its result has
    status 'error' and the error 'Failed to send SMS: ...'. *)
Theorem sendSms_literal_outcome (clk : Clock) (context : Context.t)
  (text from to : string) (w : World) :
  Context.from context = Some to -> Context.to context = Some from ->
  from <> "" -> to <> "" -> text <> "" ->
  let m := {| Message.from := from; Message.to := to;
              Message.text := text |} in
  executeAction env clk (sendSmsMessage text) context w
  = (Return
       match messages_create_oracle (telnyxClient env) (messages w) m with
       | Return id => SendSmsSuccess id to from
       | Throw e => ActionError "sendSms" ("Failed to send SMS: " ++ e)
       end,
     log_message m w).
Proof.
  intros Hto Hfrom Hf Ht Htext. cbv zeta.
  apply String.eqb_neq in Hf. apply String.eqb_neq in Ht.
  apply String.eqb_neq in Htext.
  exec. rewrite Htext. simpl.
  unfold sender_number, Js.truthy. rewrite Hfrom, Hto. simpl.
  repeat (rewrite ?Hf, ?Ht; simpl).
  match goal with
  | |- context [messages_create_oracle ?c ?h ?x] =>
      destruct (messages_create_oracle c h x); reflexivity
  end.
Qed.

End RunFacts.

(** ** The entry points *)

Section EntryFacts.

Import SmsAutomationService.

Variable env : Env.

Lemma with_statistics_id (a : Automation.t) (st : Stats.t) :
  Automation._id (with_statistics a st) = Automation._id a.
Proof. reflexivity. Qed.

Lemma with_statistics_same (a : Automation.t) :
  with_statistics a (Automation.statistics a) = a.
Proof. destruct a. reflexivity. Qed.

Lemma same_but_statistics_refl (a : Automation.t) :
  same_but_statistics a a.
Proof. unfold same_but_statistics. repeat split; lia. Qed.

Lemma same_but_statistics_trans (a b c : Automation.t) :
  same_but_statistics a b -> same_but_statistics b c ->
  same_but_statistics a c.
Proof.
  unfold same_but_statistics.
  intros [H1 [H2 [H3 [H4 [H5 [H6 [H7 [H8 [H9 H10]]]]]]]]]
         [K1 [K2 [K3 [K4 [K5 [K6 [K7 [K8 [K9 K10]]]]]]]]].
  repeat split; try congruence; lia.
Qed.

Lemma Forall2_refl_counters (db : list Automation.t) :
  Forall2 same_but_statistics db db.
Proof.
  induction db; constructor;
    [apply same_but_statistics_refl | assumption].
Qed.

Lemma Forall2_trans_counters (l1 l2 l3 : list Automation.t) :
  Forall2 same_but_statistics l1 l2 ->
  Forall2 same_but_statistics l2 l3 ->
  Forall2 same_but_statistics l1 l3.
Proof.
  intros H. revert l3. induction H; intros l3 H3; inversion H3; subst;
    constructor.
  - eapply same_but_statistics_trans; eassumption.
  - apply IHForall2. assumption.
Qed.

(** An update of the statistics that lowers no counter. *)
Lemma update_by_id_counters (id : string) (f : Stats.t -> Stats.t)
  (db : list Automation.t) :
  (forall st,
      (Stats.timesTriggered st <= Stats.timesTriggered (f st))%Z
      /\ (Stats.successCount st <= Stats.successCount (f st))%Z
      /\ (Stats.errorCount st <= Stats.errorCount (f st))%Z) ->
  Forall2 same_but_statistics db (update_by_id id f db).
Proof.
  intros Hf. induction db as [|a db IH]; simpl; [constructor|].
  destruct (Automation._id a =? id).
  - constructor; [|apply Forall2_refl_counters].
    unfold same_but_statistics. simpl.
    destruct (Hf (Automation.statistics a)) as [H1 [H2 H3]].
    repeat split; assumption.
  - constructor; [apply same_but_statistics_refl | exact IH].
Qed.

(** Looking a record up after an update. *)
Lemma lookup_update_by_id (i j : string) (f : Stats.t -> Stats.t)
  (db : list Automation.t) :
  lookup i (update_by_id j f db)
  = if j =? i
    then option_map
           (fun a => with_statistics a (f (Automation.statistics a)))
           (lookup i db)
    else lookup i db.
Proof.
  unfold lookup, has_id.
  induction db as [|a db IH]; simpl.
  - destruct (j =? i); reflexivity.
  - destruct (Automation._id a =? j) eqn:Haj.
    + apply String.eqb_eq in Haj. subst j. simpl.
      destruct (Automation._id a =? i); reflexivity.
    + simpl. destruct (Automation._id a =? i) eqn:Hai.
      * apply String.eqb_eq in Hai. subst i.
        rewrite String.eqb_sym, Haj. reflexivity.
      * exact IH.
Qed.

(** The actions of an automation do not write to the automations. *)
Lemma executeAutomationActions_keeps (clk : Clock)
  (automation : Automation.t) (context : Context.t) (w : World) :
  exists results w',
    executeAutomationActions env clk automation context w
    = (Return results, w')
    /\ automations w' = automations w.
Proof.
  rewrite executeAutomationActions_loop.
  destruct (actions_loop_trace env clk (Automation._id automation)
              (Automation.actions automation) context [] w)
    as [rs [sent [w' [Hrun [_ [_ [_ [_ [_ [_ Ha]]]]]]]]]].
  exists rs, w'. split; assumption.
Qed.

Ltac turn clk a ctx w :=
  let results := fresh "results" in
  let w1 := fresh "w1" in
  let Hrun := fresh "Hrun" in
  let Ha := fresh "Ha" in
  destruct (executeAutomationActions_keeps clk a ctx w)
    as [results [w1 [Hrun Ha]]];
  unfold bind at 1; rewrite Hrun;
  unfold bind at 1; unfold findByIdAndUpdate at 1.

Lemma incomingSms_loop_spec (clk : Clock) (smsData : Sms.t)
  (autos : list Automation.t) (acc : list string) (w : World) :
  let triggering :=
    filter (fun a => checkTriggerConditions a (smsContext smsData None))
      autos in
  exists w',
    incomingSms_loop env clk smsData autos acc w
    = (Return (acc ++ map Automation.name triggering)%list, w')
    /\ automations w'
       = fold_left
           (fun db a => update_by_id (Automation._id a) (triggered clk) db)
           triggering (automations w)
    /\ (triggering = [] -> w' = w).
Proof.
  cbv zeta. revert acc w. induction autos as [|a rest IH]; intros acc w.
  - exists w. simpl. unfold ret. rewrite app_nil_r. auto.
  - cbn [incomingSms_loop filter].
    destruct (checkTriggerConditions a (smsContext smsData None)).
    + turn clk a (smsContext smsData (Some (Automation._id a))) w.
      destruct (IH (acc ++ [Automation.name a])%list
                  (set_automations
                     (update_by_id (Automation._id a) (triggered clk)
                        (automations w1)) w1))
        as [w' [Hloop [Hdb _]]].
      exists w'. rewrite Hloop, <- app_assoc, Hdb. simpl. rewrite Ha.
      split; [reflexivity|]. split; [reflexivity | discriminate].
    + apply IH.
Qed.

Lemma callEvent_loop_spec (clk : Clock) (conditionType : string)
  (callData : CallEvent.t) (autos : list Automation.t)
  (acc : list string) (w : World) :
  exists w',
    callEvent_loop env clk conditionType callData autos acc w
    = (Return (acc ++ map Automation.name autos)%list, w')
    /\ automations w'
       = fold_left
           (fun db a => update_by_id (Automation._id a) (triggered clk) db)
           autos (automations w).
Proof.
  revert acc w. induction autos as [|a rest IH]; intros acc w.
  - exists w. simpl. unfold ret. rewrite app_nil_r. auto.
  - cbn [callEvent_loop].
    turn clk a (callContext conditionType callData a) w.
    destruct (IH (acc ++ [Automation.name a])%list
                (set_automations
                   (update_by_id (Automation._id a) (triggered clk)
                      (automations w1)) w1))
      as [w' [Hloop Hdb]].
    exists w'. rewrite Hloop, <- app_assoc, Hdb. simpl. rewrite Ha.
    split; reflexivity.
Qed.

Lemma scheduled_loop_spec (clk : Clock) (timeNow dayOfWeek : string)
  (autos : list (Automation.t * option User.t)) (acc : list string)
  (w : World) :
  exists w',
    scheduled_loop env clk timeNow dayOfWeek autos acc w
    = (Return (acc ++ map Automation.name (map fst autos))%list, w')
    /\ automations w'
       = fold_left
           (fun db a => update_by_id (Automation._id a) (triggered clk) db)
           (map fst autos) (automations w).
Proof.
  revert acc w. induction autos as [|[a u] rest IH]; intros acc w.
  - exists w. simpl. unfold ret. rewrite app_nil_r. auto.
  - cbn [scheduled_loop].
    turn clk a (scheduledContext timeNow dayOfWeek a u) w.
    destruct (IH (acc ++ [Automation.name a])%list
                (set_automations
                   (update_by_id (Automation._id a) (triggered clk)
                      (automations w1)) w1))
      as [w' [Hloop Hdb]].
    exists w'. rewrite Hloop, <- app_assoc, Hdb. simpl. rewrite Ha.
    split; reflexivity.
Qed.

Lemma availability_loop_spec (clk : Clock)
  (availabilityStatus userId : string) (user : User.t)
  (autos : list Automation.t) (acc : list string) (w : World) :
  exists w',
    availability_loop env clk availabilityStatus userId user autos acc w
    = (Return (acc ++ map Automation.name autos)%list, w')
    /\ automations w'
       = fold_left
           (fun db a => update_by_id (Automation._id a) (triggered clk) db)
           autos (automations w).
Proof.
  revert acc w. induction autos as [|a rest IH]; intros acc w.
  - exists w. simpl. unfold ret. rewrite app_nil_r. auto.
  - cbn [availability_loop].
    turn clk a (availabilityContext availabilityStatus userId user a) w.
    destruct (IH (acc ++ [Automation.name a])%list
                (set_automations
                   (update_by_id (Automation._id a) (triggered clk)
                      (automations w1)) w1))
      as [w' [Hloop Hdb]].
    exists w'. rewrite Hloop, <- app_assoc, Hdb. simpl. rewrite Ha.
    split; reflexivity.
Qed.

(** Writing trigger statistics keeps everything but the trigger
    counters. *)
Lemma fold_update_counters (clk : Clock) (l db : list Automation.t) :
  Forall2 same_but_statistics db
    (fold_left
       (fun db a => update_by_id (Automation._id a) (triggered clk) db)
       l db).
Proof.
  revert db. induction l as [|a l IH]; intros db; simpl.
  - apply Forall2_refl_counters.
  - eapply Forall2_trans_counters; [|apply IH].
    apply update_by_id_counters. intros st. simpl. lia.
Qed.

(** The record under [i] after the trigger statistics of the automations
    of [l] have been written: it has been triggered once for each
    automation of [l] that carries [i]. *)
Lemma lookup_fold_update (clk : Clock) (i : string)
  (l db : list Automation.t) :
  lookup i
    (fold_left
       (fun db a => update_by_id (Automation._id a) (triggered clk) db)
       l db)
  = option_map
      (fun a =>
         with_statistics a
           (Nat.iter (List.length (filter (has_id i) l)) (triggered clk)
              (Automation.statistics a)))
      (lookup i db).
Proof.
  revert db. induction l as [|a l IH]; intros db; simpl.
  - destruct (lookup i db) as [x|]; simpl; [|reflexivity].
    rewrite with_statistics_same. reflexivity.
  - rewrite IH, lookup_update_by_id. unfold has_id at 2.
    destruct (Automation._id a =? i); [|reflexivity].
    destruct (lookup i db) as [x|]; [|reflexivity].
    cbn [option_map List.length]. rewrite Nat.iter_succ_r. reflexivity.
Qed.

Lemma filter_has_id_absent (i : string) (p : Automation.t -> bool)
  (db : list Automation.t) :
  ~ In i (map Automation._id db) ->
  filter (has_id i) (filter p db) = [].
Proof.
  induction db as [|x db IH]; simpl; [reflexivity|].
  intros Hno. assert (Hx : has_id i x = false).
  { unfold has_id. apply String.eqb_neq. intros H. apply Hno. left. exact H. }
  destruct (p x); simpl; rewrite ?Hx; apply IH; tauto.
Qed.

Lemma unique_id_count (p : Automation.t -> bool) (a : Automation.t)
  (db : list Automation.t) :
  NoDup (map Automation._id db) -> In a db ->
  List.length (filter (has_id (Automation._id a)) (filter p db))
  = if p a then 1 else 0.
Proof.
  induction db as [|x db IH]; simpl; [tauto|].
  intros Hnd Hin. inversion Hnd as [|? ? Hno Hnd']; subst.
  destruct Hin as [-> | Hin].
  - pose proof (filter_has_id_absent (Automation._id a) p db Hno) as Hnone.
    destruct (p a); simpl.
    + unfold has_id at 1. rewrite String.eqb_refl. simpl.
      rewrite Hnone. reflexivity.
    + rewrite Hnone. reflexivity.
  - assert (Hx : has_id (Automation._id a) x = false).
    { unfold has_id. apply String.eqb_neq. intros H. apply Hno.
      rewrite H. apply in_map. exact Hin. }
    destruct (p x); simpl; rewrite ?Hx; apply IH; assumption.
Qed.

Lemma unique_id_lookup (a : Automation.t) (db : list Automation.t) :
  NoDup (map Automation._id db) -> In a db ->
  lookup (Automation._id a) db = Some a.
Proof.
  unfold lookup, has_id.
  induction db as [|x db IH]; simpl; [tauto|].
  intros Hnd Hin. inversion Hnd as [|? ? Hno Hnd']; subst.
  destruct Hin as [-> | Hin].
  - rewrite String.eqb_refl. reflexivity.
  - destruct (Automation._id x =? Automation._id a) eqn:Hx.
    + apply String.eqb_eq in Hx. exfalso. apply Hno. rewrite Hx.
      apply in_map. exact Hin.
    + apply IH; assumption.
Qed.

(** The run of [processIncomingSms]. *)
Lemma processIncomingSms_run (clk : Clock) (smsData : Sms.t) (w : World) :
  exists w',
    processIncomingSms env clk smsData w
    = (Return
         match find_for_sms (Sms.to smsData) (automations w) with
         | [] => NotProcessed "No automations configured for this number"
         | _ =>
             summary
               (map Automation.name
                  (filter (sms_triggers smsData) (automations w)))
         end, w')
    /\ automations w'
       = fold_left
           (fun db a => update_by_id (Automation._id a) (triggered clk) db)
           (filter (sms_triggers smsData) (automations w)) (automations w)
    /\ (filter (sms_triggers smsData) (automations w) = [] -> w' = w).
Proof.
  assert (Hsplit :
    filter (sms_triggers smsData) (automations w)
    = filter (fun a => checkTriggerConditions a (smsContext smsData None))
        (find_for_sms (Sms.to smsData) (automations w))).
  { unfold find_for_sms, sms_triggers. symmetry.
    rewrite <- filter_andb. reflexivity. }
  unfold processIncomingSms, try_catch, bind at 1, readAutomations.
  destruct (find_for_sms (Sms.to smsData) (automations w)) as [|a found]
    eqn:Hfound.
  - exists w. unfold ret. rewrite Hsplit. simpl. auto.
  - destruct (incomingSms_loop_spec clk smsData (a :: found) [] w)
      as [w' [Hloop [Hdb Hnone]]].
    cbv zeta in Hloop, Hdb, Hnone.
    unfold bind, ret. rewrite Hloop. rewrite Hsplit.
    exists w'. simpl "++". split; [reflexivity|]. split; assumption.
Qed.

(** X8. [processIncomingSms] returns for every client, also one that
    rejects every message. With no active automation on the number that
    has an incomingSms or keywordSms condition the answer is not
    processed, 'No automations configured for this number'; otherwise it
    is the summary of the automations the message triggers, by name and
    in the order of the collection. When nothing triggers the world is
    left as it was: nothing is sent, scheduled or written. *)
Theorem processIncomingSms_result (clk : Clock) (smsData : Sms.t)
  (w : World) :
  exists w',
    processIncomingSms env clk smsData w
    = (Return
         match find_for_sms (Sms.to smsData) (automations w) with
         | [] => NotProcessed "No automations configured for this number"
         | _ =>
             summary
               (map Automation.name
                  (filter (sms_triggers smsData) (automations w)))
         end, w')
    /\ (filter (sms_triggers smsData) (automations w) = [] -> w' = w).
Proof.
  destruct (processIncomingSms_run clk smsData w) as [w' [Hrun [_ Hnone]]].
  exists w'. split; assumption.
Qed.

(** X9. With unique identifiers in the collection, after
    [processIncomingSms] every automation the message triggers has its
    [timesTriggered] and its [successCount] raised by one and
    [lastTriggered] set to now, whatever the client answered to the
    sends, and every other automation is as it was. *)
Theorem processIncomingSms_statistics (clk : Clock) (smsData : Sms.t)
  (w : World) (a : Automation.t) :
  NoDup (map Automation._id (automations w)) ->
  In a (automations w) ->
  lookup (Automation._id a)
    (automations (snd (processIncomingSms env clk smsData w)))
  = Some (if sms_triggers smsData a
          then with_statistics a
                 {| Stats.timesTriggered :=
                      Stats.timesTriggered (Automation.statistics a) + 1;
                    Stats.lastTriggered := Some (now clk);
                    Stats.successCount :=
                      Stats.successCount (Automation.statistics a) + 1;
                    Stats.errorCount :=
                      Stats.errorCount (Automation.statistics a) |}
          else a).
Proof.
  intros Hnd Hin.
  destruct (processIncomingSms_run clk smsData w) as [w' [Hrun [Hdb _]]].
  rewrite Hrun. simpl snd. rewrite Hdb, lookup_fold_update.
  rewrite (unique_id_lookup a _ Hnd Hin).
  rewrite (unique_id_count (sms_triggers smsData) a _ Hnd Hin).
  destruct (sms_triggers smsData a); simpl.
  - reflexivity.
  - rewrite with_statistics_same. reflexivity.
Qed.

Lemma existsb_same {A} (p q : A -> bool) (l : list A) :
  (forall x, p x = q x) -> existsb p l = existsb q l.
Proof.
  intros H. induction l as [|x l IH]; simpl; [reflexivity|].
  rewrite H, IH. reflexivity.
Qed.

Lemma existsb_or {A} (p q : A -> bool) (l : list A) :
  existsb (fun x => p x || q x) l = existsb p l || existsb q l.
Proof.
  induction l as [|x l IH]; simpl; [reflexivity|].
  rewrite IH. destruct (p x), (q x), (existsb p l); reflexivity.
Qed.




(** X11. The call data the webhook controller builds. From a call
    webhook: 'call.initiated' stands for 'incomingCall', a 'call.hangup'
    whose cause is 'unanswered' for 'missedCall', and every other call
    event ('call.answered', a hangup with another cause) for nothing,
    so that [processCallEvent] answers not processed and touches
    nothing. From a recording webhook of type 'call.recording.saved':
    always 'voicemail', the recording being flagged as a voicemail
    without a look at the call. *)
Theorem call_webhook_condition (clk : Clock) (event : Webhook.t)
  (w : World) :
  (Webhook.event_type event = "call.initiated" ->
   conditionType_of (WebhookController.callData_of_call event)
   = Some "incomingCall")
  /\ (Webhook.event_type event = "call.hangup" ->
      Webhook.hangup_cause event = Some "unanswered" ->
      conditionType_of (WebhookController.callData_of_call event)
      = Some "missedCall")
  /\ (Webhook.event_type event <> "call.initiated" ->
      (Webhook.event_type event = "call.hangup" ->
       Webhook.hangup_cause event <> Some "unanswered") ->
      processCallEvent env clk (WebhookController.callData_of_call event) w
      = (Return
           (NotProcessed
              "Event type does not match any automation conditions"), w))
  /\ (Webhook.event_type event = "call.recording.saved" ->
      conditionType_of (WebhookController.callData_of_recording event)
      = Some "voicemail").
Proof.
  unfold conditionType_of, WebhookController.callData_of_call,
    WebhookController.callData_of_recording. simpl.
  split; [intros ->; reflexivity|].
  split; [intros -> ->; reflexivity|].
  split; [|intros ->; reflexivity].
  intros Hinit Hhang.
  unfold processCallEvent, try_catch, conditionType_of. simpl.
  apply String.eqb_neq in Hinit. rewrite Hinit.
  destruct (Webhook.event_type event =? "call.hangup") eqn:Hh; simpl.
  - apply String.eqb_eq in Hh. specialize (Hhang Hh).
    unfold option_is.
    destruct (Webhook.hangup_cause event) as [c|]; simpl.
    + destruct (c =? "unanswered") eqn:Hc.
      * apply String.eqb_eq in Hc. congruence.
      * rewrite andb_false_r. reflexivity.
    + rewrite andb_false_r. reflexivity.
  - rewrite andb_false_r. reflexivity.
Qed.

(** X12. No entry point and no timer callback changes anything of an
    automation but its statistics: after each of them the collection
    holds the same automations in the same order, with the same
    identifier, name, active flag, owner, number, conditions and
    actions; and none of the counters [timesTriggered], [successCount]
    and [errorCount] has gone down. *)
Theorem automations_only_statistics (clk : Clock) (w : World) :
  (forall smsData,
      Forall2 same_but_statistics (automations w)
        (automations (snd (processIncomingSms env clk smsData w))))
  /\ (forall callData,
         Forall2 same_but_statistics (automations w)
           (automations (snd (processCallEvent env clk callData w))))
  /\ Forall2 same_but_statistics (automations w)
       (automations (snd (processScheduledAutomations env clk w)))
  /\ (forall userId isAvailable,
         Forall2 same_but_statistics (automations w)
           (automations
              (snd (processAvailabilityChange env clk userId isAvailable w))))
  /\ (forall cb,
         Forall2 same_but_statistics (automations w)
           (automations (snd (fire env clk cb w)))).
Proof.
  split; [|split; [|split; [|split]]].
  - intros smsData.
    destruct (processIncomingSms_run clk smsData w) as [w' [Hrun [Hdb _]]].
    rewrite Hrun. simpl snd. rewrite Hdb. apply fold_update_counters.
  - intros callData. unfold processCallEvent, try_catch.
    destruct (conditionType_of callData) as [ct|];
      [|apply Forall2_refl_counters].
    unfold bind at 1, readAutomations.
    destruct (find_for_call (CallEvent.to callData) ct (automations w))
      as [|a found]; [apply Forall2_refl_counters|].
    destruct (callEvent_loop_spec clk ct callData (a :: found) [] w)
      as [w' [Hloop Hdb]].
    unfold bind, ret. rewrite Hloop. simpl snd. rewrite Hdb.
    apply fold_update_counters.
  - unfold processScheduledAutomations, try_catch, bind at 1,
      readAutomations.
    unfold bind at 1, lift.
    destruct (populate_user env _) as [l|e]; [|apply Forall2_refl_counters].
    destruct l as [|p l]; [apply Forall2_refl_counters|].
    destruct (scheduled_loop_spec clk (format_HHmm clk)
                (Js.toLowerCase (format_dddd (weekday clk))) (p :: l) [] w)
      as [w' [Hloop Hdb]].
    unfold bind, ret. rewrite Hloop. simpl snd. rewrite Hdb.
    apply fold_update_counters.
  - intros userId isAvailable.
    unfold processAvailabilityChange, try_catch, bind at 1, lift.
    destruct (User_findById env userId) as [[user|]|e];
      try apply Forall2_refl_counters.
    destruct (User.telnyxPhoneNumber user) as [phone|];
      [|apply Forall2_refl_counters].
    destruct (phone =? ""); [apply Forall2_refl_counters|].
    unfold bind at 1, readAutomations.
    destruct (find_availability phone _ (automations w)) as [|a l];
      [apply Forall2_refl_counters|].
    destruct (availability_loop_spec clk
                (if isAvailable then "available" else "unavailable")
                userId user (a :: l) [] w) as [w' [Hloop Hdb]].
    unfold bind, ret. rewrite Hloop. simpl snd. rewrite Hdb.
    apply fold_update_counters.
  - intros [callControlId | automationId action context]; simpl.
    + unfold TelnyxService.fireRecordStart, try_catch, bind,
        TelnyxService.calls_update, ret.
      destruct (calls_update_oracle _ _ _ _); apply Forall2_refl_counters.
    + unfold delayedCallback, try_catch, bind at 1, findById.
      destruct (find _ (automations w)) as [a|];
        [|apply Forall2_refl_counters].
      destruct (Automation.isActive a); simpl;
        [|apply Forall2_refl_counters].
      destruct (executeAction_step env clk action context w)
        as [r [sent [w1 [Hr [_ [_ [_ [_ [_ [_ Ha]]]]]]]]]].
      unfold bind. rewrite Hr. unfold findByIdAndUpdate. simpl.
      rewrite Ha. apply update_by_id_counters. intros st. simpl. lia.
Qed.

(** The query of [processAvailabilityChange] finds the active
    automations on the number that have an availability condition and a
    condition naming the status or 'any'. *)
Lemma find_availability_triggers (phone status : string)
  (db : list Automation.t) :
  find_availability phone status db
  = filter (availability_triggers phone status) db.
Proof.
  unfold find_availability. apply filter_ext. intros a.
  unfold availability_triggers, has_condition.
  rewrite existsb_or.
  rewrite (existsb_same (type_in ["availability"])
             (fun c => Condition.type c =? "availability"))
    by (intros c; unfold type_in; simpl; apply orb_false_r).
  reflexivity.
Qed.

(** X13. [processAvailabilityChange]: a user look-up that throws
    surfaces as 'Failed to process availability SMS automations: ...';
    an unknown user or one without Telnyx number is not processed; in
    both cases the world is left as it was. Otherwise every automation
    that is active, on the user's number, has a condition of type
    'availability' and has a condition that names the new status or
    'any' is reported as triggered, by name and in the order of the
    collection ('No automations configured for <status> status' when
    there is none), while no message is handed to the client. *)
Theorem processAvailabilityChange_result (clk : Clock) (userId : string)
  (isAvailable : bool) (w : World) :
  let run := processAvailabilityChange env clk userId isAvailable w in
  let availabilityStatus :=
    if isAvailable then "available" else "unavailable" in
  (forall e,
      User_findById env userId = Throw e ->
      run = (Throw ("Failed to process availability SMS automations: " ++ e),
             w))
  /\ (User_findById env userId = Return None ->
      run = (Return (NotProcessed "User not found or has no phone number"),
             w))
  /\ (forall user,
         User_findById env userId = Return (Some user) ->
         Js.truthy (User.telnyxPhoneNumber user) = false ->
         run = (Return (NotProcessed "User not found or has no phone number"),
                w))
  /\ (forall user phone,
         User_findById env userId = Return (Some user) ->
         User.telnyxPhoneNumber user = Some phone -> phone <> "" ->
         fst run
         = Return
             (answer_for
                ("No automations configured for " ++ availabilityStatus
                 ++ " status")
                (filter (availability_triggers phone availabilityStatus)
                   (automations w)))
         /\ messages (snd run) = messages w).
Proof.
  cbv zeta.
  split; [|split; [|split]].
  - intros e He.
    unfold processAvailabilityChange, try_catch, bind at 1, lift.
    rewrite He. reflexivity.
  - intros He.
    unfold processAvailabilityChange, try_catch, bind at 1, lift.
    rewrite He. reflexivity.
  - intros user He Hno. unfold Js.truthy in Hno.
    unfold processAvailabilityChange, try_catch, bind at 1, lift.
    rewrite He.
    destruct (User.telnyxPhoneNumber user) as [phone|]; [|reflexivity].
    destruct (phone =? ""); [reflexivity | discriminate].
  - intros user phone He Hphone Hne. apply String.eqb_neq in Hne.
    pose proof (processAvailabilityChange_messages env clk userId
                  isAvailable w) as Hm.
    split; [|exact Hm].
    unfold processAvailabilityChange, try_catch, bind at 1, lift.
    rewrite He, Hphone, Hne.
    unfold bind at 1, readAutomations.
    rewrite find_availability_triggers.
    destruct (filter _ (automations w)) as [|a l]; [reflexivity|].
    destruct (availability_loop_spec clk
                (if isAvailable then "available" else "unavailable")
                userId user (a :: l) [] w) as [w' [Hloop _]].
    unfold bind, ret. rewrite Hloop. reflexivity.
Qed.

End EntryFacts.

(** ** Rendering *)

Section RenderFacts.

Import SmsAutomationService.

Variable env : Env.

Lemma brace_free_cons (c : ascii) (s : string) :
  brace_free (String c s) = true ->
  Ascii.eqb "{" c = false /\ brace_free s = true.
Proof.
  unfold brace_free. intros H. cbn [string_forall] in H.
  apply andb_prop in H. destruct H as [Hc Hs]. split; [|exact Hs].
  destruct (Ascii.eqb "{" c) eqn:E; [|reflexivity].
  apply Ascii.eqb_eq in E. subst c. discriminate.
Qed.

Lemma brace_free_app (s t : string) :
  brace_free s = true -> brace_free t = true -> brace_free (s ++ t) = true.
Proof.
  unfold brace_free. induction s as [|c s IH]; simpl; [auto|].
  intros H Ht. apply andb_prop in H. destruct H as [Hc Hs].
  rewrite Hc. simpl. apply IH; assumption.
Qed.

(** A pattern that starts with an opening brace passes over a text
    without one. *)
Lemma replace_scan_brace_free (pat : list Regex.atom)
  (value before s rest : string) :
  brace_free s = true ->
  Regex.replace_scan (Regex.Lit "{" :: pat) value before 0 (s ++ rest)
  = s ++ Regex.replace_scan (Regex.Lit "{" :: pat) value (before ++ s) 0 rest.
Proof.
  revert before. induction s as [|c s IH]; intros before Hs.
  - simpl. replace (before ++ "") with before; [reflexivity|].
    clear. induction before; simpl; congruence.
  - apply brace_free_cons in Hs. destruct Hs as [Hc Hs].
    cbn [append Regex.replace_scan Regex.match_here Regex.atom_matches].
    rewrite Hc. cbn [andb]. rewrite IH by exact Hs.
    replace ((before ++ String c "") ++ s) with (before ++ String c s);
      [reflexivity|].
    clear. induction before; simpl; congruence.
Qed.

Lemma replace_all_brace_free (key value s : string) :
  brace_free s = true ->
  Regex.replace_all (String "{" key) value s = s.
Proof.
  intros Hs. unfold Regex.replace_all.
  change (Regex.compile (String "{" key))
    with (Regex.Lit "{" :: Regex.compile key).
  replace s with (s ++ "") at 1
    by (clear; induction s; simpl; congruence).
  rewrite replace_scan_brace_free by exact Hs. simpl.
  clear. induction s; simpl; congruence.
Qed.

(** X14. A template whose content has no opening brace is rendered as
    it is, whatever the context holds and whatever the user look-up
    answers. *)
Theorem processTemplate_brace_free (clk : Clock) (template : Template.t)
  (context : Context.t) :
  brace_free (Template.content template) = true ->
  processTemplate env clk template context = Template.content template.
Proof.
  intros Hfree. unfold processTemplate.
  destruct (template_user env context) as [user|e]; [|reflexivity].
  unfold replace_variables, variables. cbn [fold_left fst snd].
  repeat rewrite (replace_all_brace_free _ _ (Template.content template))
    by exact Hfree.
  reflexivity.
Qed.

Lemma append_empty (s : string) : s ++ "" = s.
Proof. induction s; simpl; congruence. Qed.

Lemma replace_scan_rest_brace_free (pat : list Regex.atom)
  (value before s : string) :
  brace_free s = true ->
  Regex.replace_scan (Regex.Lit "{" :: pat) value before 0 s = s.
Proof.
  intros Hs. rewrite <- (append_empty s) at 1.
  rewrite replace_scan_brace_free by exact Hs. simpl. apply append_empty.
Qed.

(** A replacement without a dollar sign stands for itself. *)
Lemma getSubstitution_dollar_free (matched before after r : string) :
  dollar_free r = true ->
  Regex.getSubstitution matched before after r = r.
Proof.
  unfold dollar_free. induction r as [|c r IH]; [reflexivity|].
  intros H. cbn [string_forall] in H. apply andb_prop in H.
  destruct H as [Hc Hr]. specialize (IH Hr).
  destruct c as [[] [] [] [] [] [] [] []]; try discriminate Hc;
    cbn [Regex.getSubstitution]; rewrite IH; reflexivity.
Qed.

(** A key other than '{{message}}' passes over the placeholder. *)
Lemma replace_all_passes (c3 : ascii) (key value pre post : string) :
  Ascii.eqb c3 "." = false -> Ascii.eqb c3 "m" = false ->
  brace_free pre = true -> brace_free post = true ->
  Regex.replace_all (String "{" (String "{" (String c3 key))) value
    (pre ++ "{{message}}" ++ post)
  = pre ++ "{{message}}" ++ post.
Proof.
  intros Hdot Hm Hpre Hpost. unfold Regex.replace_all.
  cbn [Regex.compile]. rewrite Hdot.
  change (Ascii.eqb "{" ".") with false. cbn iota.
  rewrite replace_scan_brace_free by exact Hpre. f_equal.
  cbn [append Regex.replace_scan Regex.match_here Regex.atom_matches].
  rewrite Hm. simpl.
  rewrite replace_scan_rest_brace_free by exact Hpost. reflexivity.
Qed.

(** The key '{{message}}' puts the value in place of the placeholder. *)
Lemma replace_all_message (value pre post : string) :
  dollar_free value = true ->
  brace_free pre = true -> brace_free post = true ->
  Regex.replace_all "{{message}}" value (pre ++ "{{message}}" ++ post)
  = pre ++ value ++ post.
Proof.
  intros Hvalue Hpre Hpost. unfold Regex.replace_all.
  change (Regex.compile "{{message}}")
    with (Regex.Lit "{" :: Regex.compile "{message}}").
  rewrite replace_scan_brace_free by exact Hpre. f_equal.
  simpl. rewrite getSubstitution_dollar_free by exact Hvalue. f_equal.
  apply (replace_scan_rest_brace_free (Regex.compile "{message}}")).
  exact Hpost.
Qed.

(** X15. A template with the single placeholder '{{message}}' and no
    other opening brace: when the user look-up does not throw and the
    message text holds neither a dollar sign nor an opening brace, the
    rendering is the content with the message text in the place of the
    placeholder. *)
Theorem processTemplate_message (clk : Clock) (name pre post text : string)
  (context : Context.t) (user : option User.t) :
  template_user env context = Return user ->
  Context.messageText context = Some text ->
  brace_free pre = true -> brace_free post = true ->
  brace_free text = true -> dollar_free text = true ->
  processTemplate env clk
    {| Template.name := name;
       Template.content := pre ++ "{{message}}" ++ post |} context
  = pre ++ text ++ post.
Proof.
  intros Huser Htext Hpre Hpost Hbrace Hdollar.
  unfold processTemplate. rewrite Huser.
  unfold replace_variables, variables. cbn [fold_left fst snd Template.content].
  repeat rewrite (replace_all_passes _ _ _ pre post)
    by (reflexivity || assumption).
  assert (Hvalue : Js.or_else (Context.messageText context) "" = text).
  { rewrite Htext. simpl. destruct (text =? "") eqn:E; [|reflexivity].
    apply String.eqb_eq in E. congruence. }
  rewrite Hvalue, replace_all_message by assumption.
  repeat rewrite (replace_all_brace_free _ _ (pre ++ text ++ post))
    by (repeat apply brace_free_app; assumption).
  reflexivity.
Qed.

End RenderFacts.

(** ** The webhook controllers *)

Section ControllerFacts.

Import CallController.

Variable cenv : ControllerEnv.

(** The service never answers 'voicemail' to an incoming call. *)
Lemma handleIncomingCall_not_voicemail (clk : Clock) (user : User.t)
  (callControlId : string) (w : World) (r : TelnyxService.CallResult)
  (w' : World) :
  TelnyxService.handleIncomingCall (services cenv) clk user callControlId w
  = (Return r, w') ->
  (TelnyxService.action r =? "voicemail") = false.
Proof.
  unfold TelnyxService.handleIncomingCall, try_catch, bind, ret, throw,
    TelnyxService.calls_update.
  destruct (TelnyxService.isUserAvailable clk user);
    [| destruct (User.routeToLiveAgent user
                 && Js.truthy (User.liveAgentNumber user)) ];
    simpl;
    repeat (match goal with
            | |- context [calls_update_oracle ?c ?h ?i ?m] =>
                destruct (calls_update_oracle c h i m); simpl
            end);
    intros H; inversion H; reflexivity.
Qed.

Lemma update_call_in (id : string) (f : CallRecord.t -> CallRecord.t)
  (l : list CallRecord.t) (c : CallRecord.t) :
  In c (update_call id f l) -> In c l \/ exists c0, In c0 l /\ c = f c0.
Proof.
  induction l as [|x l IH]; simpl; [tauto|].
  destruct (CallRecord._id x =? id); simpl.
  - intros [<- | H]; [right; exists x; auto | left; auto].
  - intros [<- | H]; [left; auto|].
    destruct (IH H) as [H' | [c0 [H0 H1]]]; [left; auto|].
    right. exists c0. auto.
Qed.

Lemma handleIncomingCall_store (clk : Clock) (event : Webhook.t)
  (st : World * Store) :
  no_voicemail_status (snd st) ->
  no_voicemail_status (snd (snd (handleIncomingCall cenv clk event st)))
  /\ voicemail_records (snd (snd (handleIncomingCall cenv clk event st)))
     = voicemail_records (snd st).
Proof.
  intros Hinv. unfold handleIncomingCall.
  destruct (negb (Webhook.event_type event =? "call.initiated")
            || negb (SmsAutomationService.option_is "incoming"
                       (Webhook.direction event)));
    [split; [exact Hinv | reflexivity]|].
  destruct (User_findOne cenv (Webhook.to event)) as [[[uid user]|]|e];
    try (split; [exact Hinv | reflexivity]).
  assert (Hsaved : forall call,
    CallRecord.status call = "initiated" ->
    no_voicemail_status (save_call call (snd st))).
  { intros call Hstatus c Hin. unfold save_call in Hin. simpl in Hin.
    apply in_app_or in Hin. destruct Hin as [Hin | [<- | []]].
    - apply Hinv. exact Hin.
    - rewrite Hstatus. discriminate. }
  destruct (TelnyxService.handleIncomingCall (services cenv) clk user
              (Webhook.call_control_id event) (fst st))
    as [[result|e] w'] eqn:Hrun.
  - rewrite (handleIncomingCall_not_voicemail _ _ _ _ _ _ Hrun).
    split; [apply Hsaved; reflexivity | reflexivity].
  - split; [apply Hsaved; reflexivity | reflexivity].
Qed.

Lemma handleCallRecording_store (clk : Clock) (event : Webhook.t)
  (st : World * Store) :
  no_voicemail_status (snd st) ->
  no_voicemail_status (snd (snd (handleCallRecording clk event st)))
  /\ voicemail_records (snd (snd (handleCallRecording clk event st)))
     = voicemail_records (snd st).
Proof.
  intros Hinv. unfold handleCallRecording.
  destruct (negb (Webhook.event_type event =? "call.recording.saved"));
    [split; [exact Hinv | reflexivity]|].
  destruct (negb (Js.truthy (Webhook.recording_url_mp3 event)));
    [split; [exact Hinv | reflexivity]|].
  destruct (find _ (call_records (snd st))) as [call|] eqn:Hfind;
    [|split; [exact Hinv | reflexivity]].
  apply find_some in Hfind. destruct Hfind as [Hin _].
  pose proof (Hinv call Hin) as Hstatus.
  apply String.eqb_neq in Hstatus. rewrite Hstatus. simpl.
  split; [|reflexivity].
  intros c Hc. apply update_call_in in Hc.
  destruct Hc as [Hc | [c0 [_ ->]]]; [apply Hinv; exact Hc|].
  simpl. discriminate.
Qed.

(** X16. No voicemail record is ever created. The call controller
    marks a call as 'voicemail' only when the service answers the
    action 'voicemail' to an incoming call, which it never does; and a
    saved recording becomes a voicemail record only for a call with that
    status. So from a store without such a call, after any sequence of
    incoming-call and call-recording webhooks, with any client and any
    users, there is still no such call and the voicemail records are the
    ones there were. *)
Theorem voicemail_never_recorded (deliveries : list Delivery)
  (st : World * Store) :
  no_voicemail_status (snd st) ->
  no_voicemail_status (snd (fold_left (deliver cenv) deliveries st))
  /\ voicemail_records (snd (fold_left (deliver cenv) deliveries st))
     = voicemail_records (snd st).
Proof.
  revert st. induction deliveries as [|d ds IH]; intros st Hinv; simpl.
  - split; [exact Hinv | reflexivity].
  - assert (Hstep :
      no_voicemail_status (snd (deliver cenv st d))
      /\ voicemail_records (snd (deliver cenv st d))
         = voicemail_records (snd st)).
    { destruct d as [clk event | clk event]; simpl.
      - apply handleIncomingCall_store. exact Hinv.
      - apply handleCallRecording_store. exact Hinv. }
    destruct Hstep as [Hinv' Hsame].
    destruct (IH (deliver cenv st d) Hinv') as [Hfinal Hrecords].
    split; [exact Hfinal | congruence].
Qed.

(** Whenever the DTMF handler returns, its action is the one the digit
    selects. *)
Lemma handleUnavailableDTMF_action (env : Env)
  (event : TelnyxService.GatherPayload) (user : User.t) (w w' : World)
  (r : TelnyxService.CallResult) :
  TelnyxService.handleUnavailableDTMF env event user w = (Return r, w') ->
  TelnyxService.action r
  = match TelnyxService.digit event with
    | Some d => if d =? "2" then "forwarded_to_central" else "voicemail"
    | None => "voicemail"
    end.
Proof.
  unfold TelnyxService.handleUnavailableDTMF. intros Hrun.
  assert (Hvm : forall cid,
    TelnyxService.sendToVoicemail env cid user w = (Return r, w') ->
    TelnyxService.action r = "voicemail").
  { intros cid. apply sendToVoicemail_action. }
  destruct (TelnyxService.digit event) as [d|]; [|apply (Hvm _ Hrun)].
  destruct (d =? "1") eqn:H1.
  - apply String.eqb_eq in H1. subst d. simpl. apply (Hvm _ Hrun).
  - destruct (d =? "2") eqn:H2; [|apply (Hvm _ Hrun)].
    revert Hrun. unfold TelnyxService.forwardToCentral, try_catch, bind,
      ret, throw, TelnyxService.calls_update.
    destruct (calls_update_oracle _ _ _ _); simpl; intros H;
      inversion H; reflexivity.
Qed.

(** With a client that accepts its commands the DTMF handler returns. *)
Lemma handleUnavailableDTMF_returns (env : Env)
  (event : TelnyxService.GatherPayload) (user : User.t) (w : World) :
  accepts_all env ->
  exists r w',
    TelnyxService.handleUnavailableDTMF env event user w = (Return r, w').
Proof.
  intros Hok. unfold TelnyxService.handleUnavailableDTMF.
  assert (Hcentral : exists r w',
    TelnyxService.forwardToCentral env
      (TelnyxService.call_control_id event) w = (Return r, w')).
  { unfold TelnyxService.forwardToCentral, try_catch, bind, ret,
      TelnyxService.calls_update.
    match goal with
    | |- context [calls_update_oracle ?c ?h ?i ?m] =>
        destruct (Hok h i m) as [data ->]
    end.
    eauto. }
  destruct (TelnyxService.digit event) as [d|];
    [|apply sendToVoicemail_returns; exact Hok].
  destruct (d =? "1"); [apply sendToVoicemail_returns; exact Hok|].
  destruct (d =? "2");
    [exact Hcentral | apply sendToVoicemail_returns; exact Hok].
Qed.

(** X17. [handleGatherEvent]: a gather that is not part of the
    unavailable flow, or one on a number no user owns, is acknowledged
    without a command to the client; a look-up of the user that fails is
    answered with the error 'Failed to process gather event'. In the
    unavailable flow of a known user the handler leaves the world as
    [handleUnavailableDTMF] leaves it: when the service returns, the
    answer carries its action, 'forwarded_to_central' when the digit is
    '2' and 'voicemail' otherwise, and so it is with a client that
    accepts every command; when the service throws, the answer is the
    error, and so it is when the digit is '2' and the client rejects
    the transfer. *)
Theorem handleGatherEvent_cases (event : Webhook.t) (w : World) :
  let handled := WebhookController.handleGatherEvent cenv event w in
  let action :=
    match Webhook.digit event with
    | Some d => if d =? "2" then "forwarded_to_central" else "voicemail"
    | None => "voicemail"
    end in
  let transfer :=
    Transfer (Some "+18446942885") None (WEBHOOK_URL (services cenv))
      "transfer" in
  (Webhook.client_state event <> Some "unavailable-flow" ->
   handled = (Received None, w))
  /\ (Webhook.client_state event = Some "unavailable-flow" ->
      User_findOne cenv (Webhook.to event) = Return None ->
      handled = (Received None, w))
  /\ (forall e,
         Webhook.client_state event = Some "unavailable-flow" ->
         User_findOne cenv (Webhook.to event) = Throw e ->
         handled = (Failed "Failed to process gather event", w))
  /\ (forall id user,
         Webhook.client_state event = Some "unavailable-flow" ->
         User_findOne cenv (Webhook.to event) = Return (Some (id, user)) ->
         let service :=
           TelnyxService.handleUnavailableDTMF (services cenv)
             {| TelnyxService.call_control_id :=
                  Webhook.call_control_id event;
                TelnyxService.digit := Webhook.digit event |}
             user w in
         snd handled = snd service
         /\ (forall r, fst service = Return r ->
                       fst handled = Received (Some action))
         /\ (forall e, fst service = Throw e ->
                       fst handled
                       = Failed "Failed to process gather event")
         /\ (accepts_all (services cenv) ->
             fst handled = Received (Some action))
         /\ (forall e,
                Webhook.digit event = Some "2" ->
                calls_update_oracle (telnyxClient (services cenv)) (calls w)
                  (Webhook.call_control_id event) transfer
                = Throw e ->
                handled
                = (Failed "Failed to process gather event",
                   log_call (Webhook.call_control_id event) transfer w))).
Proof.
  cbv zeta.
  assert (Hto : Js.or_else (Some (Webhook.to event)) "" = Webhook.to event).
  { simpl. destruct (Webhook.to event =? "") eqn:E; [|reflexivity].
    apply String.eqb_eq in E. congruence. }
  unfold WebhookController.handleGatherEvent. rewrite Hto.
  split; [|split; [|split]].
  - intros Hstate. unfold SmsAutomationService.option_is.
    destruct (Webhook.client_state event) as [cs|]; [|reflexivity].
    destruct (cs =? "unavailable-flow") eqn:E; [|reflexivity].
    apply String.eqb_eq in E. congruence.
  - intros -> ->. reflexivity.
  - intros e -> ->. reflexivity.
  - intros id user -> ->. simpl.
    destruct (TelnyxService.handleUnavailableDTMF (services cenv) _ user w)
      as [[result|e] w'] eqn:Hrun; cbn [fst snd].
    + pose proof (handleUnavailableDTMF_action _ _ _ _ _ _ Hrun) as Hact.
      cbn [TelnyxService.digit] in Hact.
      split; [reflexivity|].
      split; [intros r _; rewrite Hact; reflexivity|].
      split; [discriminate|].
      split; [intros _; rewrite Hact; reflexivity|].
      intros e Hdigit Hthrow. exfalso. revert Hrun.
      unfold TelnyxService.handleUnavailableDTMF.
      cbn [TelnyxService.digit TelnyxService.call_control_id].
      rewrite Hdigit. simpl.
      unfold TelnyxService.forwardToCentral, try_catch, bind, ret, throw,
        TelnyxService.calls_update.
      unfold TelnyxService.CENTRAL_FORWARDING_NUMBER.
      rewrite Hthrow. discriminate.
    + split; [reflexivity|].
      split; [discriminate|].
      split; [reflexivity|].
      split.
      { intros Hok.
        destruct (handleUnavailableDTMF_returns (services cenv)
                    {| TelnyxService.call_control_id :=
                         Webhook.call_control_id event;
                       TelnyxService.digit := Webhook.digit event |}
                    user w Hok) as [r [w2 Hr]].
        congruence. }
      intros e' Hdigit Hthrow. revert Hrun.
      unfold TelnyxService.handleUnavailableDTMF.
      cbn [TelnyxService.digit TelnyxService.call_control_id].
      rewrite Hdigit. simpl.
      unfold TelnyxService.forwardToCentral, try_catch, bind, ret, throw,
        TelnyxService.calls_update.
      unfold TelnyxService.CENTRAL_FORWARDING_NUMBER.
      rewrite Hthrow. intros H. inversion H. reflexivity.
Qed.

End ControllerFacts.

(** ** Further instances on the sample data *)

Lemma isUserAvailable_chronological_witness :
  TelnyxService.isUserAvailable Sample.clock Sample.jane = true.
Proof.
  rewrite (isUserAvailable_chronological Sample.clock Sample.jane
             {| Day.day := "monday"; Day.isAvailable := true;
                Day.startTime := "09:00"; Day.endTime := "17:00" |}
             9 0 17 0); try reflexivity; simpl; lia.
Defined.

Lemma isUserInMeeting_iff_witness :
  CalendarService.isUserInMeeting Sample.clock Sample.jane_in_meeting = true.
Proof.
  apply (proj2 (isUserInMeeting_iff Sample.clock Sample.jane_in_meeting)).
  exists Sample.calendar, Sample.meeting.
  repeat split; try reflexivity.
  - left. reflexivity.
  - discriminate.
  - simpl. lia.
  - simpl. lia.
Defined.

Lemma handleIncomingCall_commands_witness :
  fst (TelnyxService.handleIncomingCall Sample.dead_env Sample.clock
         Sample.jane "call-1" (Sample.world []))
  = Throw "Failed to handle call: call not found".
Proof.
  destruct (handleIncomingCall_commands Sample.dead_env Sample.clock
              Sample.jane "call-1" (Sample.world []))
    as [client_state [rest [_ [_ [_ [_ [_ [_ Hrejected]]]]]]]].
  destruct (Hrejected "call not found" eq_refl) as [_ H]. exact H.
Defined.

Lemma generateGitHubVoicemailUrl_segment_witness :
  exists segment,
    TelnyxService.generateGitHubVoicemailUrl Sample.jane
    = "https://raw.githubusercontent.com/GavvlLaw/voicemail-greetings/main/"
      ++ segment
    /\ ~ In "/"%char (list_ascii_of_string segment).
Proof.
  destruct (generateGitHubVoicemailUrl_segment Sample.jane)
    as [segment [Hurl [_ Hchars]]].
  exists segment. split; [exact Hurl|].
  intros Hin. destruct (Hchars _ Hin) as [Hslash _]. apply Hslash.
  reflexivity.
Defined.

Lemma executeAutomationActions_trace_witness :
  let context :=
    SmsAutomationService.smsContext Sample.hello_sms (Some "auto-7") in
  exists results sent w',
    SmsAutomationService.executeAutomationActions Sample.env Sample.clock
      Sample.welcome context (Sample.world [])
    = (Return results, w')
    /\ map result_type results = ["sendSms"; "sendSms"; "sendSms"]
    /\ map (fun r => SmsAutomationService.status r =? "scheduled") results
       = [false; true; true]
    /\ timers w'
       = [ (Some 300000%Z, DeferAction "auto-7" Sample.reminder context);
           (Some 1%Z, DeferAction "auto-7" Sample.month_later context) ]
    /\ messages w' = sent
    /\ List.length sent <= 1.
Proof.
  intros context.
  destruct (executeAutomationActions_trace Sample.env Sample.clock
              Sample.welcome context (Sample.world []))
    as [results [sent [w' [Hrun [Hty [Hst [Ht [Hm [Hlen _]]]]]]]]].
  exists results, sent, w'.
  split; [exact Hrun|]. split; [exact Hty|].
  split; [|split; [exact Ht | split; [exact Hm | exact Hlen]]].
  cbn in Hst.
  inversion Hst as [|a1 r1 l1 rs1 H1 Hrest1]; subst.
  inversion Hrest1 as [|a2 r2 l2 rs2 H2 Hrest2]; subst.
  inversion Hrest2 as [|a3 r3 l3 rs3 H3 Hrest3]; subst.
  inversion Hrest3; subst. cbn [map].
  assert (E1 : (SmsAutomationService.status r1 =? "scheduled") = false).
  { destruct (SmsAutomationService.status r1 =? "scheduled") eqn:E;
      [|reflexivity].
    apply String.eqb_eq in E. apply H1 in E.
    destruct E as [d [v [ps [Hps [Hd _]]]]].
    inversion Hps; subst ps. discriminate. }
  assert (E2 : SmsAutomationService.status r2 = "scheduled").
  { apply H2. eexists _, 5%Z, _. repeat split; reflexivity. }
  assert (E3 : SmsAutomationService.status r3 = "scheduled").
  { apply H3. eexists _, 30%Z, _. repeat split; reflexivity. }
  rewrite E1, E2, E3. reflexivity.
Defined.

Lemma sendSms_literal_outcome_witness :
  let context :=
    SmsAutomationService.callContext "missedCall" Sample.missed_call
      Sample.callback in
  let m := {| Message.from := "+15559990000"; Message.to := "+15557654321";
              Message.text := "Sorry we missed your call." |} in
  SmsAutomationService.executeAction Sample.env Sample.clock
    (sendSmsMessage "Sorry we missed your call.") context
    (Sample.world Sample.collection)
  = (Return
       (SmsAutomationService.SendSmsSuccess "msg-1" "+15557654321"
          "+15559990000"),
     log_message m (Sample.world Sample.collection)).
Proof.
  intros context m.
  apply (sendSms_literal_outcome Sample.env Sample.clock context
           "Sorry we missed your call." "+15559990000" "+15557654321"
           (Sample.world Sample.collection));
    try reflexivity; discriminate.
Defined.

Lemma processIncomingSms_result_witness :
  SmsAutomationService.processIncomingSms Sample.env Sample.clock
    Sample.greeting_sms (Sample.world Sample.collection)
  = (Return (SmsAutomationService.Summary false [] 0),
     Sample.world Sample.collection).
Proof.
  destruct (processIncomingSms_result Sample.env Sample.clock
              Sample.greeting_sms (Sample.world Sample.collection))
    as [w' [Hrun Hnone]].
  rewrite Hrun, (Hnone eq_refl). reflexivity.
Defined.

Lemma processIncomingSms_statistics_witness :
  lookup "auto-1"
    (automations
       (snd (SmsAutomationService.processIncomingSms Sample.dead_env
               Sample.clock Sample.stop_sms
               (Sample.world Sample.collection))))
  = Some
      (SmsAutomationService.with_statistics Sample.unsubscribe
         {| Stats.timesTriggered := 1;
            Stats.lastTriggered := Some 1793615400000%Z;
            Stats.successCount := 1; Stats.errorCount := 0 |}).
Proof.
  apply (processIncomingSms_statistics Sample.dead_env Sample.clock
           Sample.stop_sms (Sample.world Sample.collection)
           Sample.unsubscribe).
  - simpl. repeat constructor; simpl; intuition discriminate.
  - simpl. right. left. reflexivity.
Defined.


Lemma call_webhook_condition_witness :
  SmsAutomationService.conditionType_of
    (WebhookController.callData_of_call Sample.initiated)
  = Some "incomingCall".
Proof.
  apply (proj1 (call_webhook_condition Sample.env Sample.clock
                  Sample.initiated (Sample.world []))).
  reflexivity.
Defined.

Lemma automations_only_statistics_witness :
  Forall2 same_but_statistics Sample.collection
    (automations
       (snd (SmsAutomationService.processIncomingSms Sample.dead_env
               Sample.clock Sample.stop_sms
               (Sample.world Sample.collection))))
  /\ Forall2 same_but_statistics Sample.collection
       (automations
          (snd (fire Sample.env Sample.clock
                  (DeferAction "auto-2" Sample.reminder
                     (SmsAutomationService.smsContext Sample.hello_sms
                        (Some "auto-2")))
                  (Sample.world Sample.collection)))).
Proof.
  destruct (automations_only_statistics Sample.dead_env Sample.clock
              (Sample.world Sample.collection)) as [Hsms _].
  destruct (automations_only_statistics Sample.env Sample.clock
              (Sample.world Sample.collection)) as [_ [_ [_ [_ Hfire]]]].
  split; [apply Hsms | apply Hfire].
Defined.

Lemma processAvailabilityChange_result_witness :
  fst (SmsAutomationService.processAvailabilityChange Sample.office_env
         Sample.clock "user-1" false
         (Sample.world [Sample.unsubscribe; Sample.away_notice]))
  = Return (SmsAutomationService.Summary true ["Away notice"] 1)
  /\ fst (SmsAutomationService.processAvailabilityChange Sample.office_env
            Sample.clock "user-1" true
            (Sample.world [Sample.unsubscribe; Sample.away_notice]))
     = Return
         (SmsAutomationService.NotProcessed
            "No automations configured for available status")
  /\ SmsAutomationService.processAvailabilityChange Sample.env Sample.clock
       "user-9" true (Sample.world Sample.collection)
     = (Return
          (SmsAutomationService.NotProcessed
             "User not found or has no phone number"),
        Sample.world Sample.collection).
Proof.
  split; [|split].
  - destruct (processAvailabilityChange_result Sample.office_env
                Sample.clock "user-1" false
                (Sample.world [Sample.unsubscribe; Sample.away_notice]))
      as [_ [_ [_ Hknown]]].
    destruct (Hknown Sample.jane "+15551234567" eq_refl eq_refl)
      as [Hanswer _]; [discriminate|].
    exact Hanswer.
  - destruct (processAvailabilityChange_result Sample.office_env
                Sample.clock "user-1" true
                (Sample.world [Sample.unsubscribe; Sample.away_notice]))
      as [_ [_ [_ Hknown]]].
    destruct (Hknown Sample.jane "+15551234567" eq_refl eq_refl)
      as [Hanswer _]; [discriminate|].
    exact Hanswer.
  - destruct (processAvailabilityChange_result Sample.env Sample.clock
                "user-9" true (Sample.world Sample.collection))
      as [_ [Hunknown _]].
    apply Hunknown. reflexivity.
Defined.

Lemma processTemplate_brace_free_witness :
  SmsAutomationService.processTemplate Sample.env Sample.clock
    {| Template.name := "thanks";
       Template.content := "Thank you, we will call you back." |}
    (SmsAutomationService.smsContext Sample.stop_sms None)
  = "Thank you, we will call you back.".
Proof.
  apply (processTemplate_brace_free Sample.env Sample.clock
           {| Template.name := "thanks";
              Template.content := "Thank you, we will call you back." |}).
  reflexivity.
Defined.

Lemma processTemplate_message_witness :
  SmsAutomationService.processTemplate Sample.env Sample.clock
    {| Template.name := "echo";
       Template.content := "You said: " ++ "{{message}}" ++ ". Bye" |}
    (SmsAutomationService.smsContext Sample.stop_sms None)
  = "You said: STOP. Bye".
Proof.
  apply (processTemplate_message Sample.env Sample.clock "echo"
           "You said: " ". Bye" "STOP"
           (SmsAutomationService.smsContext Sample.stop_sms None) None);
    reflexivity.
Defined.

Lemma voicemail_never_recorded_witness :
  voicemail_records
    (snd (fold_left (deliver Sample.cenv)
            [ToIncomingCall Sample.clock Sample.initiated;
             ToCallRecording Sample.clock Sample.recording_saved]
            (Sample.world [], Sample.empty_store)))
  = [].
Proof.
  destruct (voicemail_never_recorded Sample.cenv
              [ToIncomingCall Sample.clock Sample.initiated;
               ToCallRecording Sample.clock Sample.recording_saved]
              (Sample.world [], Sample.empty_store)) as [_ Hrecords].
  - intros c [].
  - exact Hrecords.
Defined.

Lemma handleGatherEvent_cases_witness :
  fst (WebhookController.handleGatherEvent Sample.cenv
         (Sample.gathered (Some "2")) (Sample.world []))
  = Received (Some "forwarded_to_central")
  /\ fst (WebhookController.handleGatherEvent Sample.cenv
            (Sample.gathered (Some "7")) (Sample.world []))
     = Received (Some "voicemail")
  /\ WebhookController.handleGatherEvent Sample.dead_cenv
       (Sample.gathered (Some "2")) (Sample.world [])
     = (Failed "Failed to process gather event",
        log_call "call-1"
          (Transfer (Some "+18446942885") None
             (Some "https://example.test/webhooks") "transfer")
          (Sample.world []))
  /\ WebhookController.handleGatherEvent Sample.cenv Sample.initiated
       (Sample.world [])
     = (Received None, Sample.world []).
Proof.
  split; [|split; [|split]].
  - destruct (handleGatherEvent_cases Sample.cenv
                (Sample.gathered (Some "2")) (Sample.world []))
      as [_ [_ [_ Hflow]]].
    destruct (Hflow "user-1" Sample.jane eq_refl eq_refl)
      as [_ [_ [_ [Hok _]]]].
    apply Hok. intros history id cmd. exists "ok". reflexivity.
  - destruct (handleGatherEvent_cases Sample.cenv
                (Sample.gathered (Some "7")) (Sample.world []))
      as [_ [_ [_ Hflow]]].
    destruct (Hflow "user-1" Sample.jane eq_refl eq_refl)
      as [_ [_ [_ [Hok _]]]].
    apply Hok. intros history id cmd. exists "ok". reflexivity.
  - destruct (handleGatherEvent_cases Sample.dead_cenv
                (Sample.gathered (Some "2")) (Sample.world []))
      as [_ [_ [_ Hflow]]].
    destruct (Hflow "user-1" Sample.jane eq_refl eq_refl)
      as [_ [_ [_ [_ Hdead]]]].
    apply (Hdead "call not found"); reflexivity.
  - apply (proj1 (handleGatherEvent_cases Sample.cenv Sample.initiated
                    (Sample.world []))).
    discriminate.
Defined.
